(** * SmartPDF-Analyzer: shallow embedding of the page-processing pipeline

    Python [str] values are modelled as lists of Unicode code points
    ([text := list N]).  ASCII literals are written [u "..."]. *)

From Stdlib Require Import String Ascii List NArith ZArith Bool Lia.
From Stdlib Require Import SpecFloat.
Import ListNotations.
Open Scope list_scope.
Set Warnings "-register-all".

(** ** Text *)

Definition text := list N.

Definition u (s : string) : text := map N_of_ascii (list_ascii_of_string s).

Definition nl : N := 10%N.

(** [strip_prefix p s]: the rest of [s] after the prefix [p], if [p] is one. *)
Fixpoint strip_prefix (p s : text) : option text :=
  match p with
  | [] => Some s
  | c :: p' =>
      match s with
      | [] => None
      | d :: s' => if N.eqb c d then strip_prefix p' s' else None
      end
  end.

(** [occursb p s]: [p] occurs somewhere in [s] (Python [p in s]). *)
Fixpoint occursb (p s : text) : bool :=
  match strip_prefix p s with
  | Some _ => true
  | None =>
      match s with
      | [] => false
      | _ :: s' => occursb p s'
      end
  end.

(** Number of characters up to and including the first occurrence of [p]. *)
Fixpoint find_after (p s : text) : option nat :=
  match strip_prefix p s with
  | Some _ => Some (length p)
  | None =>
      match s with
      | [] => None
      | _ :: s' => option_map S (find_after p s')
      end
  end.

(** ** Response post-processing (api_client.py, [OpenAIClient.process_page])

    [re.sub(r'<thinking>.*?</thinking>', '', content, flags=re.DOTALL)]:
    at each position, scanning left to right, the pattern matches iff the
    opening tag starts there and a closing tag follows it; the lazy [.*?]
    with DOTALL stops at the first closing tag, across newlines.  A match
    consumes its characters; [skip] counts those still to be dropped. *)

Definition open_tag : text := u "<thinking>".
Definition close_tag : text := u "</thinking>".

Definition thinking_match_len (s : text) : option nat :=
  match strip_prefix open_tag s with
  | Some r => option_map (fun n => length open_tag + n) (find_after close_tag r)
  | None => None
  end.

Fixpoint sub_thinking (skip : nat) (s : text) : text :=
  match s with
  | [] => []
  | c :: s' =>
      match skip with
      | S k => sub_thinking k s'
      | O =>
          match thinking_match_len s with
          | Some (S n) => sub_thinking n s'
          | _ => c :: sub_thinking O s'
          end
      end
  end.

Definition remove_thinking (s : text) : text := sub_thinking O s.

(** [re.sub(r'\n{3,}', '\n\n', s)]: a maximal run of [pending] newlines is
    replaced by two newlines when it has at least three. *)
Definition emit_newlines (pending : nat) : text :=
  if Nat.leb 3 pending then [nl; nl] else repeat nl pending.

Fixpoint collapse_nl (pending : nat) (s : text) : text :=
  match s with
  | [] => emit_newlines pending
  | c :: s' =>
      if N.eqb c nl then collapse_nl (S pending) s'
      else emit_newlines pending ++ c :: collapse_nl O s'
  end.

Definition collapse_newlines (s : text) : text := collapse_nl O s.

(** The two substitutions in the order [process_page] applies them. *)
Definition clean_response (content : text) : text :=
  collapse_newlines (remove_thinking content).

(** ** Python string helpers *)

(** ** Unicode character classes

    The tables are those of Python's [unicodedata] (Unicode 14.0, the
    database of Python 3.11), given as ranges of code points. *)

Definition nd_zeros : list N :=
  [
  48; 1632; 1776; 1984; 2406; 2534; 2662; 2790; 2918; 3046; 3174; 3302; 3430; 3558;
  3664; 3792; 3872; 4160; 4240; 6112; 6160; 6470; 6608; 6784; 6800; 6992; 7088; 7232;
  7248; 42528; 43216; 43264; 43472; 43504; 43600; 44016; 65296; 66720; 68912; 69734;
  69872; 69942; 70096; 70384; 70736; 70864; 71248; 71360; 71472; 71904; 72016; 72784;
  73040; 73120; 92768; 92864; 93008; 120782; 120792; 120802; 120812; 120822; 123200;
  123632; 125264; 130032
  ]%N.

Definition word_ranges : list (N * N) :=
  [
  (48, 57); (65, 90); (95, 95); (97, 122); (170, 170); (178, 179); (181, 181);
  (185, 186); (188, 190); (192, 214); (216, 246); (248, 705); (710, 721); (736, 740);
  (748, 748); (750, 750); (880, 884); (886, 887); (890, 893); (895, 895); (902, 902);
  (904, 906); (908, 908); (910, 929); (931, 1013); (1015, 1153); (1162, 1327);
  (1329, 1366); (1369, 1369); (1376, 1416); (1488, 1514); (1519, 1522); (1568, 1610);
  (1632, 1641); (1646, 1647); (1649, 1747); (1749, 1749); (1765, 1766); (1774, 1788);
  (1791, 1791); (1808, 1808); (1810, 1839); (1869, 1957); (1969, 1969); (1984, 2026);
  (2036, 2037); (2042, 2042); (2048, 2069); (2074, 2074); (2084, 2084); (2088, 2088);
  (2112, 2136); (2144, 2154); (2160, 2183); (2185, 2190); (2208, 2249); (2308, 2361);
  (2365, 2365); (2384, 2384); (2392, 2401); (2406, 2415); (2417, 2432); (2437, 2444);
  (2447, 2448); (2451, 2472); (2474, 2480); (2482, 2482); (2486, 2489); (2493, 2493);
  (2510, 2510); (2524, 2525); (2527, 2529); (2534, 2545); (2548, 2553); (2556, 2556);
  (2565, 2570); (2575, 2576); (2579, 2600); (2602, 2608); (2610, 2611); (2613, 2614);
  (2616, 2617); (2649, 2652); (2654, 2654); (2662, 2671); (2674, 2676); (2693, 2701);
  (2703, 2705); (2707, 2728); (2730, 2736); (2738, 2739); (2741, 2745); (2749, 2749);
  (2768, 2768); (2784, 2785); (2790, 2799); (2809, 2809); (2821, 2828); (2831, 2832);
  (2835, 2856); (2858, 2864); (2866, 2867); (2869, 2873); (2877, 2877); (2908, 2909);
  (2911, 2913); (2918, 2927); (2929, 2935); (2947, 2947); (2949, 2954); (2958, 2960);
  (2962, 2965); (2969, 2970); (2972, 2972); (2974, 2975); (2979, 2980); (2984, 2986);
  (2990, 3001); (3024, 3024); (3046, 3058); (3077, 3084); (3086, 3088); (3090, 3112);
  (3114, 3129); (3133, 3133); (3160, 3162); (3165, 3165); (3168, 3169); (3174, 3183);
  (3192, 3198); (3200, 3200); (3205, 3212); (3214, 3216); (3218, 3240); (3242, 3251);
  (3253, 3257); (3261, 3261); (3293, 3294); (3296, 3297); (3302, 3311); (3313, 3314);
  (3332, 3340); (3342, 3344); (3346, 3386); (3389, 3389); (3406, 3406); (3412, 3414);
  (3416, 3425); (3430, 3448); (3450, 3455); (3461, 3478); (3482, 3505); (3507, 3515);
  (3517, 3517); (3520, 3526); (3558, 3567); (3585, 3632); (3634, 3635); (3648, 3654);
  (3664, 3673); (3713, 3714); (3716, 3716); (3718, 3722); (3724, 3747); (3749, 3749);
  (3751, 3760); (3762, 3763); (3773, 3773); (3776, 3780); (3782, 3782); (3792, 3801);
  (3804, 3807); (3840, 3840); (3872, 3891); (3904, 3911); (3913, 3948); (3976, 3980);
  (4096, 4138); (4159, 4169); (4176, 4181); (4186, 4189); (4193, 4193); (4197, 4198);
  (4206, 4208); (4213, 4225); (4238, 4238); (4240, 4249); (4256, 4293); (4295, 4295);
  (4301, 4301); (4304, 4346); (4348, 4680); (4682, 4685); (4688, 4694); (4696, 4696);
  (4698, 4701); (4704, 4744); (4746, 4749); (4752, 4784); (4786, 4789); (4792, 4798);
  (4800, 4800); (4802, 4805); (4808, 4822); (4824, 4880); (4882, 4885); (4888, 4954);
  (4969, 4988); (4992, 5007); (5024, 5109); (5112, 5117); (5121, 5740); (5743, 5759);
  (5761, 5786); (5792, 5866); (5870, 5880); (5888, 5905); (5919, 5937); (5952, 5969);
  (5984, 5996); (5998, 6000); (6016, 6067); (6103, 6103); (6108, 6108); (6112, 6121);
  (6128, 6137); (6160, 6169); (6176, 6264); (6272, 6276); (6279, 6312); (6314, 6314);
  (6320, 6389); (6400, 6430); (6470, 6509); (6512, 6516); (6528, 6571); (6576, 6601);
  (6608, 6618); (6656, 6678); (6688, 6740); (6784, 6793); (6800, 6809); (6823, 6823);
  (6917, 6963); (6981, 6988); (6992, 7001); (7043, 7072); (7086, 7141); (7168, 7203);
  (7232, 7241); (7245, 7293); (7296, 7304); (7312, 7354); (7357, 7359); (7401, 7404);
  (7406, 7411); (7413, 7414); (7418, 7418); (7424, 7615); (7680, 7957); (7960, 7965);
  (7968, 8005); (8008, 8013); (8016, 8023); (8025, 8025); (8027, 8027); (8029, 8029);
  (8031, 8061); (8064, 8116); (8118, 8124); (8126, 8126); (8130, 8132); (8134, 8140);
  (8144, 8147); (8150, 8155); (8160, 8172); (8178, 8180); (8182, 8188); (8304, 8305);
  (8308, 8313); (8319, 8329); (8336, 8348); (8450, 8450); (8455, 8455); (8458, 8467);
  (8469, 8469); (8473, 8477); (8484, 8484); (8486, 8486); (8488, 8488); (8490, 8493);
  (8495, 8505); (8508, 8511); (8517, 8521); (8526, 8526); (8528, 8585); (9312, 9371);
  (9450, 9471); (10102, 10131); (11264, 11492); (11499, 11502); (11506, 11507);
  (11517, 11517); (11520, 11557); (11559, 11559); (11565, 11565); (11568, 11623);
  (11631, 11631); (11648, 11670); (11680, 11686); (11688, 11694); (11696, 11702);
  (11704, 11710); (11712, 11718); (11720, 11726); (11728, 11734); (11736, 11742);
  (11823, 11823); (12293, 12295); (12321, 12329); (12337, 12341); (12344, 12348);
  (12353, 12438); (12445, 12447); (12449, 12538); (12540, 12543); (12549, 12591);
  (12593, 12686); (12690, 12693); (12704, 12735); (12784, 12799); (12832, 12841);
  (12872, 12879); (12881, 12895); (12928, 12937); (12977, 12991); (13312, 19903);
  (19968, 42124); (42192, 42237); (42240, 42508); (42512, 42539); (42560, 42606);
  (42623, 42653); (42656, 42735); (42775, 42783); (42786, 42888); (42891, 42954);
  (42960, 42961); (42963, 42963); (42965, 42969); (42994, 43009); (43011, 43013);
  (43015, 43018); (43020, 43042); (43056, 43061); (43072, 43123); (43138, 43187);
  (43216, 43225); (43250, 43255); (43259, 43259); (43261, 43262); (43264, 43301);
  (43312, 43334); (43360, 43388); (43396, 43442); (43471, 43481); (43488, 43492);
  (43494, 43518); (43520, 43560); (43584, 43586); (43588, 43595); (43600, 43609);
  (43616, 43638); (43642, 43642); (43646, 43695); (43697, 43697); (43701, 43702);
  (43705, 43709); (43712, 43712); (43714, 43714); (43739, 43741); (43744, 43754);
  (43762, 43764); (43777, 43782); (43785, 43790); (43793, 43798); (43808, 43814);
  (43816, 43822); (43824, 43866); (43868, 43881); (43888, 44002); (44016, 44025);
  (44032, 55203); (55216, 55238); (55243, 55291); (63744, 64109); (64112, 64217);
  (64256, 64262); (64275, 64279); (64285, 64285); (64287, 64296); (64298, 64310);
  (64312, 64316); (64318, 64318); (64320, 64321); (64323, 64324); (64326, 64433);
  (64467, 64829); (64848, 64911); (64914, 64967); (65008, 65019); (65136, 65140);
  (65142, 65276); (65296, 65305); (65313, 65338); (65345, 65370); (65382, 65470);
  (65474, 65479); (65482, 65487); (65490, 65495); (65498, 65500); (65536, 65547);
  (65549, 65574); (65576, 65594); (65596, 65597); (65599, 65613); (65616, 65629);
  (65664, 65786); (65799, 65843); (65856, 65912); (65930, 65931); (66176, 66204);
  (66208, 66256); (66273, 66299); (66304, 66339); (66349, 66378); (66384, 66421);
  (66432, 66461); (66464, 66499); (66504, 66511); (66513, 66517); (66560, 66717);
  (66720, 66729); (66736, 66771); (66776, 66811); (66816, 66855); (66864, 66915);
  (66928, 66938); (66940, 66954); (66956, 66962); (66964, 66965); (66967, 66977);
  (66979, 66993); (66995, 67001); (67003, 67004); (67072, 67382); (67392, 67413);
  (67424, 67431); (67456, 67461); (67463, 67504); (67506, 67514); (67584, 67589);
  (67592, 67592); (67594, 67637); (67639, 67640); (67644, 67644); (67647, 67669);
  (67672, 67702); (67705, 67742); (67751, 67759); (67808, 67826); (67828, 67829);
  (67835, 67867); (67872, 67897); (67968, 68023); (68028, 68047); (68050, 68096);
  (68112, 68115); (68117, 68119); (68121, 68149); (68160, 68168); (68192, 68222);
  (68224, 68255); (68288, 68295); (68297, 68324); (68331, 68335); (68352, 68405);
  (68416, 68437); (68440, 68466); (68472, 68497); (68521, 68527); (68608, 68680);
  (68736, 68786); (68800, 68850); (68858, 68899); (68912, 68921); (69216, 69246);
  (69248, 69289); (69296, 69297); (69376, 69415); (69424, 69445); (69457, 69460);
  (69488, 69505); (69552, 69579); (69600, 69622); (69635, 69687); (69714, 69743);
  (69745, 69746); (69749, 69749); (69763, 69807); (69840, 69864); (69872, 69881);
  (69891, 69926); (69942, 69951); (69956, 69956); (69959, 69959); (69968, 70002);
  (70006, 70006); (70019, 70066); (70081, 70084); (70096, 70106); (70108, 70108);
  (70113, 70132); (70144, 70161); (70163, 70187); (70272, 70278); (70280, 70280);
  (70282, 70285); (70287, 70301); (70303, 70312); (70320, 70366); (70384, 70393);
  (70405, 70412); (70415, 70416); (70419, 70440); (70442, 70448); (70450, 70451);
  (70453, 70457); (70461, 70461); (70480, 70480); (70493, 70497); (70656, 70708);
  (70727, 70730); (70736, 70745); (70751, 70753); (70784, 70831); (70852, 70853);
  (70855, 70855); (70864, 70873); (71040, 71086); (71128, 71131); (71168, 71215);
  (71236, 71236); (71248, 71257); (71296, 71338); (71352, 71352); (71360, 71369);
  (71424, 71450); (71472, 71483); (71488, 71494); (71680, 71723); (71840, 71922);
  (71935, 71942); (71945, 71945); (71948, 71955); (71957, 71958); (71960, 71983);
  (71999, 71999); (72001, 72001); (72016, 72025); (72096, 72103); (72106, 72144);
  (72161, 72161); (72163, 72163); (72192, 72192); (72203, 72242); (72250, 72250);
  (72272, 72272); (72284, 72329); (72349, 72349); (72368, 72440); (72704, 72712);
  (72714, 72750); (72768, 72768); (72784, 72812); (72818, 72847); (72960, 72966);
  (72968, 72969); (72971, 73008); (73030, 73030); (73040, 73049); (73056, 73061);
  (73063, 73064); (73066, 73097); (73112, 73112); (73120, 73129); (73440, 73458);
  (73648, 73648); (73664, 73684); (73728, 74649); (74752, 74862); (74880, 75075);
  (77712, 77808); (77824, 78894); (82944, 83526); (92160, 92728); (92736, 92766);
  (92768, 92777); (92784, 92862); (92864, 92873); (92880, 92909); (92928, 92975);
  (92992, 92995); (93008, 93017); (93019, 93025); (93027, 93047); (93053, 93071);
  (93760, 93846); (93952, 94026); (94032, 94032); (94099, 94111); (94176, 94177);
  (94179, 94179); (94208, 100343); (100352, 101589); (101632, 101640);
  (110576, 110579); (110581, 110587); (110589, 110590); (110592, 110882);
  (110928, 110930); (110948, 110951); (110960, 111355); (113664, 113770);
  (113776, 113788); (113792, 113800); (113808, 113817); (119520, 119539);
  (119648, 119672); (119808, 119892); (119894, 119964); (119966, 119967);
  (119970, 119970); (119973, 119974); (119977, 119980); (119982, 119993);
  (119995, 119995); (119997, 120003); (120005, 120069); (120071, 120074);
  (120077, 120084); (120086, 120092); (120094, 120121); (120123, 120126);
  (120128, 120132); (120134, 120134); (120138, 120144); (120146, 120485);
  (120488, 120512); (120514, 120538); (120540, 120570); (120572, 120596);
  (120598, 120628); (120630, 120654); (120656, 120686); (120688, 120712);
  (120714, 120744); (120746, 120770); (120772, 120779); (120782, 120831);
  (122624, 122654); (123136, 123180); (123191, 123197); (123200, 123209);
  (123214, 123214); (123536, 123565); (123584, 123627); (123632, 123641);
  (124896, 124902); (124904, 124907); (124909, 124910); (124912, 124926);
  (124928, 125124); (125127, 125135); (125184, 125251); (125259, 125259);
  (125264, 125273); (126065, 126123); (126125, 126127); (126129, 126132);
  (126209, 126253); (126255, 126269); (126464, 126467); (126469, 126495);
  (126497, 126498); (126500, 126500); (126503, 126503); (126505, 126514);
  (126516, 126519); (126521, 126521); (126523, 126523); (126530, 126530);
  (126535, 126535); (126537, 126537); (126539, 126539); (126541, 126543);
  (126545, 126546); (126548, 126548); (126551, 126551); (126553, 126553);
  (126555, 126555); (126557, 126557); (126559, 126559); (126561, 126562);
  (126564, 126564); (126567, 126570); (126572, 126578); (126580, 126583);
  (126585, 126588); (126590, 126590); (126592, 126601); (126603, 126619);
  (126625, 126627); (126629, 126633); (126635, 126651); (127232, 127244);
  (130032, 130041); (131072, 173791); (173824, 177976); (177984, 178205);
  (178208, 183969); (183984, 191456); (194560, 195101); (196608, 201546)
  ]%N.

Definition lower_runs : list (N * N * N * N) :=
  [
  (65, 90, 1, 97); (192, 214, 1, 224); (216, 222, 1, 248); (256, 302, 2, 257);
  (304, 304, 1, 105); (306, 310, 2, 307); (313, 327, 2, 314); (330, 374, 2, 331);
  (376, 376, 1, 255); (377, 381, 2, 378); (385, 385, 1, 595); (386, 388, 2, 387);
  (390, 390, 1, 596); (391, 391, 1, 392); (393, 394, 1, 598); (395, 395, 1, 396);
  (398, 398, 1, 477); (399, 399, 1, 601); (400, 400, 1, 603); (401, 401, 1, 402);
  (403, 403, 1, 608); (404, 404, 1, 611); (406, 406, 1, 617); (407, 407, 1, 616);
  (408, 408, 1, 409); (412, 412, 1, 623); (413, 413, 1, 626); (415, 415, 1, 629);
  (416, 420, 2, 417); (422, 422, 1, 640); (423, 423, 1, 424); (425, 425, 1, 643);
  (428, 428, 1, 429); (430, 430, 1, 648); (431, 431, 1, 432); (433, 434, 1, 650);
  (435, 437, 2, 436); (439, 439, 1, 658); (440, 440, 1, 441); (444, 444, 1, 445);
  (452, 452, 1, 454); (453, 453, 1, 454); (455, 455, 1, 457); (456, 456, 1, 457);
  (458, 458, 1, 460); (459, 475, 2, 460); (478, 494, 2, 479); (497, 497, 1, 499);
  (498, 500, 2, 499); (502, 502, 1, 405); (503, 503, 1, 447); (504, 542, 2, 505);
  (544, 544, 1, 414); (546, 562, 2, 547); (570, 570, 1, 11365); (571, 571, 1, 572);
  (573, 573, 1, 410); (574, 574, 1, 11366); (577, 577, 1, 578); (579, 579, 1, 384);
  (580, 580, 1, 649); (581, 581, 1, 652); (582, 590, 2, 583); (880, 882, 2, 881);
  (886, 886, 1, 887); (895, 895, 1, 1011); (902, 902, 1, 940); (904, 906, 1, 941);
  (908, 908, 1, 972); (910, 911, 1, 973); (913, 929, 1, 945); (931, 939, 1, 963);
  (975, 975, 1, 983); (984, 1006, 2, 985); (1012, 1012, 1, 952); (1015, 1015, 1, 1016);
  (1017, 1017, 1, 1010); (1018, 1018, 1, 1019); (1021, 1023, 1, 891);
  (1024, 1039, 1, 1104); (1040, 1071, 1, 1072); (1120, 1152, 2, 1121);
  (1162, 1214, 2, 1163); (1216, 1216, 1, 1231); (1217, 1229, 2, 1218);
  (1232, 1326, 2, 1233); (1329, 1366, 1, 1377); (4256, 4293, 1, 11520);
  (4295, 4295, 1, 11559); (4301, 4301, 1, 11565); (5024, 5103, 1, 43888);
  (5104, 5109, 1, 5112); (7312, 7354, 1, 4304); (7357, 7359, 1, 4349);
  (7680, 7828, 2, 7681); (7838, 7838, 1, 223); (7840, 7934, 2, 7841);
  (7944, 7951, 1, 7936); (7960, 7965, 1, 7952); (7976, 7983, 1, 7968);
  (7992, 7999, 1, 7984); (8008, 8013, 1, 8000); (8025, 8031, 2, 8017);
  (8040, 8047, 1, 8032); (8072, 8079, 1, 8064); (8088, 8095, 1, 8080);
  (8104, 8111, 1, 8096); (8120, 8121, 1, 8112); (8122, 8123, 1, 8048);
  (8124, 8124, 1, 8115); (8136, 8139, 1, 8050); (8140, 8140, 1, 8131);
  (8152, 8153, 1, 8144); (8154, 8155, 1, 8054); (8168, 8169, 1, 8160);
  (8170, 8171, 1, 8058); (8172, 8172, 1, 8165); (8184, 8185, 1, 8056);
  (8186, 8187, 1, 8060); (8188, 8188, 1, 8179); (8486, 8486, 1, 969);
  (8490, 8490, 1, 107); (8491, 8491, 1, 229); (8498, 8498, 1, 8526);
  (8544, 8559, 1, 8560); (8579, 8579, 1, 8580); (9398, 9423, 1, 9424);
  (11264, 11311, 1, 11312); (11360, 11360, 1, 11361); (11362, 11362, 1, 619);
  (11363, 11363, 1, 7549); (11364, 11364, 1, 637); (11367, 11371, 2, 11368);
  (11373, 11373, 1, 593); (11374, 11374, 1, 625); (11375, 11375, 1, 592);
  (11376, 11376, 1, 594); (11378, 11378, 1, 11379); (11381, 11381, 1, 11382);
  (11390, 11391, 1, 575); (11392, 11490, 2, 11393); (11499, 11501, 2, 11500);
  (11506, 11506, 1, 11507); (42560, 42604, 2, 42561); (42624, 42650, 2, 42625);
  (42786, 42798, 2, 42787); (42802, 42862, 2, 42803); (42873, 42875, 2, 42874);
  (42877, 42877, 1, 7545); (42878, 42886, 2, 42879); (42891, 42891, 1, 42892);
  (42893, 42893, 1, 613); (42896, 42898, 2, 42897); (42902, 42920, 2, 42903);
  (42922, 42922, 1, 614); (42923, 42923, 1, 604); (42924, 42924, 1, 609);
  (42925, 42925, 1, 620); (42926, 42926, 1, 618); (42928, 42928, 1, 670);
  (42929, 42929, 1, 647); (42930, 42930, 1, 669); (42931, 42931, 1, 43859);
  (42932, 42946, 2, 42933); (42948, 42948, 1, 42900); (42949, 42949, 1, 642);
  (42950, 42950, 1, 7566); (42951, 42953, 2, 42952); (42960, 42960, 1, 42961);
  (42966, 42968, 2, 42967); (42997, 42997, 1, 42998); (65313, 65338, 1, 65345);
  (66560, 66599, 1, 66600); (66736, 66771, 1, 66776); (66928, 66938, 1, 66967);
  (66940, 66954, 1, 66979); (66956, 66962, 1, 66995); (66964, 66965, 1, 67003);
  (68736, 68786, 1, 68800); (71840, 71871, 1, 71872); (93760, 93791, 1, 93792);
  (125184, 125217, 1, 125218)
  ]%N.

Definition case_ignorable_ranges : list (N * N) :=
  [
  (39, 39); (46, 46); (58, 58); (94, 94); (96, 96); (168, 168); (173, 173); (175, 175);
  (180, 180); (183, 184); (688, 879); (884, 885); (890, 890); (900, 901); (903, 903);
  (1155, 1161); (1369, 1369); (1375, 1375); (1425, 1469); (1471, 1471); (1473, 1474);
  (1476, 1477); (1479, 1479); (1524, 1524); (1536, 1541); (1552, 1562); (1564, 1564);
  (1600, 1600); (1611, 1631); (1648, 1648); (1750, 1757); (1759, 1768); (1770, 1773);
  (1807, 1807); (1809, 1809); (1840, 1866); (1958, 1968); (2027, 2037); (2042, 2042);
  (2045, 2045); (2070, 2093); (2137, 2139); (2184, 2184); (2192, 2193); (2200, 2207);
  (2249, 2306); (2362, 2362); (2364, 2364); (2369, 2376); (2381, 2381); (2385, 2391);
  (2402, 2403); (2417, 2417); (2433, 2433); (2492, 2492); (2497, 2500); (2509, 2509);
  (2530, 2531); (2558, 2558); (2561, 2562); (2620, 2620); (2625, 2626); (2631, 2632);
  (2635, 2637); (2641, 2641); (2672, 2673); (2677, 2677); (2689, 2690); (2748, 2748);
  (2753, 2757); (2759, 2760); (2765, 2765); (2786, 2787); (2810, 2815); (2817, 2817);
  (2876, 2876); (2879, 2879); (2881, 2884); (2893, 2893); (2901, 2902); (2914, 2915);
  (2946, 2946); (3008, 3008); (3021, 3021); (3072, 3072); (3076, 3076); (3132, 3132);
  (3134, 3136); (3142, 3144); (3146, 3149); (3157, 3158); (3170, 3171); (3201, 3201);
  (3260, 3260); (3263, 3263); (3270, 3270); (3276, 3277); (3298, 3299); (3328, 3329);
  (3387, 3388); (3393, 3396); (3405, 3405); (3426, 3427); (3457, 3457); (3530, 3530);
  (3538, 3540); (3542, 3542); (3633, 3633); (3636, 3642); (3654, 3662); (3761, 3761);
  (3764, 3772); (3782, 3782); (3784, 3789); (3864, 3865); (3893, 3893); (3895, 3895);
  (3897, 3897); (3953, 3966); (3968, 3972); (3974, 3975); (3981, 3991); (3993, 4028);
  (4038, 4038); (4141, 4144); (4146, 4151); (4153, 4154); (4157, 4158); (4184, 4185);
  (4190, 4192); (4209, 4212); (4226, 4226); (4229, 4230); (4237, 4237); (4253, 4253);
  (4348, 4348); (4957, 4959); (5906, 5908); (5938, 5939); (5970, 5971); (6002, 6003);
  (6068, 6069); (6071, 6077); (6086, 6086); (6089, 6099); (6103, 6103); (6109, 6109);
  (6155, 6159); (6211, 6211); (6277, 6278); (6313, 6313); (6432, 6434); (6439, 6440);
  (6450, 6450); (6457, 6459); (6679, 6680); (6683, 6683); (6742, 6742); (6744, 6750);
  (6752, 6752); (6754, 6754); (6757, 6764); (6771, 6780); (6783, 6783); (6823, 6823);
  (6832, 6862); (6912, 6915); (6964, 6964); (6966, 6970); (6972, 6972); (6978, 6978);
  (7019, 7027); (7040, 7041); (7074, 7077); (7080, 7081); (7083, 7085); (7142, 7142);
  (7144, 7145); (7149, 7149); (7151, 7153); (7212, 7219); (7222, 7223); (7288, 7293);
  (7376, 7378); (7380, 7392); (7394, 7400); (7405, 7405); (7412, 7412); (7416, 7417);
  (7468, 7530); (7544, 7544); (7579, 7679); (8125, 8125); (8127, 8129); (8141, 8143);
  (8157, 8159); (8173, 8175); (8189, 8190); (8203, 8207); (8216, 8217); (8228, 8228);
  (8231, 8231); (8234, 8238); (8288, 8292); (8294, 8303); (8305, 8305); (8319, 8319);
  (8336, 8348); (8400, 8432); (11388, 11389); (11503, 11505); (11631, 11631);
  (11647, 11647); (11744, 11775); (11823, 11823); (12293, 12293); (12330, 12333);
  (12337, 12341); (12347, 12347); (12441, 12446); (12540, 12542); (40981, 40981);
  (42232, 42237); (42508, 42508); (42607, 42610); (42612, 42621); (42623, 42623);
  (42652, 42655); (42736, 42737); (42752, 42785); (42864, 42864); (42888, 42890);
  (42994, 42996); (43000, 43001); (43010, 43010); (43014, 43014); (43019, 43019);
  (43045, 43046); (43052, 43052); (43204, 43205); (43232, 43249); (43263, 43263);
  (43302, 43309); (43335, 43345); (43392, 43394); (43443, 43443); (43446, 43449);
  (43452, 43453); (43471, 43471); (43493, 43494); (43561, 43566); (43569, 43570);
  (43573, 43574); (43587, 43587); (43596, 43596); (43632, 43632); (43644, 43644);
  (43696, 43696); (43698, 43700); (43703, 43704); (43710, 43711); (43713, 43713);
  (43741, 43741); (43756, 43757); (43763, 43764); (43766, 43766); (43867, 43871);
  (43881, 43883); (44005, 44005); (44008, 44008); (44013, 44013); (64286, 64286);
  (64434, 64450); (65024, 65039); (65043, 65043); (65056, 65071); (65106, 65106);
  (65109, 65109); (65279, 65279); (65287, 65287); (65294, 65294); (65306, 65306);
  (65342, 65342); (65344, 65344); (65392, 65392); (65438, 65439); (65507, 65507);
  (65529, 65531); (66045, 66045); (66272, 66272); (66422, 66426); (67456, 67461);
  (67463, 67504); (67506, 67514); (68097, 68099); (68101, 68102); (68108, 68111);
  (68152, 68154); (68159, 68159); (68325, 68326); (68900, 68903); (69291, 69292);
  (69446, 69456); (69506, 69509); (69633, 69633); (69688, 69702); (69744, 69744);
  (69747, 69748); (69759, 69761); (69811, 69814); (69817, 69818); (69821, 69821);
  (69826, 69826); (69837, 69837); (69888, 69890); (69927, 69931); (69933, 69940);
  (70003, 70003); (70016, 70017); (70070, 70078); (70089, 70092); (70095, 70095);
  (70191, 70193); (70196, 70196); (70198, 70199); (70206, 70206); (70367, 70367);
  (70371, 70378); (70400, 70401); (70459, 70460); (70464, 70464); (70502, 70508);
  (70512, 70516); (70712, 70719); (70722, 70724); (70726, 70726); (70750, 70750);
  (70835, 70840); (70842, 70842); (70847, 70848); (70850, 70851); (71090, 71093);
  (71100, 71101); (71103, 71104); (71132, 71133); (71219, 71226); (71229, 71229);
  (71231, 71232); (71339, 71339); (71341, 71341); (71344, 71349); (71351, 71351);
  (71453, 71455); (71458, 71461); (71463, 71467); (71727, 71735); (71737, 71738);
  (71995, 71996); (71998, 71998); (72003, 72003); (72148, 72151); (72154, 72155);
  (72160, 72160); (72193, 72202); (72243, 72248); (72251, 72254); (72263, 72263);
  (72273, 72278); (72281, 72283); (72330, 72342); (72344, 72345); (72752, 72758);
  (72760, 72765); (72767, 72767); (72850, 72871); (72874, 72880); (72882, 72883);
  (72885, 72886); (73009, 73014); (73018, 73018); (73020, 73021); (73023, 73029);
  (73031, 73031); (73104, 73105); (73109, 73109); (73111, 73111); (73459, 73460);
  (78896, 78904); (92912, 92916); (92976, 92982); (92992, 92995); (94031, 94031);
  (94095, 94111); (94176, 94177); (94179, 94180); (110576, 110579); (110581, 110587);
  (110589, 110590); (113821, 113822); (113824, 113827); (118528, 118573);
  (118576, 118598); (119143, 119145); (119155, 119170); (119173, 119179);
  (119210, 119213); (119362, 119364); (121344, 121398); (121403, 121452);
  (121461, 121461); (121476, 121476); (121499, 121503); (121505, 121519);
  (122880, 122886); (122888, 122904); (122907, 122913); (122915, 122916);
  (122918, 122922); (123184, 123197); (123566, 123566); (123628, 123631);
  (125136, 125142); (125252, 125259); (127995, 127999); (917505, 917505);
  (917536, 917631); (917760, 917999)
  ]%N.

Definition cased_ranges : list (N * N) :=
  [
  (65, 90); (97, 122); (170, 170); (181, 181); (186, 186); (192, 214); (216, 246);
  (248, 442); (444, 447); (452, 659); (661, 687); (880, 883); (886, 887); (891, 893);
  (895, 895); (902, 902); (904, 906); (908, 908); (910, 929); (931, 1013);
  (1015, 1153); (1162, 1327); (1329, 1366); (1376, 1416); (4256, 4293); (4295, 4295);
  (4301, 4301); (4304, 4346); (4349, 4351); (5024, 5109); (5112, 5117); (7296, 7304);
  (7312, 7354); (7357, 7359); (7424, 7467); (7531, 7543); (7545, 7578); (7680, 7957);
  (7960, 7965); (7968, 8005); (8008, 8013); (8016, 8023); (8025, 8025); (8027, 8027);
  (8029, 8029); (8031, 8061); (8064, 8116); (8118, 8124); (8126, 8126); (8130, 8132);
  (8134, 8140); (8144, 8147); (8150, 8155); (8160, 8172); (8178, 8180); (8182, 8188);
  (8450, 8450); (8455, 8455); (8458, 8467); (8469, 8469); (8473, 8477); (8484, 8484);
  (8486, 8486); (8488, 8488); (8490, 8493); (8495, 8500); (8505, 8505); (8508, 8511);
  (8517, 8521); (8526, 8526); (8544, 8575); (8579, 8580); (9398, 9449); (11264, 11387);
  (11390, 11492); (11499, 11502); (11506, 11507); (11520, 11557); (11559, 11559);
  (11565, 11565); (42560, 42605); (42624, 42651); (42786, 42863); (42865, 42887);
  (42891, 42894); (42896, 42954); (42960, 42961); (42963, 42963); (42965, 42969);
  (42997, 42998); (43002, 43002); (43824, 43866); (43872, 43880); (43888, 43967);
  (64256, 64262); (64275, 64279); (65313, 65338); (65345, 65370); (66560, 66639);
  (66736, 66771); (66776, 66811); (66928, 66938); (66940, 66954); (66956, 66962);
  (66964, 66965); (66967, 66977); (66979, 66993); (66995, 67001); (67003, 67004);
  (68736, 68786); (68800, 68850); (71840, 71903); (93760, 93823); (119808, 119892);
  (119894, 119964); (119966, 119967); (119970, 119970); (119973, 119974);
  (119977, 119980); (119982, 119993); (119995, 119995); (119997, 120003);
  (120005, 120069); (120071, 120074); (120077, 120084); (120086, 120092);
  (120094, 120121); (120123, 120126); (120128, 120132); (120134, 120134);
  (120138, 120144); (120146, 120485); (120488, 120512); (120514, 120538);
  (120540, 120570); (120572, 120596); (120598, 120628); (120630, 120654);
  (120656, 120686); (120688, 120712); (120714, 120744); (120746, 120770);
  (120772, 120779); (122624, 122633); (122635, 122654); (125184, 125251);
  (127280, 127305); (127312, 127337); (127344, 127369)
  ]%N.

Definition in_ranges (rs : list (N * N)) (c : N) : bool :=
  existsb (fun '(lo, hi) => (lo <=? c)%N && (c <=? hi)%N) rs.

(** The value of a decimal digit (category Nd): the digits of each script
    are ten consecutive code points, from the one in [nd_zeros]. *)
Definition decimal_value (c : N) : option N :=
  match find (fun z => (z <=? c)%N && (c <? z + 10)%N) nd_zeros with
  | Some z => Some (c - z)%N
  | None => None
  end.

(** [\d] of [re] on [str]: a decimal digit of any script. *)
Definition is_digit (c : N) : bool :=
  match decimal_value c with Some _ => true | None => false end.

(** The simple lowercase mapping of one code point ([Py_UNICODE_TOLOWER],
    the mapping [re.IGNORECASE] compares with).  [lower_runs] lists runs
    [(lo, hi, stride, to)]: [lo], [lo + stride], ..., [hi] map to [to],
    [to + stride], .... *)
Definition lower_simple (c : N) : N :=
  match find (fun '(lo, hi, st, _) => (lo <=? c)%N && (c <=? hi)%N && ((c - lo) mod st =? 0)%N)
             lower_runs with
  | Some (lo, _, _, to) => (to + (c - lo))%N
  | None => c
  end.

Definition is_case_ignorable (c : N) : bool := in_ranges case_ignorable_ranges c.

(** Cased characters that are not case-ignorable: the final-sigma test
    skips case-ignorable characters and asks [cased] of the first other
    one only. *)
Definition is_cased (c : N) : bool := in_ranges cased_ranges c.

(** Whether the first character of [s] that is not case-ignorable is
    cased ([false] when there is none). *)
Fixpoint next_is_cased (s : text) : bool :=
  match s with
  | [] => false
  | c :: s' => if is_case_ignorable c then next_is_cased s' else is_cased c
  end.

(** [str.lower()] ([do_lower] of CPython): the full lowercase mapping,
    which differs from the simple one at U+0130 (to "i" and U+0307), and
    U+03A3 (capital sigma), which becomes the final sigma U+03C2 when the
    nearest character before it that is not case-ignorable is cased and
    the nearest one after it is not (or there is none), and U+03C3
    otherwise.  [prev_cased] is the test for the characters before. *)
Fixpoint py_lower_from (prev_cased : bool) (s : text) : text :=
  match s with
  | [] => []
  | c :: s' =>
      (if (c =? 931)%N then [if prev_cased && negb (next_is_cased s') then 962%N else 963%N]
       else if (c =? 304)%N then [105; 775]%N
       else [lower_simple c])
      ++ py_lower_from (if is_case_ignorable c then prev_cased else is_cased c) s'
  end.

Definition py_lower (s : text) : text := py_lower_from false s.


Fixpoint text_eqb (a b : text) : bool :=
  match a, b with
  | [], [] => true
  | c :: a', d :: b' => N.eqb c d && text_eqb a' b'
  | _, _ => false
  end.

(** Truthiness of an [Optional[str]]: [None] and [""] are falsy. *)
Definition truthy (o : option text) : bool :=
  match o with Some (_ :: _) => true | _ => false end.

(** ** JSON values and Python subscripting on them *)

(** [response.json()]; numbers are kept as integers, their value plays
    no role in the code. *)
Inductive json :=
| JNull
| JBool (b : bool)
| JNum (z : Z)
| JStr (t : text)
| JArr (l : list json)
| JObj (kv : list (text * json)).

Inductive pyexc := KeyError | IndexError | TypeError | JSONDecodeError.

Inductive pyres (A : Type) := Ok (a : A) | Exc (e : pyexc).
Arguments Ok {A} a.
Arguments Exc {A} e.

Definition pybind {A B} (r : pyres A) (k : A -> pyres B) : pyres B :=
  match r with Ok a => k a | Exc e => Exc e end.

(** [json.loads] keeps the last value of a duplicated key. *)
Definition obj_lookup (k : text) (kv : list (text * json)) : option json :=
  match find (fun e => text_eqb (fst e) k) (rev kv) with
  | Some (_, v) => Some v
  | None => None
  end.

(** [v["key"]] *)
Definition getitem_key (k : text) (v : json) : pyres json :=
  match v with
  | JObj kv => match obj_lookup k kv with Some x => Ok x | None => Exc KeyError end
  | _ => Exc TypeError
  end.

(** [v[0]]: lists and strings are indexed; a dict has no integer keys. *)
Definition getitem_0 (v : json) : pyres json :=
  match v with
  | JArr [] => Exc IndexError
  | JArr (x :: _) => Ok x
  | JStr [] => Exc IndexError
  | JStr (c :: _) => Ok (JStr [c])
  | JObj _ => Exc KeyError
  | _ => Exc TypeError
  end.

(** ** Requests (api_client.py) *)

Record response := {
  status_code : Z;
  resp_text : text;          (* response.text *)
  resp_json : option json    (* response.json(); None when the body is not JSON *)
}.

(** PAGE_INSTRUCTION_TEMPLATE / PAGE_INSTRUCTION_TEMPLATE_TRANSLATE after
    [.format(page_num=..., total_pages=..., target_language=...)]. *)
Inductive instruction :=
| PageInstr (page_num total_pages : Z)
| PageInstrTranslate (page_num total_pages : Z) (target_language : text).

(** SYSTEM_MESSAGE_EXTRACT, or SYSTEM_MESSAGE_TRANSLATE formatted with the
    target language when one is given (left unformatted otherwise); the
    code appends "\n\n" and the thinking directive to either. *)
Inductive system_template :=
| SysExtract
| SysTranslate (target_language : option text).

Inductive part :=
| PInstr (i : instruction)
| PImagePng (png_bytes : text).   (* "data:image/png;base64," ++ b64encode(bytes) *)

Inductive msg_content :=
| CSystem (tmpl : system_template)
| CParts (parts : list part).

Record message := { role : text; content : msg_content }.

Record payload := {
  p_model : text;
  p_messages : list message;
  p_max_tokens : Z;
  p_temperature : text;        (* the float literal 0.1 *)
  p_gemma_overrides : bool     (* top_p, frequency_penalty, presence_penalty set *)
}.

Inductive page_error :=
| UpstreamError (status : Z) (body : text)       (* "API Error: {status}, {text}" *)
| MalformedResponse (e : pyexc) (result : json)  (* KeyError / IndexError caught and re-raised *)
| Raised (e : pyexc).                            (* any other exception, not caught *)

Definition build_payload (model : text) (image_bytes : text) (instructions : instruction)
    (translate : bool) (target_language : option text) : payload :=
  let tmpl := if translate
              then SysTranslate (if truthy target_language then target_language else None)
              else SysExtract in
  {| p_model := model;
     p_messages := [ {| role := u "system"; content := CSystem tmpl |};
                     {| role := u "user";
                        content := CParts [PInstr instructions; PImagePng image_bytes] |} ];
     p_max_tokens := 4096;
     p_temperature := u "0.1";
     p_gemma_overrides := occursb (u "gemma") (py_lower model) |}.

(** [result["choices"][0]["message"]["content"]] *)
Definition answer_lookup (result : json) : pyres json :=
  pybind (getitem_key (u "choices") result) (fun v =>
  pybind (getitem_0 v) (fun v =>
  pybind (getitem_key (u "message") v) (fun v =>
  getitem_key (u "content") v))).

(** Lines 137-158 of [process_page]. *)
Definition handle_response (r : response) : page_error + text :=
  if negb (Z.eqb (status_code r) 200) then inl (UpstreamError (status_code r) (resp_text r))
  else
    match resp_json r with
    | None => inl (Raised JSONDecodeError)
    | Some result =>
        match answer_lookup result with
        | Exc KeyError => inl (MalformedResponse KeyError result)
        | Exc IndexError => inl (MalformedResponse IndexError result)
        | Exc e => inl (Raised e)
        | Ok (JStr t) => inr (clean_response t)
        | Ok _ => inl (Raised TypeError)    (* len() or re.sub on a non-string *)
        end
    end.

(** [OpenAIClient.process_page]: the endpoint is [post]; the result pairs
    the requests sent with the outcome.  [previous_context] is accepted and
    not used, as in the source. *)
Definition process_page (post : payload -> response) (model image_bytes previous_context : text)
    (instructions : instruction) (translate : bool) (target_language : option text)
    : list payload * (page_error + text) :=
  let p := build_payload model image_bytes instructions translate target_language in
  ([p], handle_response (post p)).

(** The answer field [choices[0].message.content] as a string, read
    along the only path the subscripts succeed on. *)
Definition answer_string (j : json) : option text :=
  match j with
  | JObj kv =>
      match obj_lookup (u "choices") kv with
      | Some (JArr (JObj m :: _)) =>
          match obj_lookup (u "message") m with
          | Some (JObj c) =>
              match obj_lookup (u "content") c with Some (JStr t) => Some t | _ => None end
          | _ => None
          end
      | _ => None
      end
  | _ => None
  end.

(** The answer field is there, whatever its value. *)
Definition answer_field_present (j : json) : bool :=
  match j with
  | JObj kv =>
      match obj_lookup (u "choices") kv with
      | Some (JArr (JObj m :: _)) =>
          match obj_lookup (u "message") m with
          | Some (JObj c) => match obj_lookup (u "content") c with Some _ => true | None => false end
          | _ => false
          end
      | _ => false
      end
  | _ => false
  end.

(** ** More Python string helpers *)

(** [str.isspace()] / the [\s] class of [re] on [str]. *)
Definition is_space (c : N) : bool :=
  ((9 <=? c)%N && (c <=? 13)%N) || ((28 <=? c)%N && (c <=? 32)%N) ||
  (c =? 133)%N || (c =? 160)%N || (c =? 5760)%N ||
  ((8192 <=? c)%N && (c <=? 8202)%N) || (c =? 8232)%N || (c =? 8233)%N ||
  (c =? 8239)%N || (c =? 8287)%N || (c =? 12288)%N.

Fixpoint drop_spaces (s : text) : text :=
  match s with
  | c :: s' => if is_space c then drop_spaces s' else s
  | [] => []
  end.

(** [str.strip()] *)
Definition py_strip (s : text) : text := rev (drop_spaces (rev (drop_spaces s))).

(** [sep.join(parts)] *)
Fixpoint py_join (sep : text) (parts : list text) : text :=
  match parts with
  | [] => []
  | [x] => x
  | x :: rest => x ++ sep ++ py_join sep rest
  end.

(** [str.split(sep)] for a one-character separator. *)
Fixpoint split_on (sep : N) (s : text) : list text :=
  match s with
  | [] => [[]]
  | c :: s' =>
      if N.eqb c sep then [] :: split_on sep s'
      else match split_on sep s' with
           | w :: ws => (c :: w) :: ws
           | [] => [[c]]
           end
  end.

Fixpoint digits_rev (fuel : nat) (n : N) : text :=
  match fuel with
  | O => []
  | S f => (48 + n mod 10)%N :: (if (n <? 10)%N then [] else digits_rev f (n / 10))
  end.

(** [str(n)] for a natural number. *)
Definition n_to_text (n : N) : text := rev (digits_rev (S (N.size_nat n)) n).

(** [str(z)] *)
Definition z_to_text (z : Z) : text :=
  if (z <? 0)%Z then 45%N :: n_to_text (Z.to_N (- z)) else n_to_text (Z.to_N z).

(** [f"{z:03d}"] *)
Definition fmt03 (z : Z) : text :=
  let d := n_to_text (Z.to_N (Z.abs z)) in
  if (z <? 0)%Z then 45%N :: repeat 48%N (2 - length d) ++ d
  else repeat 48%N (3 - length d) ++ d.

(** Decimal digits of any script with single underscores between them,
    as [int()] accepts. *)
Fixpoint parse_digits (s : text) (acc : N) (after_digit : bool) : option N :=
  match s with
  | [] => if after_digit then Some acc else None
  | c :: s' =>
      match decimal_value c with
      | Some v => parse_digits s' (acc * 10 + v)%N true
      | None =>
          if N.eqb c 95 && after_digit then
            match s' with
            | d :: _ => if is_digit d then parse_digits s' acc false else None
            | [] => None
            end
          else None
      end
  end.

(** [int(s)] on a [str]: [None] is the [ValueError]. *)
Definition py_int (s : text) : option Z :=
  match py_strip s with
  | 43%N :: r => option_map Z.of_N (parse_digits r 0 false)
  | 45%N :: r => option_map (fun n => Z.opp (Z.of_N n)) (parse_digits r 0 false)
  | t => option_map Z.of_N (parse_digits t 0 false)
  end.

(** [os.path.basename] (POSIX) *)
Definition basename (path : text) : text := last (split_on 47 path) [].

(** [os.path.join(a, b)] (POSIX) *)
Definition path_join (a b : text) : text :=
  match b with
  | 47%N :: _ => b
  | _ => match a with
         | [] => b
         | _ => if N.eqb (last a 0%N) 47 then a ++ b else a ++ [47%N] ++ b
         end
  end.

(** ** Python values of the metadata dict *)

Inductive pyval := VStr (t : text) | VInt (z : Z).

Definition dict := list (text * pyval).

Definition dict_get (d : dict) (k : text) : option pyval :=
  match find (fun e => text_eqb (fst e) k) d with Some (_, v) => Some v | None => None end.

Definition py_str (v : pyval) : text := match v with VStr t => t | VInt z => z_to_text z end.

Definition pyval_truthy (v : pyval) : bool :=
  match v with VStr t => negb (text_eqb t []) | VInt z => negb (Z.eqb z 0) end.

(** ** pdf_utils.py, [get_pdf_metadata]

    [info] is [reader.metadata], the document information dictionary, for
    a PDF that has one.  For a PDF without one [reader.metadata] is [None]
    and [metadata.get] raises [AttributeError]; [process_datasheet] below
    takes [reader.metadata] as an option and models that case. *)
Definition info_get (info : list (text * text)) (k default : text) : text :=
  match find (fun e => text_eqb (fst e) k) info with Some (_, v) => v | None => default end.

Definition get_pdf_metadata (info : list (text * text)) (page_count : Z) : dict :=
  [ (u "title", VStr (info_get info (u "/Title") (u "Unknown")));
    (u "author", VStr (info_get info (u "/Author") (u "Unknown")));
    (u "subject", VStr (info_get info (u "/Subject") []));
    (u "creator", VStr (info_get info (u "/Creator") []));
    (u "producer", VStr (info_get info (u "/Producer") []));
    (u "page_count", VInt page_count) ].

(** ** markdown_generator.py, [merge_markdown_files]

    The file system maps a path to the text a read of the file in text
    mode ([open(path, 'r')]) returns ([None]: no such file). *)
Definition filesystem := text -> option text.

(** Universal newlines, as a text-mode read decodes them: "\r\n" and a
    lone "\r" become "\n". *)
Fixpoint univ_nl (s : text) : text :=
  match s with
  | [] => []
  | c :: r =>
      if N.eqb c 13 then
        nl :: match r with
              | d :: r' => if N.eqb d nl then univ_nl r' else univ_nl r
              | [] => []
              end
      else c :: univ_nl r
  end.

(** [open(path, 'w').write(contents)]: the file holds [contents] as
    written (no newline translation on POSIX), and reading it back gives
    [univ_nl contents]. *)
Definition fs_write (fs : filesystem) (path contents : text) : filesystem :=
  fun p => if text_eqb p path then Some (univ_nl contents) else fs p.

Definition two_nl : text := [nl; nl].

(** "Документация", "**Автор**: ", "**Описание**: " *)
Definition txt_documentation : text :=
  [1044; 1086; 1082; 1091; 1084; 1077; 1085; 1090; 1072; 1094; 1080; 1103]%N.
Definition txt_author_label : text := [42; 42; 1040; 1074; 1090; 1086; 1088; 42; 42; 58; 32]%N.
Definition txt_subject_label : text :=
  [42; 42; 1054; 1087; 1080; 1089; 1072; 1085; 1080; 1077; 42; 42; 58; 32]%N.

Definition dict_get_default (d : dict) (k : text) (default : pyval) : pyval :=
  match dict_get d k with Some v => v | None => default end.

Definition opt_truthy (o : option pyval) : bool :=
  match o with Some v => pyval_truthy v | None => false end.

(** Lines 36-43: the header; [if metadata:] is false for [None] and [{}]. *)
Definition merge_header (metadata : option dict) : text :=
  match metadata with
  | Some ((_ :: _) as d) =>
      u "# " ++ py_str (dict_get_default d (u "title") (VStr txt_documentation)) ++ two_nl ++
      (if opt_truthy (dict_get d (u "author"))
       then txt_author_label ++ py_str (dict_get_default d (u "author") (VInt 0)) ++ two_nl
       else []) ++
      (if opt_truthy (dict_get d (u "subject"))
       then txt_subject_label ++ py_str (dict_get_default d (u "subject") (VInt 0)) ++ two_nl
       else []) ++
      u "---" ++ two_nl
  | _ => []
  end.

(** Lines 46-51: the stripped contents of the listed files that exist. *)
Fixpoint read_existing (fs : filesystem) (file_paths : list text) : list text :=
  match file_paths with
  | [] => []
  | p :: rest =>
      match fs p with
      | Some c => py_strip c :: read_existing fs rest
      | None => read_existing fs rest
      end
  end.

(** The text written to [output_path]. *)
Definition merge_markdown_files (fs : filesystem) (file_paths : list text)
    (metadata : option dict) : text :=
  merge_header metadata ++ py_join two_nl (read_existing fs file_paths).

(** ** markdown_generator.py, [add_table_of_contents] *)

Fixpoint span (f : N -> bool) (s : text) : text * text :=
  match s with
  | c :: s' => if f c then let (a, b) := span f s' in (c :: a, b) else ([], s)
  | [] => ([], [])
  end.

(** The rest of the line: [.+] stops before a newline. *)
Definition take_line (s : text) : text := fst (span (fun c => negb (N.eqb c nl)) s).

(** Largest index [j >= 1] of [w] whose character is not a newline. *)
Fixpoint last_non_nl_from1 (w : text) (i : nat) (best : option nat) : option nat :=
  match w with
  | [] => best
  | c :: w' => last_non_nl_from1 w' (S i)
                 (if Nat.leb 1 i && negb (N.eqb c nl) then Some i else best)
  end.

(** One attempt of [^(#{1,6})\s+(.+)$] (MULTILINE) at a line start:
    the number of hash marks, the heading text and the length matched.
    [\s+] is greedy and may cross newlines; when nothing follows the
    whitespace it gives characters back until [.+] can start. *)
Definition try_header (s : text) : option (nat * text * nat) :=
  let (hs, r) := span (N.eqb 35) s in
  let h := length hs in
  if Nat.eqb h 0 || Nat.ltb 6 h then None
  else
    let (w, r2) := span is_space r in
    match w with
    | [] => None
    | _ =>
        match r2 with
        | _ :: _ => let t := take_line r2 in Some (h, t, (h + length w + length t)%nat)
        | [] =>
            match last_non_nl_from1 w 0 None with
            | Some j => let t := take_line (skipn j w) in Some (h, t, (h + j + length t)%nat)
            | None => None
            end
        end
    end.

(** [re.findall(r'^(#{1,6})\s+(.+)$', content, re.MULTILINE)]: the scan
    resumes after each match; [at_start] tells whether the position is a
    line start, [skip] how many matched characters remain. *)
Fixpoint find_headers (skip : nat) (at_start : bool) (s : text) : list (nat * text) :=
  match s with
  | [] => []
  | c :: s' =>
      match skip with
      | S k => find_headers k (N.eqb c nl) s'
      | O =>
          match (if at_start then try_header s else None) with
          | Some (h, t, S n) => (h, t) :: find_headers n (N.eqb c nl) s'
          | _ => find_headers O (N.eqb c nl) s'
          end
      end
  end.

Definition headers_of (content : text) : list (nat * text) := find_headers O true content.

(** [\w] on [str]: [str.isalnum()] or the underscore. *)
Definition is_word (c : N) : bool := in_ranges word_ranges c.

(** [anchor = header_text.lower().replace(' ', '-')] then
    [re.sub(r'[^\w\-]', '', anchor)]. *)
Definition anchor (header_text : text) : text :=
  filter (fun c => is_word c || N.eqb c 45)
    (map (fun c => if N.eqb c 32 then 45%N else c) (py_lower header_text)).

(** "содержание", the lowercase title of the generated contents. *)
Definition txt_contents_lower : text :=
  [1089; 1086; 1076; 1077; 1088; 1078; 1072; 1085; 1080; 1077]%N.

(** "## Содержание" followed by a blank line. *)
Definition toc_title : text :=
  [35; 35; 32; 1057; 1086; 1076; 1077; 1088; 1078; 1072; 1085; 1080; 1077]%N ++ two_nl.

(** The headings the loop does not skip. *)
Definition toc_keep (hd : nat * text) : bool :=
  negb (text_eqb (py_lower (snd hd)) txt_contents_lower).

(** One entry: indentation, heading text, anchor. *)
Definition toc_items (headers : list (nat * text)) : list (nat * text * text) :=
  map (fun '(h, t) => (((h - 1) * 2)%nat, t, anchor t)) (filter toc_keep headers).

(** [f"{' ' * (level * 2)}- [{header_text}](#{anchor})\n"] *)
Definition render_item (it : nat * text * text) : text :=
  let '(ind, t, a) := it in
  repeat 32%N ind ++ u "- [" ++ t ++ u "](#" ++ a ++ u ")" ++ [nl].

Definition toc_text (headers : list (nat * text)) : text :=
  toc_title ++ concat (map render_item (toc_items headers)).

(** End of the first match of [^#.+$] (MULTILINE), if any. *)
Fixpoint first_hash_line_end (at_start : bool) (pos : nat) (s : text) : option nat :=
  match s with
  | [] => None
  | c :: s' =>
      if at_start && N.eqb c 35 &&
         match s' with d :: _ => negb (N.eqb d nl) | [] => false end
      then Some (pos + 1 + length (take_line s'))%nat
      else first_hash_line_end (N.eqb c nl) (S pos) s'
  end.

(** [None] is the [AttributeError] of [.end()] on a failed search. *)
Definition add_table_of_contents (content : text) : option text :=
  match headers_of content with
  | [] => Some content
  | headers =>
      match first_hash_line_end true O content with
      | Some e => Some (firstn e content ++ two_nl ++ toc_text headers ++ [nl] ++ skipn e content)
      | None => None
      end
  end.

(** ** markdown_generator.py, [clean_markdown] *)

(** Case-insensitive prefix ([re.IGNORECASE]); [p] is in lowercase. *)
Fixpoint strip_prefix_ci (p s : text) : option text :=
  match p with
  | [] => Some s
  | c :: p' =>
      match s with
      | [] => None
      | d :: s' => if N.eqb c (lower_simple d) then strip_prefix_ci p' s' else None
      end
  end.

(** Largest index of a newline in [w]. *)
Fixpoint last_nl_index (w : text) (i : nat) (best : option nat) : option nat :=
  match w with
  | [] => best
  | c :: w' => last_nl_index w' (S i) (if N.eqb c nl then Some i else best)
  end.

(** Length of a match of [\n\s*Page \d+\s*\n] ([page_word = true],
    IGNORECASE) or of [\n\s*\d+\s*\n] at the start of [s].  Both [\s*]
    are greedy and may cross newlines; the match ends at the last newline
    of the whitespace after the number. *)
Definition marker_len (page_word : bool) (s : text) : option nat :=
  match s with
  | c :: r =>
      if negb (N.eqb c nl) then None
      else
        let (w, r1) := span is_space r in
        match (if page_word then strip_prefix_ci (u "page ") r1 else Some r1) with
        | None => None
        | Some r2 =>
            let (d, r3) := span is_digit r2 in
            match d with
            | [] => None
            | _ =>
                let (w2, _) := span is_space r3 in
                match last_nl_index w2 O None with
                | Some q =>
                    Some (1 + length w + (if page_word then 5 else 0) + length d + q + 1)%nat
                | None => None
                end
            end
        end
  | [] => None
  end.

(** [re.sub(pattern, '\n', s)] for the two patterns above. *)
Fixpoint sub_marker (page_word : bool) (skip : nat) (s : text) : text :=
  match s with
  | [] => []
  | c :: s' =>
      match skip with
      | S k => sub_marker page_word k s'
      | O =>
          match marker_len page_word s with
          | Some (S n) => nl :: sub_marker page_word n s'
          | _ => c :: sub_marker page_word O s'
          end
      end
  end.

Definition clean_markdown (content : text) : text :=
  sub_marker false O (sub_marker true O (collapse_newlines content)).

(** ** pdf_utils.py, [resize_image_if_needed] *)

(** A page image as the loop sees it: its path, the bytes stored there
    (what [encode_image] reads) and the file size. *)
Record page_image := { img_path : text; img_bytes : text; img_size : N }.

(** The file is rewritten in place when larger than [max_size]; [shrink]
    stands for PIL's resize-and-save, whose output is the new file. *)
Definition resize_image_if_needed (shrink : page_image -> text) (max_size : N)
    (img : page_image) : page_image :=
  if (img_size img <=? max_size)%N then img
  else {| img_path := img_path img; img_bytes := shrink img;
          img_size := N.of_nat (length (shrink img)) |}.

Definition max_image_size : N := (5 * 1024 * 1024)%N.

(** *** The resize itself

    The loop above takes PIL's work as [shrink].  Here the function is
    followed line by line.  Python floats are IEEE binary64 numbers,
    rounding to nearest-even ([SpecFloat] with 53 bits of precision and
    [emax = 1024]). *)

Definition f64_prec : Z := 53.
Definition f64_emax : Z := 1024.

(** [float(n)] of an [int], as [int * float] converts it. *)
Definition float_of_int (z : Z) : spec_float := binary_normalize f64_prec f64_emax z 0 false.

(** An [int] as an exact operand: [m * 2^0]. *)
Definition int_operand (z : Z) : spec_float :=
  match z with
  | Z0 => S754_zero false
  | Zpos p => S754_finite false p 0
  | Zneg p => S754_finite true p 0
  end.

(** [a / b] on two [int]s with [b <> 0]: the exact quotient rounded to the
    nearest float. *)
Definition py_int_truediv (a b : Z) : spec_float :=
  SFdiv f64_prec f64_emax (int_operand a) (int_operand b).

(** The literal [0.5]. *)
Definition float_half : spec_float := binary_normalize f64_prec f64_emax 1 (-1) false.

(** [int(x)] of a float: truncation toward zero; [None] is the
    [OverflowError] of an infinity and the [ValueError] of a NaN. *)
Definition py_int_of_float (x : spec_float) : option Z :=
  match x with
  | S754_zero _ => Some 0%Z
  | S754_infinity _ => None
  | S754_nan => None
  | S754_finite s m e =>
      let t := if (0 <=? e)%Z then (Z.pos m * 2 ^ e)%Z else (Z.pos m / 2 ^ (- e))%Z in
      Some (if s then (- t)%Z else t)
  end.

(** The image files, by path: their bytes. *)
Definition image_store := text -> option text.

Section PIL.

(** [float.__pow__], for a positive base. *)
Variable float_pow : spec_float -> spec_float -> spec_float.

(** [Image.open] on the bytes of the file and its [(width, height)];
    [None]: it raises. *)
Variable pil_open : text -> option (Z * Z).

(** [img.resize((w, h), Image.LANCZOS)] followed by
    [save(image_path, optimize=True)]: the bytes written; [None]: it
    raises. *)
Variable pil_resize_save : text -> Z -> Z -> option text.

(** [resize_image_if_needed(image_path, max_size)], lines 113-140: the
    path returned and the image files afterwards; [None]: it raises
    ([os.path.getsize] on a missing file, or PIL, or [int()]). *)
Definition resize_image_pil (store : image_store) (image_path : text) (max_size : Z)
    : option (text * image_store) :=
  match store image_path with
  | None => None
  | Some bytes =>
      let file_size := Z.of_nat (length bytes) in
      if (file_size <=? max_size)%Z then Some (image_path, store)
      else
        match pil_open bytes with
        | None => None
        | Some (width, height) =>
            let scale_factor := float_pow (py_int_truediv max_size file_size) float_half in
            match py_int_of_float (SFmul f64_prec f64_emax (float_of_int width) scale_factor),
                  py_int_of_float (SFmul f64_prec f64_emax (float_of_int height) scale_factor)
            with
            | Some new_width, Some new_height =>
                match pil_resize_save bytes new_width new_height with
                | Some resized =>
                    Some (image_path,
                          fun p => if text_eqb p image_path then Some resized else store p)
                | None => None
                end
            | _, _ => None
            end
        end
  end.

End PIL.

(** ** datasheet_parser.py, [process_datasheet] *)

Record config := {
  cfg_pdf_path : text;
  cfg_output_dir : text;
  cfg_model : text;
  cfg_context_window : nat;
  cfg_translate : bool;
  cfg_target_language : option text;
  cfg_start_page : option Z;
  cfg_end_page : option Z;
  cfg_use_context : bool
}.

(** [page_filename.split('_')[1].split('.')[0]] through [int()], with the
    fallback [i + 1] on [IndexError] / [ValueError]. *)
Definition page_num_of (i : nat) (image_path : text) : Z :=
  match split_on 95 (basename image_path) with
  | _ :: part1 :: _ =>
      match split_on 46 part1 with
      | p0 :: _ => match py_int p0 with Some n => n | None => Z.of_nat (i + 1) end
      | [] => Z.of_nat (i + 1)
      end
  | _ => Z.of_nat (i + 1)
  end.

Fixpoint last_index_of (c : N) (s : text) (i : nat) (best : option nat) : option nat :=
  match s with
  | [] => best
  | d :: s' => last_index_of c s' (S i) (if N.eqb c d then Some i else best)
  end.

(** [os.path.splitext(name)[0]] for a name without a slash: leading dots
    do not start an extension. *)
Definition splitext_root (name : text) : text :=
  match last_index_of 46 name O None with
  | Some k => if existsb (fun c => negb (N.eqb c 46)) (firstn k name) then firstn k name else name
  | None => name
  end.

(** [output_name], lines 252-263. *)
Definition output_name (cfg : config) (total_pages : Z) : text :=
  let base := splitext_root (basename (cfg_pdf_path cfg)) in
  let base :=
    match cfg_start_page cfg, cfg_end_page cfg with
    | None, None => base
    | sp, ep =>
        let start_str := match sp with Some z => z_to_text z | None => u "1" end in
        let end_str := match ep with Some z => z_to_text z | None => z_to_text total_pages end in
        base ++ u "_p" ++ start_str ++ u "-" ++ end_str
    end in
  if cfg_translate cfg && truthy (cfg_target_language cfg)
  then base ++ u "_" ++ py_lower (match cfg_target_language cfg with Some t => t | None => [] end)
  else base.

(** Lines 302-313. *)
Definition build_instruction (translate : bool) (target_language : option text)
    (page_num total_pages : Z) : instruction :=
  match translate, target_language with
  | true, Some ((_ :: _) as tl) => PageInstrTranslate page_num total_pages tl
  | _, _ => PageInstr page_num total_pages
  end.

(** [os.path.join(output_dir, f"{output_name}_page_{page_num:03d}.md")] *)
Definition page_md_file (cfg : config) (name : text) (page_num : Z) : text :=
  path_join (cfg_output_dir cfg) (name ++ u "_page_" ++ fmt03 page_num ++ u ".md").

(** Line 190: [os.path.join(output_dir, f"{output_name}_full.md")], the
    file the merged document is written to. *)
Definition full_md_file (cfg : config) (name : text) : text :=
  path_join (cfg_output_dir cfg) (name ++ u "_full.md").

Record run_state := {
  rs_fs : filesystem;
  rs_files : list text;                   (* page_markdown_files *)
  rs_calls : list (text * list payload)   (* previous_context and requests of each call *)
}.

(** [enumerate(image_paths)] *)
Definition enumerate {A} (l : list A) : list (nat * A) := combine (seq O (length l)) l.

(** The loop of lines 288-344.  [post i] is the endpoint as seen by the
    [i]-th page's request. *)
Fixpoint page_loop (post : nat -> payload -> response) (shrink : page_image -> text)
    (cfg : config) (name : text) (total_pages : Z)
    (pages : list (nat * page_image)) (st : run_state) : run_state :=
  match pages with
  | [] => st
  | (i, img) :: rest =>
      let page_num := page_num_of i (img_path img) in
      let img' := resize_image_if_needed shrink max_image_size img in
      let instructions :=
        build_instruction (cfg_translate cfg) (cfg_target_language cfg) page_num total_pages in
      let previous_context : text := [] in
      let '(reqs, outcome) :=
        process_page (post i) (cfg_model cfg) (img_bytes img') previous_context instructions
          (cfg_translate cfg) (cfg_target_language cfg) in
      let calls := rs_calls st ++ [(previous_context, reqs)] in
      match outcome with
      | inl _ =>
          page_loop post shrink cfg name total_pages rest
            {| rs_fs := rs_fs st; rs_files := rs_files st; rs_calls := calls |}
      | inr markdown_content =>
          let clean_content := clean_markdown markdown_content in
          let f := page_md_file cfg name page_num in
          page_loop post shrink cfg name total_pages rest
            {| rs_fs := fs_write (rs_fs st) f clean_content;
               rs_files := rs_files st ++ [f]; rs_calls := calls |}
      end
  end.

(** [metadata.get('page_count', 0)] *)
Definition total_pages_of (metadata : dict) : Z :=
  match dict_get metadata (u "page_count") with Some (VInt z) => z | _ => 0%Z end.

(** The state after the loop, for the PDF information dictionary [info],
    its page count and the rasterized pages [images]. *)
Definition run_pages (post : nat -> payload -> response) (shrink : page_image -> text)
    (cfg : config) (info : list (text * text)) (page_count : Z)
    (images : list page_image) (fs0 : filesystem) : run_state :=
  let metadata := get_pdf_metadata info page_count in
  let total_pages := total_pages_of metadata in
  page_loop post shrink cfg (output_name cfg total_pages) total_pages (enumerate images)
    {| rs_fs := fs0; rs_files := []; rs_calls := [] |}.

(** The [output_name] of a run. *)
Definition run_name (cfg : config) (info : list (text * text)) (page_count : Z) : text :=
  output_name cfg (total_pages_of (get_pdf_metadata info page_count)).

(** [process_datasheet]: the loop, the merge into [_full.md], the read
    back of that file and the table of contents written over it.  [info]
    is [reader.metadata], [None] for a PDF without an information
    dictionary, where [metadata.get] raises [AttributeError] before any
    page is processed.  The second component is the text written last to
    [_full.md] ([None]: the call raised). *)
Definition process_datasheet (post : nat -> payload -> response) (shrink : page_image -> text)
    (cfg : config) (info : option (list (text * text))) (page_count : Z)
    (images : list page_image) (fs0 : filesystem) : run_state * option text :=
  match info with
  | None => ({| rs_fs := fs0; rs_files := []; rs_calls := [] |}, None)
  | Some d =>
      let st := run_pages post shrink cfg d page_count images fs0 in
      let output_md_file := full_md_file cfg (run_name cfg d page_count) in
      let merged := merge_markdown_files (rs_fs st) (rs_files st)
                      (Some (get_pdf_metadata d page_count)) in
      let fs1 := fs_write (rs_fs st) output_md_file merged in
      match fs1 output_md_file with
      | None => ({| rs_fs := fs1; rs_files := rs_files st; rs_calls := rs_calls st |}, None)
      | Some content =>
          match add_table_of_contents content with
          | None => ({| rs_fs := fs1; rs_files := rs_files st; rs_calls := rs_calls st |}, None)
          | Some content_with_toc =>
              ({| rs_fs := fs_write fs1 output_md_file content_with_toc;
                  rs_files := rs_files st; rs_calls := rs_calls st |}, Some content_with_toc)
          end
      end
  end.

(** ** datasheet_parser.py, [main] *)

Record cli_args := {
  a_pdf_path : text;
  a_output : text;
  a_model : option text;
  a_translate : bool;
  a_target_language : option text;
  a_start_page : option Z;
  a_end_page : option Z
}.

Definition default_model : text := u "gpt-4o".

(** [main] returns the exit code and, when it got that far, the result of
    [process_datasheet] ([run]: the call with the external collaborators
    bound).  The configuration passes [context_window=0] and
    [use_context=False]. *)
Definition main (path_exists : text -> bool) (run : config -> run_state * option text)
    (args : cli_args) : Z * option (run_state * option text) :=
  if negb (path_exists (a_pdf_path args)) then (1%Z, None)
  else if a_translate args && negb (truthy (a_target_language args)) then (1%Z, None)
  else if match a_start_page args with Some sp => (sp <? 1)%Z | None => false end then (1%Z, None)
  else if match a_end_page args, a_start_page args with
          | Some ep, Some sp => (ep <? sp)%Z
          | _, _ => false
          end then (1%Z, None)
  else
    let cfg := {| cfg_pdf_path := a_pdf_path args; cfg_output_dir := a_output args;
                  cfg_model := match a_model args with
                               | Some ((_ :: _) as m) => m
                               | _ => default_model
                               end;
                  cfg_context_window := 0; cfg_translate := a_translate args;
                  cfg_target_language := a_target_language args;
                  cfg_start_page := a_start_page args; cfg_end_page := a_end_page args;
                  cfg_use_context := false |} in
    let r := run cfg in
    match snd r with
    | Some _ => (0%Z, Some r)
    | None => (1%Z, Some r)
    end.

(** The context window as the specification describes it: the last [n]
    cleaned outputs, oldest first, joined by blank lines. *)
Definition spec_render_context (n : nat) (outputs : list text) : text :=
  py_join two_nl (skipn (length outputs - n) outputs).

(** The shape of one recorded call: the context argument and the
    messages of each request sent (a system message, then a user message
    holding the instruction and the page image, and nothing else). *)
Definition call_shape (c : text * list payload) : Prop :=
  fst c = [] /\
  Forall (fun p => exists tmpl instr img,
            p_messages p =
              [ {| role := u "system"; content := CSystem tmpl |};
                {| role := u "user"; content := CParts [PInstr instr; PImagePng img] |} ])
         (snd c).

(** ** Example runs *)

Definition ok_reply (t : text) : response :=
  {| status_code := 200; resp_text := t;
     resp_json := Some (JObj [(u "choices", JArr [JObj [(u "message",
                                JObj [(u "content", JStr t)])]])]) |}.

Definition busy_reply : response :=
  {| status_code := 503; resp_text := u "busy"; resp_json := None |}.

(** An endpoint that answers "A", "B", "C", ... by page position. *)
Definition post_letters (i : nat) (_ : payload) : response :=
  ok_reply [N.of_nat (65 + i)].

Definition post_letters_failing_at (k : nat) (i : nat) (p : payload) : response :=
  if Nat.eqb i k then busy_reply else post_letters i p.

Definition shrink_none (img : page_image) : text := img_bytes img.

Definition empty_fs : filesystem := fun _ => None.

Definition example_pages : list page_image :=
  [ {| img_path := u "tmp/page_001.png"; img_bytes := u "P1"; img_size := 2 |};
    {| img_path := u "tmp/page_002.png"; img_bytes := u "P2"; img_size := 2 |};
    {| img_path := u "tmp/page_003.png"; img_bytes := u "P3"; img_size := 2 |} ].

Definition example_pages4 : list page_image :=
  example_pages ++
  [ {| img_path := u "tmp/page_004.png"; img_bytes := u "P4"; img_size := 2 |} ].

Definition example_cfg (cw : nat) (translate : bool) (tl : option text) : config :=
  {| cfg_pdf_path := u "docs/ds.pdf"; cfg_output_dir := u "out"; cfg_model := u "gpt-4o";
     cfg_context_window := cw; cfg_translate := translate; cfg_target_language := tl;
     cfg_start_page := None; cfg_end_page := None; cfg_use_context := true |}.

Definition read_or_empty (fs : filesystem) (f : text) : text :=
  match fs f with Some t => t | None => [] end.


Definition example_args (tl : option text) : cli_args :=
  {| a_pdf_path := u "docs/ds.pdf"; a_output := u "out"; a_model := None;
     a_translate := true; a_target_language := tl;
     a_start_page := None; a_end_page := None |}.

(** The per-page artifact path of an enumerated page. *)
Definition page_path (cfg : config) (name : text) (pg : nat * page_image) : text :=
  page_md_file cfg name (page_num_of (fst pg) (img_path (snd pg))).

(** [process_page] raises on this reply. *)
Definition is_failure (r : response) : bool :=
  match handle_response r with inl _ => true | inr _ => false end.

Definition not_path (pk : text) (f : text) : bool := negb (text_eqb f pk).

Definition nl3 : text := [nl; nl; nl].

Definition answer_body (content : json) : json :=
  JObj [(u "choices", JArr [JObj [(u "message", JObj [(u "content", content)])]])].

Definition fs_example : filesystem :=
  fun p => if text_eqb p (u "a.md") then Some (u " A ")
           else if text_eqb p (u "c.md") then Some (u "C")
           else None.

Definition info_has (info : list (text * text)) (k : text) : bool :=
  existsb (fun e => text_eqb (fst e) k) info.

Definition doc_title_a_b : text :=
  u "# Title" ++ [nl] ++ u "## A" ++ [nl] ++ u "### B" ++ [nl].

(** ** pdf_utils.py, [extract_images_from_pdf] *)

(** Lines 51-59: the page range after clamping to [1 .. total_pages]. *)
Definition page_range (total_pages : Z) (start_page end_page : option Z) : Z * Z :=
  let s := match start_page with
           | None => 1%Z
           | Some sp => Z.max 1 (Z.min sp total_pages)
           end in
  let e := match end_page with
           | None => total_pages
           | Some ep => Z.max s (Z.min ep total_pages)
           end in
  (s, e).

(** [os.path.join(output_dir, f"page_{page_num:03d}.png")] *)
Definition page_image_path (output_dir : text) (page_num : Z) : text :=
  path_join output_dir (u "page_" ++ fmt03 page_num ++ u ".png").

(** Lines 76-83: the paths of the [n_images] images [convert_from_path]
    rendered, numbered from the clamped start page. *)
Definition extract_images_from_pdf (output_dir : text) (total_pages : Z)
    (start_page end_page : option Z) (n_images : nat) : list text :=
  let start := fst (page_range total_pages start_page end_page) in
  map (fun i => page_image_path output_dir (start + Z.of_nat i)) (seq O n_images).

(** ** api_client.py, [encode_image]: [base64.b64encode] *)

Definition b64_char (i : N) : N :=
  if (i <? 26)%N then (65 + i)%N
  else if (i <? 52)%N then (97 + (i - 26))%N
  else if (i <? 62)%N then (48 + (i - 52))%N
  else if (i =? 62)%N then 43%N
  else 47%N.

Definition b64_pad : N := 61.

(** Groups of three bytes become four characters; a last group of one or
    two bytes is padded with [=]. *)
Fixpoint b64encode (bs : list N) : text :=
  match bs with
  | a :: b :: c :: rest =>
      [b64_char (a / 4); b64_char ((a mod 4) * 16 + b / 16);
       b64_char ((b mod 16) * 4 + c / 64); b64_char (c mod 64)] ++ b64encode rest
  | [a; b] =>
      [b64_char (a / 4); b64_char ((a mod 4) * 16 + b / 16); b64_char ((b mod 16) * 4); b64_pad]
  | [a] => [b64_char (a / 4); b64_char ((a mod 4) * 16); b64_pad; b64_pad]
  | [] => []
  end%N.

(** [encode_image]: the file's bytes, base64-encoded ([None]: the file
    does not exist, [open] raises). *)
Definition encode_image (read_bytes : text -> option (list N)) (image_path : text) : option text :=
  option_map b64encode (read_bytes image_path).

(** The standard base64 decoder, as a reference for what the server does
    with the data URL. *)
Definition b64_value (c : N) : N :=
  if ((65 <=? c) && (c <=? 90))%N then (c - 65)%N
  else if ((97 <=? c) && (c <=? 122))%N then (c - 97 + 26)%N
  else if ((48 <=? c) && (c <=? 57))%N then (c - 48 + 52)%N
  else if (c =? 43)%N then 62%N
  else 63%N.

Fixpoint b64decode_ref (t : text) : list N :=
  match t with
  | c0 :: c1 :: c2 :: c3 :: rest =>
      let d0 := b64_value c0 in
      let d1 := b64_value c1 in
      let d2 := b64_value c2 in
      let d3 := b64_value c3 in
      if (c2 =? b64_pad)%N then [(d0 * 4 + d1 / 16)%N]
      else if (c3 =? b64_pad)%N then [(d0 * 4 + d1 / 16)%N; ((d1 mod 16) * 16 + d2 / 4)%N]
      else [(d0 * 4 + d1 / 16)%N; ((d1 mod 16) * 16 + d2 / 4)%N; ((d2 mod 4) * 64 + d3)%N]
           ++ b64decode_ref rest
  | _ => []
  end.

Definition is_b64_char (c : N) : bool :=
  ((65 <=? c) && (c <=? 90))%N || ((97 <=? c) && (c <=? 122))%N ||
  ((48 <=? c) && (c <=? 57))%N || (c =? 43)%N || (c =? 47)%N || (c =? b64_pad)%N.

(** ** The page loop, page by page *)




(** The configurations [main] hands to [process_datasheet]. *)
Definition main_cfg_ok (path_exists : text -> bool) (cfg : config) : Prop :=
  path_exists (cfg_pdf_path cfg) = true /\
  cfg_context_window cfg = O /\ cfg_use_context cfg = false /\
  (cfg_translate cfg = true -> truthy (cfg_target_language cfg) = true) /\
  (forall sp, cfg_start_page cfg = Some sp -> (1 <= sp)%Z) /\
  (forall sp ep, cfg_start_page cfg = Some sp -> cfg_end_page cfg = Some ep -> (sp <= ep)%Z).

(** [a] is obtained from [b] by deleting characters. *)
Inductive subseq : text -> text -> Prop :=
| subseq_nil : subseq [] []
| subseq_keep : forall x a b, subseq a b -> subseq (x :: a) (x :: b)
| subseq_drop : forall x a b, subseq a b -> subseq a (x :: b).

(* ==================================================================== *)
(** * Properties *)
(* ==================================================================== *)

(** ** Text lemmas *)

Lemma strip_prefix_app_inv : forall t p w z,
  strip_prefix p (t ++ w) = Some z ->
  (exists z', strip_prefix p t = Some z') \/
  (exists p2, p = t ++ p2 /\ p2 <> [] /\ strip_prefix p2 w = Some z).
Proof.
  induction t as [|d t IH]; intros p w z H.
  - destruct p as [|e p].
    + left. eexists. reflexivity.
    + right. exists (e :: p). split; [reflexivity|]. split; [discriminate|]. exact H.
  - destruct p as [|e p].
    + left. eexists. reflexivity.
    + simpl in H. destruct (N.eqb e d) eqn:E; [|discriminate].
      apply N.eqb_eq in E. subst e.
      destruct (IH p w z H) as [[z' Hz]|[p2 [Hp [Hne Hs]]]].
      * left. exists z'. simpl. rewrite N.eqb_refl. exact Hz.
      * right. exists p2. subst p. split; [reflexivity|]. split; assumption.
Qed.

Lemma strip_prefix_head : forall p c r z,
  p <> [] -> strip_prefix p (c :: r) = Some z -> hd_error p = Some c.
Proof.
  intros [|e p] c r z Hne H; [congruence|].
  simpl in H. destruct (N.eqb e c) eqn:E; [|discriminate].
  apply N.eqb_eq in E. subst. reflexivity.
Qed.

Lemma occursb_cons_false : forall p c s,
  occursb p (c :: s) = false ->
  strip_prefix p (c :: s) = None /\ occursb p s = false.
Proof.
  intros p c s H. simpl in H.
  destruct (strip_prefix p (c :: s)); [discriminate|]. split; auto.
Qed.

Lemma occursb_app_r : forall p a b, occursb p (a ++ b) = false -> occursb p b = false.
Proof.
  induction a as [|c a IH]; intros b H; [exact H|].
  apply IH. apply (occursb_cons_false p c (a ++ b)) in H. apply H.
Qed.

(** A pattern whose first character does not occur again in it cannot
    start inside a text where that text is followed by its first
    character, unless it occurs in the text itself. *)
Lemma no_straddle : forall c p' t r,
  existsb (N.eqb c) p' = false ->
  t <> [] -> occursb (c :: p') t = false ->
  strip_prefix (c :: p') (t ++ c :: r) = None.
Proof.
  intros c p' t r Hc Ht Hocc.
  destruct (strip_prefix (c :: p') (t ++ c :: r)) as [z|] eqn:E; [|reflexivity].
  exfalso.
  destruct (strip_prefix_app_inv t (c :: p') (c :: r) z E)
    as [[z' Hz]|[p2 [Hp [Hne Hs]]]].
  - destruct t as [|d t]; [congruence|].
    apply occursb_cons_false in Hocc as [Hn _]. congruence.
  - destruct t as [|d t]; [congruence|].
    pose proof (strip_prefix_head p2 c r z Hne Hs) as Hh.
    simpl in Hp. injection Hp as Hd Hp'. subst p'.
    destruct p2 as [|e p2]; [congruence|]. simpl in Hh. injection Hh as He. subst e.
    rewrite existsb_app in Hc. apply orb_false_iff in Hc as [_ Hc].
    simpl in Hc. rewrite N.eqb_refl in Hc. discriminate.
Qed.

Lemma strip_prefix_app : forall p b, strip_prefix p (p ++ b) = Some b.
Proof. induction p as [|c p IH]; intros b; simpl; [reflexivity|]. rewrite N.eqb_refl. apply IH. Qed.

(** ** The scratch-block substitution *)

Lemma open_tag_eq : open_tag = 60%N :: u "thinking>".
Proof. reflexivity. Qed.

Lemma close_tag_eq : close_tag = 60%N :: u "/thinking>".
Proof. reflexivity. Qed.

Lemma open_tag_head_unique : existsb (N.eqb 60) (u "thinking>") = false.
Proof. reflexivity. Qed.

Lemma close_tag_head_unique : existsb (N.eqb 60) (u "/thinking>") = false.
Proof. reflexivity. Qed.

Lemma sub_thinking_skip : forall w b, sub_thinking (length w) (w ++ b) = sub_thinking O b.
Proof. induction w as [|c w IH]; intros b; [reflexivity|]. simpl. apply IH. Qed.

Lemma find_after_unfold : forall p s,
  find_after p s =
  match strip_prefix p s with
  | Some _ => Some (length p)
  | None => match s with [] => None | _ :: s' => option_map S (find_after p s') end
  end.
Proof. intros p [|c s]; reflexivity. Qed.

Lemma find_after_close : forall x b,
  occursb close_tag x = false ->
  find_after close_tag (x ++ close_tag ++ b) = Some (length x + length close_tag).
Proof.
  induction x as [|c x IH]; intros b Hx.
  - rewrite app_nil_l, find_after_unfold, strip_prefix_app. reflexivity.
  - pose proof (occursb_cons_false _ _ _ Hx) as [_ Hx'].
    assert (Hn : strip_prefix close_tag ((c :: x) ++ close_tag ++ b) = None).
    { rewrite close_tag_eq in *. apply no_straddle; [exact close_tag_head_unique|discriminate|exact Hx]. }
    rewrite find_after_unfold, Hn.
    change ((c :: x) ++ close_tag ++ b) with (c :: (x ++ close_tag ++ b)).
    cbv beta iota. rewrite IH by exact Hx'. reflexivity.
Qed.

Lemma sub_thinking_O_cons : forall c s,
  sub_thinking O (c :: s) =
  match thinking_match_len (c :: s) with
  | Some (S n) => sub_thinking n s
  | _ => c :: sub_thinking O s
  end.
Proof. reflexivity. Qed.

Lemma sub_thinking_prefix : forall a r,
  occursb open_tag a = false ->
  (r = [] \/ hd_error r = Some 60%N) ->
  sub_thinking O (a ++ r) = a ++ sub_thinking O r.
Proof.
  induction a as [|c a IH]; intros r Ha Hr; [reflexivity|].
  pose proof (occursb_cons_false _ _ _ Ha) as [Hn Ha'].
  assert (Hs : strip_prefix open_tag ((c :: a) ++ r) = None).
  { destruct Hr as [->|Hr].
    - rewrite app_nil_r. exact Hn.
    - destruct r as [|d r]; [discriminate|]. simpl in Hr. injection Hr as ->.
      rewrite open_tag_eq in *.
      apply no_straddle; [exact open_tag_head_unique|discriminate|exact Ha]. }
  change ((c :: a) ++ r) with (c :: (a ++ r)) in Hs |- *.
  rewrite sub_thinking_O_cons. unfold thinking_match_len. rewrite Hs.
  rewrite IH by assumption. reflexivity.
Qed.

Lemma remove_thinking_block : forall a x b,
  occursb open_tag a = false ->
  occursb close_tag x = false ->
  remove_thinking (a ++ open_tag ++ x ++ close_tag ++ b) = a ++ remove_thinking b.
Proof.
  intros a x b Ha Hx. unfold remove_thinking.
  rewrite sub_thinking_prefix by (auto; right; rewrite open_tag_eq; reflexivity).
  f_equal.
  assert (Hm : thinking_match_len (open_tag ++ x ++ close_tag ++ b)
               = Some (length open_tag + (length x + length close_tag))).
  { unfold thinking_match_len. rewrite strip_prefix_app, find_after_close by exact Hx.
    reflexivity. }
  rewrite open_tag_eq in Hm |- *.
  change ((60%N :: u "thinking>") ++ x ++ close_tag ++ b)
    with (60%N :: (u "thinking>" ++ x ++ close_tag ++ b)) in Hm |- *.
  assert (Hlen : (length (60%N :: u "thinking>") + (length x + length close_tag))%nat
                 = S (length (u "thinking>" ++ x ++ close_tag)))
    by (cbn [length]; rewrite !length_app; lia).
  rewrite Hlen in Hm. rewrite sub_thinking_O_cons, Hm.
  replace (u "thinking>" ++ x ++ close_tag ++ b)
    with ((u "thinking>" ++ x ++ close_tag) ++ b) by (rewrite !app_assoc; reflexivity).
  apply sub_thinking_skip.
Qed.

Lemma remove_thinking_id : forall s, occursb open_tag s = false -> remove_thinking s = s.
Proof.
  intros s Hs. unfold remove_thinking.
  pose proof (sub_thinking_prefix s [] Hs (or_introl eq_refl)) as H.
  change (sub_thinking O []) with (@nil N) in H. rewrite !app_nil_r in H. exact H.
Qed.

(** ** The blank-line collapse *)

Lemma strip_prefix_cons : forall a p b s,
  strip_prefix (a :: p) (b :: s) = if N.eqb a b then strip_prefix p s else None.
Proof. reflexivity. Qed.

Lemma occursb_cons : forall p c s,
  occursb p (c :: s) =
  match strip_prefix p (c :: s) with Some _ => true | None => occursb p s end.
Proof. reflexivity. Qed.

Lemma occursb_nl3_other : forall c s, N.eqb nl c = false ->
  occursb nl3 (c :: s) = occursb nl3 s.
Proof. intros c s H. rewrite occursb_cons. unfold nl3. rewrite strip_prefix_cons, H. reflexivity. Qed.

Lemma occursb_nl3_1 : forall c s, N.eqb nl c = false ->
  occursb nl3 (nl :: c :: s) = occursb nl3 s.
Proof.
  intros c s H. rewrite occursb_cons. unfold nl3 at 1.
  rewrite !strip_prefix_cons, N.eqb_refl, H. apply occursb_nl3_other, H.
Qed.

Lemma occursb_nl3_2 : forall c s, N.eqb nl c = false ->
  occursb nl3 (nl :: nl :: c :: s) = occursb nl3 s.
Proof.
  intros c s H. rewrite occursb_cons. unfold nl3 at 1.
  rewrite !strip_prefix_cons, N.eqb_refl, H. apply occursb_nl3_1, H.
Qed.

Lemma emit_newlines_sep : forall n c s, N.eqb nl c = false ->
  occursb nl3 (emit_newlines n ++ c :: s) = occursb nl3 s.
Proof.
  intros [|[|[|n]]] c s H; unfold emit_newlines; simpl Nat.leb; cbv iota; simpl repeat;
    simpl app.
  - apply occursb_nl3_other, H.
  - apply occursb_nl3_1, H.
  - apply occursb_nl3_2, H.
  - apply occursb_nl3_2, H.
Qed.

Lemma collapse_nl_no_triple : forall s n, occursb nl3 (collapse_nl n s) = false.
Proof.
  induction s as [|c s IH]; intros n.
  - destruct n as [|[|[|n]]]; reflexivity.
  - cbn [collapse_nl]. destruct (N.eqb c nl) eqn:E; [apply IH|].
    rewrite emit_newlines_sep by (rewrite N.eqb_sym; exact E). apply IH.
Qed.

Lemma repeat_nl_S : forall n s, repeat nl (S n) ++ s = repeat nl n ++ nl :: s.
Proof. induction n as [|n IH]; intros s; [reflexivity|]. simpl. f_equal. apply IH. Qed.

Lemma collapse_nl_id : forall s n,
  occursb nl3 (repeat nl n ++ s) = false -> collapse_nl n s = repeat nl n ++ s.
Proof.
  assert (Hlt : forall n s, occursb nl3 (repeat nl n ++ s) = false -> (n < 3)%nat).
  { intros [|[|[|n]]] s H; try lia. exfalso.
    cbn [repeat app] in H. rewrite occursb_cons in H. unfold nl3 in H.
    rewrite !strip_prefix_cons, N.eqb_refl in H. discriminate. }
  induction s as [|c s IH]; intros n H.
  - pose proof (Hlt n [] H). unfold collapse_nl, emit_newlines.
    destruct (Nat.leb 3 n) eqn:E; [apply Nat.leb_le in E; lia|]. rewrite app_nil_r. reflexivity.
  - cbn [collapse_nl]. destruct (N.eqb c nl) eqn:E.
    + apply N.eqb_eq in E. subst c. rewrite IH; [apply repeat_nl_S|].
      rewrite repeat_nl_S. exact H.
    + pose proof (Hlt n _ H). unfold emit_newlines.
      destruct (Nat.leb 3 n) eqn:E'; [apply Nat.leb_le in E'; lia|].
      f_equal. f_equal. apply (IH O). simpl.
      apply occursb_app_r in H. rewrite occursb_nl3_other in H by (rewrite N.eqb_sym; exact E).
      exact H.
Qed.

Lemma collapse_nl_app : forall a c r n, N.eqb c nl = false ->
  collapse_nl n ((a ++ [c]) ++ r) = collapse_nl n (a ++ [c]) ++ collapse_nl O r.
Proof.
  induction a as [|d a IH]; intros c r n Hc.
  - simpl. rewrite Hc. rewrite <- app_assoc. reflexivity.
  - cbn [app collapse_nl]. destruct (N.eqb d nl); [apply IH, Hc|].
    rewrite IH by exact Hc. rewrite <- app_assoc. reflexivity.
Qed.

Lemma collapse_nl_repeat : forall k n b,
  collapse_nl n (repeat nl k ++ b) = collapse_nl (n + k) b.
Proof.
  induction k as [|k IH]; intros n b.
  - rewrite Nat.add_0_r. reflexivity.
  - cbn [repeat app collapse_nl]. unfold nl at 1. rewrite N.eqb_refl, IH. f_equal. lia.
Qed.

Lemma collapse_nl_run : forall k b, (3 <= k)%nat -> hd_error b <> Some nl ->
  collapse_nl k b = [nl; nl] ++ collapse_nl O b.
Proof.
  intros k b Hk Hb. assert (Hk' : Nat.leb 3 k = true) by (apply Nat.leb_le; exact Hk).
  destruct b as [|c b].
  - simpl. unfold emit_newlines. rewrite Hk'. reflexivity.
  - cbn [collapse_nl]. destruct (N.eqb c nl) eqn:E.
    + apply N.eqb_eq in E. subst. contradiction Hb. reflexivity.
    + unfold emit_newlines at 1. rewrite Hk'. reflexivity.
Qed.

(** ** C4: post-processing of the model's answer *)

(** C4 (amended).  [process_page]'s post-processing removes every
    [<thinking>...</thinking>] block, delimiters included, up to the FIRST
    closing tag (lazy match, newlines included), leaves text without an
    opening tag untouched, and then replaces every run of three or more
    newlines by exactly two, leaving shorter runs alone.  On the answer
    ["<thinking>X</thinking>\n\nY"] the result is ["\n\nY"]: the two
    newlines that followed the block are kept. *)
Theorem clean_response_spec :
  (forall a x b,
     occursb open_tag a = false -> occursb close_tag x = false ->
     remove_thinking (a ++ open_tag ++ x ++ close_tag ++ b) = a ++ remove_thinking b) /\
  (forall s, occursb open_tag s = false -> remove_thinking s = s) /\
  (forall s, occursb nl3 (collapse_newlines s) = false) /\
  (forall s, occursb nl3 s = false -> collapse_newlines s = s) /\
  (forall a c k b,
     N.eqb c nl = false -> (3 <= k)%nat -> hd_error b <> Some nl ->
     collapse_newlines ((a ++ [c]) ++ repeat nl k ++ b)
     = collapse_newlines (a ++ [c]) ++ [nl; nl] ++ collapse_newlines b) /\
  (forall k b, (3 <= k)%nat -> hd_error b <> Some nl ->
     collapse_newlines (repeat nl k ++ b) = [nl; nl] ++ collapse_newlines b) /\
  clean_response (u "<thinking>X</thinking>" ++ [nl; nl] ++ u "Y") = [nl; nl] ++ u "Y".
Proof.
  split; [exact remove_thinking_block|].
  split; [exact remove_thinking_id|].
  split; [intros s; apply collapse_nl_no_triple|].
  split; [intros s Hs; apply (collapse_nl_id s O), Hs|].
  split.
  { intros a c k b Hc Hk Hb. unfold collapse_newlines.
    rewrite collapse_nl_app by exact Hc. f_equal.
    rewrite collapse_nl_repeat. apply collapse_nl_run; assumption. }
  split.
  { intros k b Hk Hb. unfold collapse_newlines.
    rewrite collapse_nl_repeat. apply collapse_nl_run; assumption. }
  reflexivity.
Qed.

(** Witness: a block spanning a line break between two pieces of text,
    followed by a second block (lazy match), and a run of four newlines. *)
Lemma clean_response_spec_witness :
  remove_thinking (u "A" ++ open_tag ++ (u "x" ++ [nl] ++ u "y") ++ close_tag ++
                     (u "B" ++ open_tag ++ u "z" ++ close_tag ++ u "C"))
  = u "A" ++ u "B" ++ u "C" /\
  collapse_newlines ((u "p" ++ [60%N]) ++ repeat nl 4 ++ u "q") = u "p<" ++ [nl; nl] ++ u "q".
Proof.
  destruct clean_response_spec as [Hblock [_ [_ [_ [Hrun _]]]]].
  split.
  - rewrite (Hblock (u "A") (u "x" ++ [nl] ++ u "y")) by reflexivity.
    rewrite (Hblock (u "B") (u "z")) by reflexivity. reflexivity.
  - rewrite Hrun by (try reflexivity; try lia; discriminate). reflexivity.
Defined.

(** C4 (as stated): the cleaned answer is not ["Y"], nor ["Y"] after a
    single newline; the two newlines that follow the block stay in front. *)
Lemma clean_response_leading_blank_lines :
  clean_response (u "<thinking>X</thinking>" ++ [nl; nl] ++ u "Y") <> u "Y" /\
  clean_response (u "<thinking>X</thinking>" ++ [nl; nl] ++ u "Y") <> [nl] ++ u "Y".
Proof. split; vm_compute; discriminate. Qed.

(** ** C3: outcome of one [process_page] call *)

Ltac split_matches :=
  repeat (match goal with
          | |- context [match ?x with _ => _ end] => destruct x eqn:?
          | H : context [match ?x with _ => _ end] |- _ => destruct x eqn:?
          end; cbn [pybind getitem_key getitem_0] in *).

Lemma answer_lookup_string : forall j c,
  answer_lookup j = Ok (JStr c) <-> answer_string j = Some c.
Proof.
  intros j c. unfold answer_lookup, answer_string. cbn [pybind getitem_key getitem_0].
  split; intros H; split_matches; try discriminate; congruence.
Qed.

Lemma handle_response_200 : forall r t,
  status_code r = 200%Z ->
  handle_response r = inr t <->
  exists j c, resp_json r = Some j /\ answer_string j = Some c /\ t = clean_response c.
Proof.
  intros r t Hs. unfold handle_response. rewrite Hs. cbn [Z.eqb negb].
  destruct (resp_json r) as [j|]; [|split; [discriminate|intros (j & c & H & _); discriminate]].
  split.
  - destruct (answer_lookup j) as [v|e] eqn:E; [|destruct e; discriminate].
    destruct v; try discriminate. intros H. injection H as <-.
    exists j, t0. apply answer_lookup_string in E. auto.
  - intros (j' & c & Hj & Ha & ->). injection Hj as <-.
    apply answer_lookup_string in Ha. rewrite Ha. reflexivity.
Qed.

(** C3 (amended).  [process_page] sends exactly one request.  When the
    status is not 200 it fails with the status and the body text.  When
    the status is 200 it returns a text exactly when the body is JSON whose
    [choices[0].message.content] is a string, and that text is the
    cleaned answer; in every other case (body not JSON, a key or the first
    choice missing, or an answer that is not a string, such as [null]) it
    raises.  A body that is not JSON raises the decoding error; a missing
    key or first choice (the [KeyError] or [IndexError] of the subscripts)
    raises the error that carries the parsed body. *)
Theorem process_page_outcome :
  forall post model img ctx instr tr tl,
  let p := build_payload model img instr tr tl in
  let r := post p in
  fst (process_page post model img ctx instr tr tl) = [p] /\
  (status_code r <> 200%Z ->
     snd (process_page post model img ctx instr tr tl)
     = inl (UpstreamError (status_code r) (resp_text r))) /\
  (status_code r = 200%Z -> forall t,
     snd (process_page post model img ctx instr tr tl) = inr t <->
     exists j c, resp_json r = Some j /\ answer_string j = Some c /\ t = clean_response c) /\
  (status_code r = 200%Z -> resp_json r = None ->
     snd (process_page post model img ctx instr tr tl) = inl (Raised JSONDecodeError)) /\
  (status_code r = 200%Z -> forall j e, resp_json r = Some j -> answer_lookup j = Exc e ->
     e = KeyError \/ e = IndexError ->
     snd (process_page post model img ctx instr tr tl) = inl (MalformedResponse e j)).
Proof.
  intros post model img ctx instr tr tl p r.
  split; [reflexivity|]. split; [|split; [|split]].
  - intros Hs. cbn [process_page snd]. fold p. fold r. unfold handle_response.
    apply Z.eqb_neq in Hs. rewrite Hs. reflexivity.
  - intros Hs t. cbn [process_page snd]. fold p. fold r. apply handle_response_200, Hs.
  - intros Hs Hj. cbn [process_page snd]. fold p. fold r. unfold handle_response.
    rewrite Hs, Hj. reflexivity.
  - intros Hs j e Hj Ha He. cbn [process_page snd]. fold p. fold r. unfold handle_response.
    rewrite Hs, Hj. cbn [Z.eqb negb]. rewrite Ha.
    destruct He as [-> | ->]; reflexivity.
Qed.

(** Witness: a 500 reply is an upstream error; a 200 reply with a string
    answer yields the cleaned answer. *)
Lemma process_page_outcome_witness :
  snd (process_page (fun _ => {| status_code := 500; resp_text := u "busy"; resp_json := None |})
         (u "gpt-4o") (u "PNG") [] (PageInstr 1%Z 1%Z) false None)
  = inl (UpstreamError 500 (u "busy")) /\
  snd (process_page (fun _ => {| status_code := 200; resp_text := u "{}";
                                 resp_json := Some (answer_body (JStr (u "ok"))) |})
         (u "gpt-4o") (u "PNG") [] (PageInstr 1%Z 1%Z) false None)
  = inr (u "ok").
Proof.
  split.
  - apply (process_page_outcome (fun _ => {| status_code := 500; resp_text := u "busy";
                                             resp_json := None |})
             (u "gpt-4o") (u "PNG") [] (PageInstr 1%Z 1%Z) false None).
    cbn. discriminate.
  - apply (process_page_outcome (fun _ => {| status_code := 200; resp_text := u "{}";
                                 resp_json := Some (answer_body (JStr (u "ok"))) |})
             (u "gpt-4o") (u "PNG") [] (PageInstr 1%Z 1%Z) false None); [reflexivity|].
    exists (answer_body (JStr (u "ok"))), (u "ok"). split; [reflexivity|]. split; reflexivity.
Defined.

(** C3 (as stated): a 200 reply whose answer field is present but [null]
    makes [process_page] raise (the [TypeError] of [len(None)], which the
    [except (KeyError, IndexError)] clause does not catch). *)
Lemma process_page_null_answer_raises :
  answer_field_present (answer_body JNull) = true /\
  snd (process_page (fun _ => {| status_code := 200; resp_text := u "{}";
                                 resp_json := Some (answer_body JNull) |})
         (u "gpt-4o") (u "PNG") [] (PageInstr 1%Z 1%Z) false None)
  = inl (Raised TypeError).
Proof. split; reflexivity. Qed.

(** ** C10: merging skips missing files *)

Lemma read_existing_app : forall fs l1 l2,
  read_existing fs (l1 ++ l2) = read_existing fs l1 ++ read_existing fs l2.
Proof.
  intros fs l1 l2. induction l1 as [|p l1 IH]; [reflexivity|].
  cbn [app read_existing]. destruct (fs p); rewrite IH; reflexivity.
Qed.

(** C10.  The merged text is the header followed by the stripped contents
    of the listed files that exist, in list order, joined by blank lines:
    an existing file contributes its stripped contents at its place, and
    a path with no file contributes nothing (the function is total, no
    error is raised). *)
Theorem merge_skips_missing_files :
  forall fs md,
  (forall paths, merge_markdown_files fs paths md
     = merge_header md ++ py_join two_nl (read_existing fs paths)) /\
  (forall l1 p l2 c, fs p = Some c ->
     read_existing fs (l1 ++ p :: l2) = read_existing fs l1 ++ py_strip c :: read_existing fs l2) /\
  (forall l1 p l2, fs p = None ->
     merge_markdown_files fs (l1 ++ p :: l2) md = merge_markdown_files fs (l1 ++ l2) md).
Proof.
  intros fs md. split; [reflexivity|]. split.
  - intros l1 p l2 c Hp. rewrite read_existing_app. cbn [read_existing]. rewrite Hp. reflexivity.
  - intros l1 p l2 Hp. unfold merge_markdown_files.
    rewrite !read_existing_app. cbn [read_existing]. rewrite Hp. reflexivity.
Qed.

Lemma merge_skips_missing_files_witness :
  merge_markdown_files fs_example [u "a.md"; u "b.md"; u "c.md"] None
  = merge_markdown_files fs_example [u "a.md"; u "c.md"] None /\
  merge_markdown_files fs_example [u "a.md"; u "c.md"] None = u "A" ++ two_nl ++ u "C".
Proof.
  destruct (merge_skips_missing_files fs_example None) as [_ [_ Hskip]].
  split.
  - apply (Hskip [u "a.md"] (u "b.md") [u "c.md"]). reflexivity.
  - reflexivity.
Defined.

(** ** C8: the header built from the PDF's metadata *)

(** C8 (amended).  The header of the merged document is a title line, an
    author line when the author value is non-empty, a subject line when
    the subject is non-empty, and the separator rule.  [get_pdf_metadata]
    fills an absent /Title and /Author with "Unknown", so for a PDF
    without them the header still has "# Unknown" and an author line
    reading "Unknown"; only an absent (or empty) /Subject is left out. *)
Theorem merge_header_of_pdf :
  forall info n,
  merge_header (Some (get_pdf_metadata info n)) =
    u "# " ++ info_get info (u "/Title") (u "Unknown") ++ two_nl ++
    (if negb (text_eqb (info_get info (u "/Author") (u "Unknown")) [])
     then txt_author_label ++ info_get info (u "/Author") (u "Unknown") ++ two_nl else []) ++
    (if negb (text_eqb (info_get info (u "/Subject") []) [])
     then txt_subject_label ++ info_get info (u "/Subject") [] ++ two_nl else []) ++
    u "---" ++ two_nl /\
  (forall k d, info_has info k = false -> info_get info k d = d).
Proof.
  intros info n. split; [reflexivity|].
  intros k d H. unfold info_get, info_has in *.
  destruct (find (fun e => text_eqb (fst e) k) info) as [[k' v]|] eqn:E; [|reflexivity].
  apply find_some in E as [Hin Hk]. exfalso.
  assert (existsb (fun e => text_eqb (fst e) k) info = true)
    by (apply existsb_exists; exists (k', v); auto).
  congruence.
Qed.

Lemma merge_header_of_pdf_witness :
  info_get [(u "/Title", u "Spec")] (u "/Author") (u "Unknown") = u "Unknown".
Proof.
  destruct (merge_header_of_pdf [(u "/Title", u "Spec")] 1) as [_ H].
  apply H. reflexivity.
Defined.

(** C8 (as stated): for a PDF whose information dictionary is empty the
    header carries the placeholder "Unknown" for the title and for the
    author. *)
Lemma merge_header_placeholders :
  merge_header (Some (get_pdf_metadata [] 3)) =
  u "# Unknown" ++ two_nl ++ txt_author_label ++ u "Unknown" ++ two_nl ++ u "---" ++ two_nl.
Proof. reflexivity. Qed.


(** ** C6 and C7: the table of contents *)

Lemma text_eqb_eq : forall a b, text_eqb a b = true <-> a = b.
Proof.
  induction a as [|c a IH]; intros [|d b]; cbn [text_eqb]; split; intros H;
    try discriminate; try reflexivity.
  - apply andb_true_iff in H as [H1 H2]. apply N.eqb_eq in H1. apply IH in H2. subst. reflexivity.
  - injection H as -> ->. rewrite N.eqb_refl. apply IH. reflexivity.
Qed.

(** C6 (amended).  For a document whose headings are exactly "# Title",
    "## A", "### B", the contents list has three entries, indented by 0,
    2 and 4 spaces (2 * (level - 1)), with anchors "title", "a", "b".
    An anchor is the heading text lowercased with spaces turned into
    hyphens, keeping only word characters (letters, digits and the
    underscore; letters and digits of any script) and hyphens: it never
    holds a space and keeps "_"; "10 kΩ" gives "10-kω". *)
Theorem toc_title_a_b :
  (forall d, headers_of d = [(1%nat, u "Title"); (2%nat, u "A"); (3%nat, u "B")] ->
     toc_items (headers_of d)
       = [(0%nat, u "Title", u "title"); (2%nat, u "A", u "a"); (4%nat, u "B", u "b")] /\
     toc_text (headers_of d)
       = toc_title ++ u "- [Title](#title)" ++ [nl] ++ u "  - [A](#a)" ++ [nl]
         ++ u "    - [B](#b)" ++ [nl]) /\
  (forall t c, In c (anchor t) -> is_word c = true \/ c = 45%N) /\
  (forall t, ~ In 32%N (anchor t)) /\
  anchor (u "Power_Supply Pins") = u "power_supply-pins" /\
  anchor (u "10 k" ++ [937%N]) = u "10-k" ++ [969%N].
Proof.
  split.
  { intros d Hd. rewrite Hd. split; reflexivity. }
  split.
  { intros t c Hc. unfold anchor in Hc. apply filter_In in Hc as [_ Hc].
    apply orb_true_iff in Hc as [Hc|Hc]; [left; exact Hc|right; apply N.eqb_eq, Hc]. }
  split.
  { intros t Hin. unfold anchor in Hin. apply filter_In in Hin as [Hin _].
    apply in_map_iff in Hin as (c & Hc & _).
    destruct (N.eqb c 32) eqn:E; [discriminate|]. subst. discriminate. }
  split; vm_compute; reflexivity.
Qed.

Lemma toc_title_a_b_witness :
  toc_items (headers_of doc_title_a_b)
  = [(0%nat, u "Title", u "title"); (2%nat, u "A", u "a"); (4%nat, u "B", u "b")].
Proof.
  destruct toc_title_a_b as [H _].
  apply (H doc_title_a_b). reflexivity.
Defined.

(** C6 (as stated): an underscore is not stripped from an anchor, as
    [\w] matches it. *)
Lemma anchor_keeps_underscore :
  headers_of (u "# a_b" ++ [nl]) = [(1%nat, u "a_b")] /\
  toc_items (headers_of (u "# a_b" ++ [nl])) = [(0%nat, u "a_b", u "a_b")] /\
  anchor (u "a_b") <> u "ab".
Proof. split; [reflexivity|]. split; [reflexivity|]. discriminate. Qed.

(** C7 (amended).  The contents list has one entry per heading found, in
    order, except the headings whose lowercased text is "содержание" (the
    title the generated list itself carries); headings titled "Table of
    Contents", "Contents" or "TOC" are listed like any other. *)
Theorem toc_entries_skip_own_title :
  (forall hs, map (fun it => snd (fst it)) (toc_items hs) = map snd (filter toc_keep hs)) /\
  (forall h t, toc_keep (h, t) = false <-> py_lower t = txt_contents_lower) /\
  toc_keep (1%nat, u "Table of Contents") = true /\
  toc_keep (1%nat, u "Contents") = true /\
  toc_keep (1%nat, u "TOC") = true /\
  toc_keep (1%nat, u "toc") = true.
Proof.
  split.
  { intros hs. unfold toc_items. rewrite map_map. apply map_ext. intros [h t]. reflexivity. }
  split.
  { intros h t. unfold toc_keep. cbn [snd].
    destruct (text_eqb (py_lower t) txt_contents_lower) eqn:E.
    - apply text_eqb_eq in E. split; auto.
    - split; [discriminate|]. intros H. apply text_eqb_eq in H. congruence. }
  repeat split; reflexivity.
Qed.

Lemma toc_entries_skip_own_title_witness :
  toc_keep (2%nat, [1057; 1086; 1076; 1077; 1088; 1078; 1072; 1085; 1080; 1077]%N) = false.
Proof.
  destruct toc_entries_skip_own_title as [_ [H _]].
  apply H. reflexivity.
Defined.

(** C7 (as stated): a heading "Contents" gets an entry of its own. *)
Lemma toc_lists_contents_heading :
  toc_items (headers_of (u "# Contents" ++ [nl] ++ u "## A" ++ [nl]))
  = [(0%nat, u "Contents", u "contents"); (2%nat, u "A", u "a")].
Proof. reflexivity. Qed.

(** ** C1: the context window *)

Lemma page_loop_calls : forall post shrink cfg name tot pages st,
  Forall call_shape (rs_calls st) ->
  Forall call_shape (rs_calls (page_loop post shrink cfg name tot pages st)) /\
  length (rs_calls (page_loop post shrink cfg name tot pages st))
  = (length (rs_calls st) + length pages)%nat.
Proof.
  intros post shrink cfg name tot pages.
  induction pages as [|[i img] rest IH]; intros st Hst.
  - simpl. split; [exact Hst | lia].
  - cbn [page_loop]. unfold process_page.
    set (p := build_payload _ _ _ _ _).
    assert (Hc : Forall call_shape (rs_calls st ++ [([], [p])])).
    { apply Forall_app; split; [exact Hst|].
      constructor; [|constructor]. split; [reflexivity|].
      constructor; [|constructor]. do 3 eexists. reflexivity. }
    destruct (handle_response (post i p)) as [e|md];
      match goal with |- context [page_loop _ _ _ _ _ rest ?s] =>
        destruct (IH s Hc) as [H1 H2] end;
      (split; [exact H1|]); rewrite H2; cbn [rs_calls]; rewrite length_app; simpl; lia.
Qed.

Lemma length_enumerate : forall A (l : list A), length (enumerate l) = length l.
Proof.
  intros A l. unfold enumerate. rewrite length_combine, length_seq. lia.
Qed.

(** C1 (amended): whatever [context_window] and [use_context] are, every
    page gets exactly one call, the context passed is the empty string, and
    no request carries a context block: its messages are the system prompt
    and a user message made of the instruction and the page image. *)
Theorem run_pages_no_context : forall post shrink cfg info page_count images fs0,
  let st := run_pages post shrink cfg info page_count images fs0 in
  Forall call_shape (rs_calls st) /\ length (rs_calls st) = length images.
Proof.
  intros. unfold st, run_pages.
  destruct (page_loop_calls post shrink cfg
              (output_name cfg (total_pages_of (get_pdf_metadata info page_count)))
              (total_pages_of (get_pdf_metadata info page_count)) (enumerate images)
              {| rs_fs := fs0; rs_files := []; rs_calls := [] |} (Forall_nil _)) as [H1 H2].
  split; [exact H1|]. rewrite H2, length_enumerate. reflexivity.
Qed.

(** C1 (as stated): with a window of two pages and four successful pages,
    the fourth request (after pages 1..3, so M = 3 > N = 2) is sent with an
    empty context, not with the cleaned outputs of pages 2 and 3 joined by
    a blank line. *)
Lemma context_window_not_rendered :
  let st := run_pages post_letters shrink_none (example_cfg 2 false None) [] 4
              example_pages4 empty_fs in
  nth 3 (map fst (rs_calls st)) [nl] = [] /\
  spec_render_context 2 (map (read_or_empty (rs_fs st)) (firstn 3 (rs_files st)))
  = u "B" ++ two_nl ++ u "C".
Proof. split; vm_compute; reflexivity. Qed.

(** ** C5: resizing a page image *)

Lemma py_int_of_float_floor : forall m e n,
  py_int_of_float (S754_finite false m e) = Some n ->
  (n * 2 ^ Z.max 0 (- e) <= Z.pos m * 2 ^ Z.max 0 e < (n + 1) * 2 ^ Z.max 0 (- e))%Z.
Proof.
  intros m e n H. unfold py_int_of_float in H.
  destruct (0 <=? e)%Z eqn:E.
  - assert (n = Z.pos m * 2 ^ e)%Z as -> by congruence. apply Z.leb_le in E. rewrite (Z.max_l 0 (- e)) by lia. rewrite (Z.max_r 0 e) by lia.
    rewrite Z.pow_0_r. set (x := (Z.pos m * 2 ^ e)%Z). lia.
  - assert (n = Z.pos m / 2 ^ (- e))%Z as -> by congruence.
    apply Z.leb_gt in E. rewrite (Z.max_r 0 (- e)) by lia. rewrite (Z.max_l 0 e) by lia.
    rewrite Z.pow_0_r, Z.mul_1_r.
    assert (Hp : (0 < 2 ^ (- e))%Z) by (apply Z.pow_pos_nonneg; lia).
    pose proof (Z.mul_div_le (Z.pos m) (2 ^ (- e)) Hp) as H1.
    pose proof (Z.mod_pos_bound (Z.pos m) (2 ^ (- e)) Hp) as H2.
    pose proof (Z.div_mod (Z.pos m) (2 ^ (- e)) ltac:(lia)) as H3.
    set (q := (Z.pos m / 2 ^ (- e))%Z) in *. set (r := (Z.pos m mod 2 ^ (- e))%Z) in *.
    set (k := (2 ^ (- e))%Z) in *. split; nia.
Qed.

(** C5.  [resize_image_if_needed] leaves an image of at most [max_size]
    bytes (5 MiB by default) as it is: same path, same file, so the same
    dimensions.  A larger image is opened, both dimensions are multiplied
    by the one factor [scale_factor = (max_size / file_size) ** 0.5] (the
    square root as Python's float power computes it) and truncated by
    [int()], which rounds a non-negative float down to an integer (the
    first conjunct: [int(m * 2^e)] is the floor of [m * 2^e]); the image
    is resized to those dimensions once and saved over the same path,
    whose new contents are whatever PIL writes, larger than [max_size]
    or not: no further check or retry. *)
Theorem resize_image_spec :
  (forall m e n, py_int_of_float (S754_finite false m e) = Some n ->
     (n * 2 ^ Z.max 0 (- e) <= Z.pos m * 2 ^ Z.max 0 e < (n + 1) * 2 ^ Z.max 0 (- e))%Z) /\
  forall float_pow pil_open pil_resize_save store image_path max_size bytes,
  store image_path = Some bytes ->
  let file_size := Z.of_nat (length bytes) in
  let res := resize_image_pil float_pow pil_open pil_resize_save store image_path max_size in
  ((file_size <= max_size)%Z -> res = Some (image_path, store)) /\
  ((max_size < file_size)%Z ->
   forall width height, pil_open bytes = Some (width, height) ->
   let scale_factor := float_pow (py_int_truediv max_size file_size) float_half in
   forall new_width new_height,
   py_int_of_float (SFmul f64_prec f64_emax (float_of_int width) scale_factor)
     = Some new_width ->
   py_int_of_float (SFmul f64_prec f64_emax (float_of_int height) scale_factor)
     = Some new_height ->
   forall resized, pil_resize_save bytes new_width new_height = Some resized ->
   res = Some (image_path, fun p => if text_eqb p image_path then Some resized else store p)).
Proof.
  split; [exact py_int_of_float_floor|].
  intros float_pow pil_open pil_resize_save store image_path max_size bytes Hb file_size res.
  split.
  - intros Hle. unfold res, resize_image_pil. rewrite Hb. fold file_size.
    apply Z.leb_le in Hle. rewrite Hle. reflexivity.
  - intros Hgt width height Ho scale_factor new_width new_height Hw Hh resized Hr.
    unfold res, resize_image_pil. rewrite Hb. fold file_size.
    apply Z.leb_gt in Hgt. rewrite Hgt, Ho. fold scale_factor. rewrite Hw, Hh, Hr.
    reflexivity.
Qed.

(** Witness: a 9-byte 300x200 image under a 4-byte budget, with the
    correctly rounded square root as the power: the factor is
    [(4/9) ** 0.5] and the image is resized once to 200x133. *)
Lemma resize_image_spec_witness :
  (Z.of_nat (length (u "123456789")) > 4)%Z /\
  resize_image_pil (fun x _ => SFsqrt f64_prec f64_emax x) (fun _ => Some (300%Z, 200%Z))
    (fun _ w h => Some [Z.to_N w; Z.to_N h])
    (fun p => if text_eqb p (u "p.png") then Some (u "123456789") else None) (u "p.png") 4%Z
  = Some (u "p.png", fun p => if text_eqb p (u "p.png") then Some [200; 133]%N
                              else if text_eqb p (u "p.png") then Some (u "123456789")
                              else None).
Proof.
  split; [vm_compute; reflexivity|].
  destruct resize_image_spec as [_ H].
  exact (proj2 (H (fun x _ => SFsqrt f64_prec f64_emax x) (fun _ => Some (300%Z, 200%Z))
                  (fun _ w h => Some [Z.to_N w; Z.to_N h])
                  (fun p => if text_eqb p (u "p.png") then Some (u "123456789") else None)
                  (u "p.png") 4%Z (u "123456789") eq_refl)
               (ltac:(vm_compute; reflexivity)) 300%Z 200%Z eq_refl 200%Z 133%Z
               (ltac:(vm_compute; reflexivity)) (ltac:(vm_compute; reflexivity))
               [200; 133]%N eq_refl).
Defined.

(** ** C9: translation without a target language *)



Lemma process_datasheet_some : forall post shrink cfg d page_count images fs0,
  let st := run_pages post shrink cfg d page_count images fs0 in
  let r := process_datasheet post shrink cfg (Some d) page_count images fs0 in
  rs_calls (fst r) = rs_calls st /\ rs_files (fst r) = rs_files st /\
  snd r = add_table_of_contents
            (univ_nl (merge_markdown_files (rs_fs st) (rs_files st)
                        (Some (get_pdf_metadata d page_count)))).
Proof.
  intros. unfold r, process_datasheet. fold st.
  set (out := full_md_file _ _). set (m := merge_markdown_files _ _ _).
  replace (fs_write (rs_fs st) out m out) with (Some (univ_nl m))
    by (unfold fs_write; rewrite (proj2 (text_eqb_eq out out) eq_refl); reflexivity).
  destruct (add_table_of_contents _); auto.
Qed.




(** ** C2: a failing page is isolated *)

Lemma filter_not_path_app_other : forall pk l q,
  q <> pk -> filter (not_path pk) (l ++ [q]) = filter (not_path pk) l ++ [q].
Proof.
  intros pk l q Hq. rewrite filter_app. cbn [filter]. unfold not_path at 2.
  destruct (text_eqb q pk) eqn:E.
  - apply text_eqb_eq in E. contradiction.
  - reflexivity.
Qed.

Lemma filter_not_path_app_self : forall pk l,
  filter (not_path pk) (l ++ [pk]) = filter (not_path pk) l.
Proof.
  intros pk l. rewrite filter_app. cbn [filter]. unfold not_path at 2.
  rewrite (proj2 (text_eqb_eq pk pk) eq_refl). apply app_nil_r.
Qed.

Lemma fs_write_other : forall fs q c f, f <> q -> fs_write fs q c f = fs f.
Proof.
  intros fs q c f H. unfold fs_write. destruct (text_eqb f q) eqn:E; [|reflexivity].
  apply text_eqb_eq in E. contradiction.
Qed.

Lemma fs_write_same_both : forall fs1 fs2 q c f,
  (f <> q -> fs1 f = fs2 f) -> fs_write fs1 q c f = fs_write fs2 q c f.
Proof.
  intros fs1 fs2 q c f H. unfold fs_write. destruct (text_eqb f q) eqn:E; [reflexivity|].
  apply H. intros ->. rewrite (proj2 (text_eqb_eq q q) eq_refl) in E. discriminate.
Qed.

Section Isolation.
Variables (post_f post_g : nat -> payload -> response) (shrink : page_image -> text)
          (cfg : config) (name : text) (tot : Z) (k : nat) (pk : text) (v : option text).
Hypothesis Hfail : forall p, is_failure (post_g k p) = true.

Lemma page_loop_isolation : forall pages sf sg,
  (forall i img, In (i, img) pages -> i <> k ->
     post_g i = post_f i /\ page_path cfg name (i, img) <> pk) ->
  (forall i img, In (i, img) pages -> i = k -> page_path cfg name (i, img) = pk) ->
  rs_calls sg = rs_calls sf ->
  rs_files sg = filter (not_path pk) (rs_files sf) ->
  (forall f, f <> pk -> rs_fs sg f = rs_fs sf f) ->
  rs_fs sg pk = v ->
  let sf' := page_loop post_f shrink cfg name tot pages sf in
  let sg' := page_loop post_g shrink cfg name tot pages sg in
  rs_calls sg' = rs_calls sf' /\
  rs_files sg' = filter (not_path pk) (rs_files sf') /\
  (forall f, f <> pk -> rs_fs sg' f = rs_fs sf' f) /\
  rs_fs sg' pk = v.
Proof.
  induction pages as [|[i img] rest IH]; intros sf sg Hother Hk Hc Hfl Hfs Hv.
  - simpl. auto.
  - assert (Hother' : forall i' img', In (i', img') rest -> i' <> k ->
              post_g i' = post_f i' /\ page_path cfg name (i', img') <> pk)
      by (intros; apply Hother; [right|]; assumption).
    assert (Hk' : forall i' img', In (i', img') rest -> i' = k ->
              page_path cfg name (i', img') = pk)
      by (intros; apply Hk; [right|]; assumption).
    cbn [page_loop]. unfold process_page.
    set (p := build_payload _ _ _ _ _).
    destruct (Nat.eq_dec i k) as [->|Hik].
    + specialize (Hk k img (or_introl eq_refl) eq_refl). unfold page_path in Hk.
      cbn [fst snd] in Hk.
      pose proof (Hfail p) as Hf. unfold is_failure in Hf.
      destruct (handle_response (post_g k p)) as [eg|mg]; [|discriminate].
      destruct (handle_response (post_f k p)) as [ef|mf];
        apply IH; auto; cbn [rs_calls rs_files rs_fs]; try (rewrite Hc; reflexivity).
      * rewrite Hk, filter_not_path_app_self. exact Hfl.
      * intros f Hf'. rewrite Hk, fs_write_other by exact Hf'. apply Hfs; exact Hf'.
    + destruct (Hother i img (or_introl eq_refl) Hik) as [Hpost Hq].
      unfold page_path in Hq. cbn [fst snd] in Hq.
      rewrite Hpost.
      destruct (handle_response (post_f i p)) as [ef|mf];
        apply IH; auto; cbn [rs_calls rs_files rs_fs]; try (rewrite Hc; reflexivity).
      * rewrite filter_not_path_app_other by exact Hq. rewrite Hfl. reflexivity.
      * intros f Hf'. apply fs_write_same_both. intros _. apply Hfs; exact Hf'.
      * rewrite fs_write_other by (intros E; apply Hq; symmetry; exact E). exact Hv.
Qed.
End Isolation.

Lemma in_enumerate : forall A (l : list A) i x,
  In (i, x) (enumerate l) -> nth_error l i = Some x.
Proof.
  intros A l. unfold enumerate.
  assert (G : forall s i x, In (i, x) (combine (seq s (length l)) l) -> nth_error l (i - s) = Some x
                            /\ s <= i).
  { induction l as [|a l IH]; intros s i x H; simpl in H; [contradiction|].
    destruct H as [H|H].
    - injection H as <- <-. rewrite Nat.sub_diag. simpl. split; [reflexivity|lia].
    - destruct (IH (S s) i x H) as [H1 H2].
      replace (i - s) with (S (i - S s)) by lia. simpl. split; [exact H1|lia]. }
  intros i x H. destruct (G 0 i x H) as [H1 _]. rewrite Nat.sub_0_r in H1. exact H1.
Qed.

Lemma enumerate_in : forall A (l : list A) i x,
  nth_error l i = Some x -> In (i, x) (enumerate l).
Proof.
  intros A l. unfold enumerate.
  assert (G : forall s i x, nth_error l i = Some x -> In (s + i, x) (combine (seq s (length l)) l)).
  { induction l as [|a l IH]; intros s i x H; [destruct i; discriminate|].
    destruct i as [|i]; simpl in H |- *.
    - injection H as <-. left. f_equal. lia.
    - right. replace (s + S i) with (S s + i) by lia. apply IH. exact H. }
  intros i x H. apply (G 0 i x H).
Qed.

Lemma NoDup_map_inj : forall A B (f : A -> B) l x y,
  NoDup (map f l) -> In x l -> In y l -> f x = f y -> x = y.
Proof.
  intros A B f l. induction l as [|a l IH]; intros x y Hnd Hx Hy Hf; [contradiction|].
  simpl in Hnd. inversion Hnd as [|b m Hnin Hnd' Heq]; subst.
  destruct Hx as [<-|Hx], Hy as [<-|Hy]; auto.
  - exfalso. apply Hnin. rewrite Hf. apply in_map. exact Hy.
  - exfalso. apply Hnin. rewrite <- Hf. apply in_map. exact Hx.
Qed.

Lemma read_existing_agree : forall fs1 fs2 l,
  (forall f, In f l -> fs1 f = fs2 f) -> read_existing fs1 l = read_existing fs2 l.
Proof.
  intros fs1 fs2 l. induction l as [|f l IH]; intros H; simpl; [reflexivity|].
  rewrite (H f (or_introl eq_refl)).
  rewrite IH by (intros; apply H; right; assumption). reflexivity.
Qed.

Lemma run_pages_eq : forall post shrink cfg info page_count images fs0,
  run_pages post shrink cfg info page_count images fs0
  = page_loop post shrink cfg (run_name cfg info page_count)
      (total_pages_of (get_pdf_metadata info page_count)) (enumerate images)
      {| rs_fs := fs0; rs_files := []; rs_calls := [] |}.
Proof. reflexivity. Qed.

(** C2: if page [k]'s request fails (whatever the endpoint answers it,
    [process_page] raises) and the two runs see the same endpoint on every
    other page, then the run goes on through every page (the same requests
    are sent, one call per page), page [k] leaves its artifact path as it
    was before the run and is absent from the merge input list, and every
    other artifact, the merge list and the merged document are those of
    the run where page [k] succeeded, with page [k] left out.  The
    artifact paths of distinct pages are assumed distinct (page numbers
    parsed from distinct file names). *)
Theorem page_failure_isolated :
  forall post_f post_g shrink cfg info page_count images fs0 k img_k,
  nth_error images k = Some img_k ->
  (forall i, i <> k -> post_g i = post_f i) ->
  (forall p, is_failure (post_g k p) = true) ->
  NoDup (map (page_path cfg (run_name cfg info page_count)) (enumerate images)) ->
  let pk := page_path cfg (run_name cfg info page_count) (k, img_k) in
  let sf := run_pages post_f shrink cfg info page_count images fs0 in
  let sg := run_pages post_g shrink cfg info page_count images fs0 in
  rs_calls sg = rs_calls sf /\
  length (rs_calls sg) = length images /\
  rs_files sg = filter (not_path pk) (rs_files sf) /\
  (forall f, f <> pk -> rs_fs sg f = rs_fs sf f) /\
  rs_fs sg pk = fs0 pk /\
  (forall md, merge_markdown_files (rs_fs sg) (rs_files sg) md
              = merge_markdown_files (rs_fs sf) (filter (not_path pk) (rs_files sf)) md).
Proof.
  intros post_f post_g shrink cfg info page_count images fs0 k img_k Himg Hpost Hfail Hnd
         pk sf sg.
  assert (Hin_k : In (k, img_k) (enumerate images)) by (apply enumerate_in; exact Himg).
  subst sf sg. rewrite !run_pages_eq.
  destruct (page_loop_isolation post_f post_g shrink cfg (run_name cfg info page_count)
              (total_pages_of (get_pdf_metadata info page_count)) k pk (fs0 pk) Hfail
              (enumerate images)
              {| rs_fs := fs0; rs_files := []; rs_calls := [] |}
              {| rs_fs := fs0; rs_files := []; rs_calls := [] |})
    as (Hc & Hfl & Hfs & Hv); cbn [rs_calls rs_files rs_fs]; auto.
  - intros i img Hin Hik. split; [apply Hpost; exact Hik|].
    intros E. apply Hik.
    pose proof (NoDup_map_inj _ _ _ _ _ _ Hnd Hin Hin_k E) as Heq.
    injection Heq as ->. reflexivity.
  - intros i img Hin ->. unfold pk. f_equal.
    apply in_enumerate in Hin. rewrite Himg in Hin. injection Hin as ->. reflexivity.
  - split; [exact Hc|]. split.
    + rewrite Hc.
      destruct (page_loop_calls post_f shrink cfg (run_name cfg info page_count)
                  (total_pages_of (get_pdf_metadata info page_count)) (enumerate images)
                  {| rs_fs := fs0; rs_files := []; rs_calls := [] |} (Forall_nil _))
        as [_ H2].
      rewrite H2, length_enumerate. reflexivity.
    + split; [exact Hfl|]. split; [exact Hfs|]. split; [exact Hv|].
      intros md. rewrite Hfl. unfold merge_markdown_files. f_equal. f_equal.
      apply read_existing_agree. intros f Hf. apply Hfs.
      apply filter_In in Hf as [_ Hf]. unfold not_path in Hf.
      intros ->. rewrite (proj2 (text_eqb_eq pk pk) eq_refl) in Hf. discriminate.
Qed.

(** Witness: three pages, the second one's request fails. *)
Lemma page_failure_isolated_witness :
  nth_error example_pages 1
  = Some {| img_path := u "tmp/page_002.png"; img_bytes := u "P2"; img_size := 2 |} /\
  NoDup (map (page_path (example_cfg 0 false None) (run_name (example_cfg 0 false None) [] 3))
             (enumerate example_pages)) /\
  rs_files (run_pages (post_letters_failing_at 1) shrink_none (example_cfg 0 false None) [] 3
                      example_pages empty_fs)
  = filter (not_path (page_path (example_cfg 0 false None)
                        (run_name (example_cfg 0 false None) [] 3)
                        (1%nat, {| img_path := u "tmp/page_002.png"; img_bytes := u "P2";
                                   img_size := 2 |})))
           (rs_files (run_pages post_letters shrink_none (example_cfg 0 false None) [] 3
                                example_pages empty_fs)).
Proof.
  assert (Hnd : NoDup (map (page_path (example_cfg 0 false None)
                              (run_name (example_cfg 0 false None) [] 3))
                           (enumerate example_pages))).
  { vm_compute. repeat (apply NoDup_cons; [simpl; intuition discriminate|]). apply NoDup_nil. }
  assert (Hpost : forall i, i <> 1%nat -> post_letters_failing_at 1 i = post_letters i).
  { intros i Hi. unfold post_letters_failing_at. apply Nat.eqb_neq in Hi. rewrite Hi.
    reflexivity. }
  assert (Hfail : forall p, is_failure (post_letters_failing_at 1 1 p) = true).
  { intros p. reflexivity. }
  split; [reflexivity|]. split; [exact Hnd|].
  destruct (page_failure_isolated post_letters (post_letters_failing_at 1) shrink_none
              (example_cfg 0 false None) [] 3 example_pages empty_fs 1
              {| img_path := u "tmp/page_002.png"; img_bytes := u "P2"; img_size := 2 |}
              eq_refl Hpost Hfail Hnd) as (_ & _ & H & _).
  exact H.
Defined.

(* ==================================================================== *)
(** * Further properties of the code *)

(** ** Base64 encoding of the page image *)

Lemma b64_char_value : forall i, (i < 64)%N -> b64_value (b64_char i) = i.
Proof.
  intros i Hi.
  assert (H : forallb (fun k => N.eqb (b64_value (b64_char (N.of_nat k))) (N.of_nat k))
                      (seq 0 64) = true) by (vm_compute; reflexivity).
  rewrite forallb_forall in H.
  specialize (H (N.to_nat i)). rewrite N2Nat.id in H. apply N.eqb_eq, H.
  apply in_seq. lia.
Qed.

Lemma b64_char_not_pad : forall i, b64_char i <> b64_pad.
Proof.
  intros i. unfold b64_char, b64_pad.
  destruct (i <? 26)%N eqn:E1; [apply N.ltb_lt in E1; lia|].
  destruct (i <? 52)%N eqn:E2; [apply N.ltb_lt in E2; apply N.ltb_ge in E1; lia|].
  destruct (i <? 62)%N eqn:E3; [apply N.ltb_lt in E3; apply N.ltb_ge in E2; lia|].
  destruct (i =? 62)%N; discriminate.
Qed.

Lemma b64_char_alphabet : forall i, is_b64_char (b64_char i) = true.
Proof.
  intros i. unfold is_b64_char, b64_char.
  destruct (i <? 26)%N eqn:E1.
  { apply N.ltb_lt in E1.
    replace ((65 <=? 65 + i) && (65 + i <=? 90))%N with true; [reflexivity|].
    symmetry; apply andb_true_iff; split; apply N.leb_le; lia. }
  apply N.ltb_ge in E1.
  destruct (i <? 52)%N eqn:E2.
  { apply N.ltb_lt in E2.
    replace ((97 <=? 97 + (i - 26)) && (97 + (i - 26) <=? 122))%N with true;
      [rewrite orb_true_r; reflexivity|].
    symmetry; apply andb_true_iff; split; apply N.leb_le; lia. }
  apply N.ltb_ge in E2.
  destruct (i <? 62)%N eqn:E3.
  { apply N.ltb_lt in E3.
    replace ((48 <=? 48 + (i - 52)) && (48 + (i - 52) <=? 57))%N with true;
      [rewrite !orb_true_r; reflexivity|].
    symmetry; apply andb_true_iff; split; apply N.leb_le; lia. }
  destruct (i =? 62)%N; reflexivity.
Qed.

Lemma b64_group_ok : forall a b c, (a < 256)%N -> (b < 256)%N -> (c < 256)%N ->
  (a / 4 < 64 /\ (a mod 4) * 16 + b / 16 < 64 /\ (b mod 16) * 4 + c / 64 < 64 /\ c mod 64 < 64 /\
   (a / 4) * 4 + ((a mod 4) * 16 + b / 16) / 16 = a /\
   (((a mod 4) * 16 + b / 16) mod 16) * 16 + ((b mod 16) * 4 + c / 64) / 4 = b /\
   (((b mod 16) * 4 + c / 64) mod 4) * 64 + c mod 64 = c)%N.
Proof.
  intros a b c Ha Hb Hc.
  assert (Hdm : forall x y k : N, k <> 0%N -> (y < k)%N ->
                 ((x * k + y) / k = x)%N /\ ((x * k + y) mod k = y)%N).
  { intros x y k Hk Hy. assert (Hq : ((x * k + y) / k = x)%N).
    { rewrite N.div_add_l by exact Hk. rewrite (N.div_small y k Hy). apply N.add_0_r. }
    split; [exact Hq|]. rewrite N.Div0.mod_eq, Hq, (N.mul_comm k x), (N.add_comm (x * k) y).
    apply N.add_sub. }
  pose proof (N.div_mod a 4 ltac:(discriminate)) as Ea. pose proof (N.mod_lt a 4 ltac:(discriminate)) as Ma.
  pose proof (N.div_mod b 16 ltac:(discriminate)) as Eb. pose proof (N.mod_lt b 16 ltac:(discriminate)) as Mb.
  pose proof (N.div_mod c 64 ltac:(discriminate)) as Ec. pose proof (N.mod_lt c 64 ltac:(discriminate)) as Mc.
  set (qa := (a / 4)%N) in *. set (ra := (a mod 4)%N) in *.
  set (qb := (b / 16)%N) in *. set (rb := (b mod 16)%N) in *.
  set (qc := (c / 64)%N) in *. set (rc := (c mod 64)%N) in *.
  clearbody qa ra qb rb qc rc.
  assert (Bb : (qb < 16)%N) by lia.
  assert (Bc : (qc < 4)%N) by lia.
  destruct (Hdm ra qb 16%N ltac:(discriminate) Bb) as [D1 M1].
  destruct (Hdm rb qc 4%N ltac:(discriminate) Bc) as [D2 M2].
  rewrite D1, M1, D2, M2. repeat split; lia.
Qed.

Lemma b64_pad_neq : forall i, N.eqb (b64_char i) b64_pad = false.
Proof. intros i. apply N.eqb_neq, b64_char_not_pad. Qed.

Lemma b64encode_roundtrip : forall bs,
  Forall (fun b => (b < 256)%N) bs -> b64decode_ref (b64encode bs) = bs.
Proof.
  intros bs. remember (length bs) as n eqn:Hn. revert bs Hn.
  induction n as [n IH] using lt_wf_ind. intros bs Hn Hall.
  destruct bs as [|a [|b [|c rest]]].
  - reflexivity.
  - inversion Hall as [|? ? Ha _]; subst.
    destruct (b64_group_ok a 0 0 Ha ltac:(lia) ltac:(lia)) as (B0 & B1 & _ & _ & R0 & _).
    change (0 / 16)%N with 0%N in B1, R0. rewrite N.add_0_r in B1, R0.
    cbn [b64encode b64decode_ref]. rewrite N.eqb_refl.
    rewrite (b64_char_value _ B0), (b64_char_value _ B1), R0. reflexivity.
  - inversion Hall as [|? ? Ha Hall1]; subst. inversion Hall1 as [|? ? Hb _]; subst.
    destruct (b64_group_ok a b 0 Ha Hb ltac:(lia)) as (B0 & B1 & B2 & _ & R0 & R1 & _).
    change (0 / 64)%N with 0%N in B2, R1. rewrite N.add_0_r in B2, R1.
    cbn [b64encode b64decode_ref]. rewrite b64_pad_neq, N.eqb_refl.
    rewrite (b64_char_value _ B0), (b64_char_value _ B1), (b64_char_value _ B2), R0, R1.
    reflexivity.
  - inversion Hall as [|? ? Ha Hall1]; subst. inversion Hall1 as [|? ? Hb Hall2]; subst.
    inversion Hall2 as [|? ? Hc Hrest]; subst.
    destruct (b64_group_ok a b c Ha Hb Hc) as (B0 & B1 & B2 & B3 & R0 & R1 & R2).
    cbn [b64encode app b64decode_ref]. rewrite !b64_pad_neq.
    rewrite (b64_char_value _ B0), (b64_char_value _ B1), (b64_char_value _ B2),
      (b64_char_value _ B3), R0, R1, R2.
    rewrite (IH (length rest)); [reflexivity | simpl; lia | reflexivity | exact Hrest].
Qed.

Lemma b64encode_length : forall bs, length (b64encode bs) = (4 * ((length bs + 2) / 3))%nat.
Proof.
  intros bs. remember (length bs) as n eqn:Hn. revert bs Hn.
  induction n as [n IH] using lt_wf_ind. intros bs Hn.
  destruct bs as [|a [|b [|c rest]]]; subst; try reflexivity.
  cbn [b64encode app length]. rewrite (IH (length rest)) by (simpl; lia || reflexivity).
  replace (S (S (S (length rest))) + 2)%nat with (length rest + 2 + 1 * 3)%nat by lia.
  rewrite Nat.div_add by discriminate. lia.
Qed.

Lemma b64encode_alphabet : forall bs, forallb is_b64_char (b64encode bs) = true.
Proof.
  intros bs. remember (length bs) as n eqn:Hn. revert bs Hn.
  induction n as [n IH] using lt_wf_ind. intros bs Hn.
  destruct bs as [|a [|b [|c rest]]]; subst; cbn [b64encode forallb app];
    rewrite ?b64_char_alphabet; try reflexivity.
  apply (IH (length rest)); [simpl; lia | reflexivity].
Qed.

(** [encode_image] on a file of bytes: the text has four characters per
    started group of three bytes, uses only the base64 alphabet and [=],
    and a standard base64 decoder gives the file's bytes back. *)
Theorem encode_image_lossless : forall read_bytes image_path bs,
  read_bytes image_path = Some bs -> Forall (fun b => (b < 256)%N) bs ->
  exists t, encode_image read_bytes image_path = Some t /\
    length t = (4 * ((length bs + 2) / 3))%nat /\
    forallb is_b64_char t = true /\
    b64decode_ref t = bs.
Proof.
  intros read_bytes image_path bs Hr Hb. exists (b64encode bs).
  unfold encode_image. rewrite Hr. split; [reflexivity|].
  split; [apply b64encode_length|]. split; [apply b64encode_alphabet|].
  apply b64encode_roundtrip, Hb.
Qed.

Lemma encode_image_lossless_witness :
  (fun _ : text => Some [77; 97; 110; 0]%N) (u "page_001.png") = Some [77; 97; 110; 0]%N /\
  Forall (fun b => (b < 256)%N) [77; 97; 110; 0]%N /\
  exists t, encode_image (fun _ => Some [77; 97; 110; 0]%N) (u "page_001.png") = Some t /\
    length t = (4 * ((length [77; 97; 110; 0]%N + 2) / 3))%nat /\
    forallb is_b64_char t = true /\
    b64decode_ref t = [77; 97; 110; 0]%N.
Proof.
  assert (Hb : Forall (fun b => (b < 256)%N) [77; 97; 110; 0]%N)
    by (repeat constructor; vm_compute; reflexivity).
  split; [reflexivity|]. split; [exact Hb|].
  exact (encode_image_lossless (fun _ => Some [77; 97; 110; 0]%N) (u "page_001.png")
           [77; 97; 110; 0]%N eq_refl Hb).
Defined.

(** ** [clean_markdown] never leaves three newlines in a row *)

Lemma occursb_nl3_cons_ok : forall x o, occursb nl3 o = false ->
  (forall r, x = nl -> o = nl :: nl :: r -> False) -> occursb nl3 (x :: o) = false.
Proof.
  intros x o Ho Hx. rewrite occursb_cons. unfold nl3 at 1. rewrite strip_prefix_cons.
  destruct (N.eqb nl x) eqn:E; [|exact Ho].
  apply N.eqb_eq in E. subst x.
  destruct o as [|a [|b o]]; cbn [strip_prefix]; [reflexivity| |].
  - destruct (N.eqb nl a); exact Ho.
  - destruct (N.eqb nl a) eqn:Ea; [|exact Ho].
    destruct (N.eqb nl b) eqn:Eb; [|exact Ho].
    apply N.eqb_eq in Ea, Eb. subst. exfalso. apply (Hx o eq_refl eq_refl).
Qed.

Lemma nl3_at_head : forall r, occursb nl3 (nl :: nl :: nl :: r) = true.
Proof. intros r. rewrite occursb_cons. unfold nl3. cbn [strip_prefix]. rewrite N.eqb_refl. reflexivity. Qed.

Lemma occursb_skipn_false : forall p n s, occursb p s = false -> occursb p (skipn n s) = false.
Proof.
  intros p n s H. rewrite <- (firstn_skipn n s) in H. apply occursb_app_r in H. exact H.
Qed.

Lemma span_spec : forall f s a b, span f s = (a, b) ->
  s = a ++ b /\ Forall (fun x => f x = true) a /\ (forall x t, b = x :: t -> f x = false).
Proof.
  intros f s. induction s as [|c s IH]; intros a b H.
  - injection H as <- <-. split; [reflexivity|]. split; [constructor|]. discriminate.
  - cbn [span] in H. destruct (f c) eqn:Fc.
    + destruct (span f s) as [a' b'] eqn:E. injection H as <- <-.
      destruct (IH a' b' eq_refl) as (H1 & H2 & H3). subst s.
      split; [reflexivity|]. split; [constructor; assumption|]. exact H3.
    + injection H as <- <-. split; [reflexivity|]. split; [constructor|].
      intros x t Ht. injection Ht as -> ->. exact Fc.
Qed.

Lemma strip_prefix_ci_spec : forall p s r, strip_prefix_ci p s = Some r ->
  exists pre, s = pre ++ r /\ length pre = length p.
Proof.
  induction p as [|c p IH]; intros s r H.
  - injection H as <-. exists []. split; reflexivity.
  - destruct s as [|d s]; cbn [strip_prefix_ci] in H; [discriminate|].
    destruct (N.eqb c (lower_simple d)); [|discriminate].
    destruct (IH s r H) as (pre & -> & Hl). exists (d :: pre). split; [reflexivity|].
    simpl. rewrite Hl. reflexivity.
Qed.

Lemma last_nl_index_spec : forall w i best q, last_nl_index w i best = Some q ->
  (best = Some q /\ ~ In nl w) \/
  ((i <= q)%nat /\ (q < i + length w)%nat /\ ~ In nl (skipn (q - i + 1) w)).
Proof.
  induction w as [|c w IH]; intros i best q H.
  - left. split; [exact H | intros []].
  - cbn [last_nl_index] in H. destruct (IH _ _ _ H) as [(Hb & Hn)|(H1 & H2 & H3)].
    + destruct (N.eqb c nl) eqn:E.
      * apply N.eqb_eq in E. injection Hb as <-. right. simpl.
        split; [lia|]. split; [lia|]. replace (i - i + 1)%nat with 1%nat by lia. exact Hn.
      * left. split; [exact Hb|]. intros [Hc|Hc]; [|exact (Hn Hc)].
        subst c. rewrite N.eqb_refl in E. discriminate.
    + right. simpl. split; [lia|]. split; [lia|].
      replace (q - i + 1)%nat with (S (q - S i + 1)) by lia. exact H3.
Qed.

Lemma is_space_nl : is_space nl = true.
Proof. reflexivity. Qed.

Lemma marker_len_head : forall pw s n, marker_len pw s = Some n -> exists s', s = nl :: s'.
Proof.
  intros pw [|c s] n H; [discriminate|]. cbn [marker_len] in H.
  destruct (N.eqb c nl) eqn:E; [|discriminate]. apply N.eqb_eq in E. subst. eauto.
Qed.

Lemma marker_after : forall pw c s' n, marker_len pw (c :: s') = Some (S n) ->
  forall t, skipn n s' = nl :: t -> False.
Proof.
  intros pw c s' n H t Ht. cbn [marker_len] in H.
  destruct (N.eqb c nl); [|discriminate]. cbn [negb] in H.
  destruct (span is_space s') as [w r1] eqn:Sw.
  destruct (if pw then strip_prefix_ci (u "page ") r1 else Some r1) as [r2|] eqn:P;
    [|discriminate].
  assert (Hpre : exists pre, r1 = pre ++ r2 /\ length pre = (if pw then 5 else 0)%nat).
  { destruct pw.
    - apply strip_prefix_ci_spec in P. exact P.
    - injection P as <-. exists []. split; reflexivity. }
  destruct Hpre as (pre & Hr1 & Hpl).
  destruct (span is_digit r2) as [d r3] eqn:Sd.
  destruct d as [|d0 d']; [discriminate|].
  destruct (span is_space r3) as [w2 r4] eqn:Sw2.
  destruct (last_nl_index w2 O None) as [q|] eqn:L; [|discriminate].
  injection H as Hn.
  destruct (span_spec _ _ _ _ Sw) as (Es' & _ & _).
  destruct (span_spec _ _ _ _ Sd) as (Er2 & _ & _).
  destruct (span_spec _ _ _ _ Sw2) as (Er3 & _ & Hr4).
  destruct (last_nl_index_spec _ _ _ _ L) as [(Hb & _)|(_ & Hq & Hno)]; [discriminate|].
  rewrite Nat.sub_0_r in Hno. simpl in Hq.
  assert (Es : s' = (w ++ pre ++ d0 :: d') ++ (w2 ++ r4)).
  { rewrite Es', Hr1, Er2, Er3. rewrite !app_assoc. reflexivity. }
  rewrite Es, skipn_app in Ht.
  rewrite (skipn_all2 (w ++ pre ++ d0 :: d')) in Ht
    by (rewrite !length_app; simpl; lia).
  rewrite app_nil_l, skipn_app in Ht.
  replace (n - length (w ++ pre ++ d0 :: d'))%nat with (q + 1)%nat in Ht
    by (rewrite !length_app; simpl; lia).
  replace (q + 1 - length w2)%nat with O in Ht by lia. rewrite skipn_O in Ht.
  destruct (skipn (q + 1) w2) as [|x rest] eqn:Sk.
  - simpl in Ht. pose proof is_space_nl as Hsp. rewrite (Hr4 nl t Ht) in Hsp. discriminate.
  - simpl in Ht. injection Ht as -> _. apply Hno. left. reflexivity.
Qed.

Lemma marker_len_pos : forall pw s, marker_len pw s <> Some O.
Proof.
  intros pw [|c s] H; [discriminate|]. cbn [marker_len] in H.
  destruct (negb (N.eqb c nl)); [discriminate|].
  destruct (span is_space s) as [w r1].
  destruct (if pw then strip_prefix_ci (u "page ") r1 else Some r1) as [r2|]; [|discriminate].
  destruct (span is_digit r2) as [d r3]. destruct d; [discriminate|].
  destruct (span is_space r3) as [w2 r4].
  destruct (last_nl_index w2 O None); discriminate.
Qed.

Lemma sub_marker_skip : forall pw n s, sub_marker pw n s = sub_marker pw O (skipn n s).
Proof.
  intros pw n. induction n as [|n IH]; intros s; [reflexivity|].
  destruct s as [|c s]; [reflexivity|]. cbn [sub_marker skipn]. apply IH.
Qed.

Lemma sub_marker_head : forall pw s o, sub_marker pw O s = nl :: o -> exists s', s = nl :: s'.
Proof.
  intros pw [|c s] o H; [discriminate|]. cbn [sub_marker] in H.
  destruct (marker_len pw (c :: s)) as [[|n]|] eqn:M.
  - injection H as -> _. eauto.
  - apply marker_len_head in M. exact M.
  - injection H as -> _. eauto.
Qed.

Lemma sub_marker_no_nl3 : forall pw s,
  occursb nl3 s = false -> occursb nl3 (sub_marker pw O s) = false.
Proof.
  intros pw s. remember (length s) as len eqn:Hl. revert s Hl.
  induction len as [len IH] using lt_wf_ind. intros s Hl Hs.
  destruct s as [|c s']; [reflexivity|]. cbn [sub_marker].
  destruct (marker_len pw (c :: s')) as [[|n]|] eqn:M.
  - exfalso. exact (marker_len_pos _ _ M).
  - rewrite sub_marker_skip. apply occursb_nl3_cons_ok.
    + apply (IH (length (skipn n s'))); [rewrite length_skipn; simpl in Hl; lia|reflexivity|].
      apply occursb_skipn_false. apply occursb_cons_false in Hs. apply Hs.
    + intros r _ Ho. destruct (sub_marker_head _ _ _ Ho) as [s2 Hs2].
      exact (marker_after pw c s' n M s2 Hs2).
  - apply occursb_nl3_cons_ok.
    + apply (IH (length s')); [simpl in Hl; lia|reflexivity|].
      apply occursb_cons_false in Hs. apply Hs.
    + intros r -> Ho.
      destruct (sub_marker_head _ _ _ Ho) as [s2 ->].
      cbn [sub_marker] in Ho.
      destruct (marker_len pw (nl :: s2)) as [[|n2]|] eqn:M2.
      * exfalso. exact (marker_len_pos _ _ M2).
      * injection Ho as Ho. rewrite sub_marker_skip in Ho.
        destruct (sub_marker_head _ _ _ Ho) as [s3 Hs3].
        exact (marker_after pw nl s2 n2 M2 s3 Hs3).
      * injection Ho as Ho.
        destruct (sub_marker_head _ _ _ Ho) as [s3 ->].
        rewrite nl3_at_head in Hs. discriminate.
Qed.

(** [clean_markdown] never leaves three consecutive newlines, whatever its
    input: the collapse of [\n{3,}] comes first, and neither page-number
    substitution joins two runs of newlines into a longer one. *)
Theorem clean_markdown_no_triple_newline : forall content,
  occursb nl3 (clean_markdown content) = false.
Proof.
  intros content. unfold clean_markdown.
  apply sub_marker_no_nl3, sub_marker_no_nl3. apply collapse_nl_no_triple.
Qed.

(** ** [clean_markdown] only deletes characters *)

Lemma subseq_refl : forall s, subseq s s.
Proof. induction s; constructor; assumption. Qed.

Lemma subseq_nil_l : forall s, subseq [] s.
Proof. induction s; constructor; assumption. Qed.

Lemma subseq_trans : forall a b c, subseq a b -> subseq b c -> subseq a c.
Proof.
  intros a b c Hab Hbc. revert a Hab. induction Hbc as [|x b c Hbc IH|x b c Hbc IH];
    intros a Hab.
  - exact Hab.
  - inversion Hab; subst.
    + constructor. apply IH. assumption.
    + constructor. apply IH. assumption.
  - constructor. apply IH. exact Hab.
Qed.

Lemma subseq_app : forall a b c d, subseq a b -> subseq c d -> subseq (a ++ c) (b ++ d).
Proof.
  intros a b c d Hab Hcd. induction Hab; simpl; [exact Hcd| |]; constructor; assumption.
Qed.

Lemma emit_newlines_subseq : forall n, subseq (emit_newlines n) (repeat nl n).
Proof.
  intros n. unfold emit_newlines. destruct (Nat.leb 3 n) eqn:E; [|apply subseq_refl].
  apply Nat.leb_le in E. destruct n as [|[|[|n]]]; try lia. simpl.
  do 2 constructor. apply subseq_nil_l.
Qed.

Lemma collapse_nl_subseq : forall s n, subseq (collapse_nl n s) (repeat nl n ++ s).
Proof.
  induction s as [|c s IH]; intros n; cbn [collapse_nl].
  - rewrite app_nil_r. apply emit_newlines_subseq.
  - destruct (N.eqb c nl) eqn:E.
    + apply N.eqb_eq in E. subst c. rewrite <- repeat_nl_S. apply IH.
    + apply subseq_app; [apply emit_newlines_subseq|]. constructor. apply IH.
Qed.

Lemma sub_marker_subseq : forall pw s n, subseq (sub_marker pw n s) s.
Proof.
  intros pw. induction s as [|c s IH]; intros n; [constructor|]. cbn [sub_marker].
  destruct n as [|n]; [|constructor; apply IH].
  destruct (marker_len pw (c :: s)) as [[|m]|] eqn:M; try (constructor; apply IH).
  destruct (marker_len_head _ _ _ M) as [s' Hs']. injection Hs' as -> _.
  constructor. apply IH.
Qed.

(** [clean_markdown] never adds, changes or reorders characters: its
    output is its input with some characters deleted. *)
Theorem clean_markdown_deletes_only : forall content, subseq (clean_markdown content) content.
Proof.
  intros content. unfold clean_markdown, collapse_newlines.
  eapply subseq_trans; [apply sub_marker_subseq|].
  eapply subseq_trans; [apply sub_marker_subseq|].
  apply (collapse_nl_subseq content O).
Qed.

(** ** [clean_markdown] removes a line holding only a page number *)

Lemma digit_forall : forall P : N -> bool,
  forallb (fun z => forallb (fun k => P (z + N.of_nat k)%N) (seq 0 10)) nd_zeros = true ->
  forall c, is_digit c = true -> P c = true.
Proof.
  intros P HP c Hc. unfold is_digit, decimal_value in Hc.
  destruct (find _ nd_zeros) as [z|] eqn:F; [|discriminate].
  apply find_some in F as [Hin Hz]. apply andb_true_iff in Hz as [H1 H2].
  apply N.leb_le in H1. apply N.ltb_lt in H2.
  rewrite forallb_forall in HP. specialize (HP z Hin). rewrite forallb_forall in HP.
  specialize (HP (N.to_nat (c - z))).
  replace (z + N.of_nat (N.to_nat (c - z)))%N with c in HP by (rewrite N2Nat.id; lia).
  apply HP. apply in_seq. lia.
Qed.

Lemma digit_not_space : forall c, is_digit c = true -> is_space c = false.
Proof.
  intros c H. apply negb_true_iff.
  exact (digit_forall (fun c => negb (is_space c)) (eq_refl true) c H).
Qed.

Lemma digit_not_nl : forall c, is_digit c = true -> N.eqb c nl = false.
Proof.
  intros c H. apply negb_true_iff.
  exact (digit_forall (fun c => negb (N.eqb c nl)) (eq_refl true) c H).
Qed.

Lemma digit_not_p : forall c, is_digit c = true -> N.eqb 112 (lower_simple c) = false.
Proof.
  intros c H. apply negb_true_iff.
  exact (digit_forall (fun c => negb (N.eqb 112 (lower_simple c))) (eq_refl true) c H).
Qed.

Lemma marker_len_not_nl : forall pw c s, N.eqb c nl = false -> marker_len pw (c :: s) = None.
Proof. intros pw c s H. cbn [marker_len]. rewrite H. reflexivity. Qed.

Lemma sub_marker_free_app : forall pw x r, ~ In nl x ->
  sub_marker pw O (x ++ r) = x ++ sub_marker pw O r.
Proof.
  intros pw. induction x as [|c x IH]; intros r Hx; [reflexivity|].
  simpl app. cbn [sub_marker].
  assert (Hc : N.eqb c nl = false).
  { apply N.eqb_neq. intros ->. apply Hx. left. reflexivity. }
  rewrite marker_len_not_nl by exact Hc. f_equal. apply IH.
  intros H. apply Hx. right. exact H.
Qed.

Lemma last_nl_index_free : forall w i b, ~ In nl w -> last_nl_index w i b = b.
Proof.
  induction w as [|c w IH]; intros i b Hw; [reflexivity|]. cbn [last_nl_index].
  assert (Hc : N.eqb c nl = false).
  { apply N.eqb_neq. intros ->. apply Hw. left. reflexivity. }
  rewrite Hc. apply IH. intros H. apply Hw. right. exact H.
Qed.

Lemma span_app_stop : forall f a c r, Forall (fun x => f x = true) a -> f c = false ->
  span f (a ++ c :: r) = (a, c :: r).
Proof.
  intros f a c r Ha Hc. induction Ha as [|x a Hx Ha IH]; simpl.
  - rewrite Hc. reflexivity.
  - rewrite Hx, IH. reflexivity.
Qed.

Lemma not_in_app : forall (x : N) a b, ~ In x (a ++ b) -> ~ In x a /\ ~ In x b.
Proof. intros x a b H. split; intros H'; apply H, in_or_app; auto. Qed.

(** After a newline the whitespace-free remainder has no second newline:
    no page-number match can start there. *)
Lemma marker_len_one_nl : forall pw s, ~ In nl s -> marker_len pw (nl :: s) = None.
Proof.
  intros pw s Hs. cbn [marker_len]. rewrite N.eqb_refl. cbn [negb].
  destruct (span is_space s) as [w r1] eqn:Sw.
  destruct (span_spec _ _ _ _ Sw) as (Es & _ & _). subst s.
  apply not_in_app in Hs as [_ Hr1].
  destruct (if pw then strip_prefix_ci (u "page ") r1 else Some r1) as [r2|] eqn:P;
    [|reflexivity].
  assert (Hr2 : ~ In nl r2).
  { destruct pw.
    - destruct (strip_prefix_ci_spec _ _ _ P) as (pre & -> & _). apply not_in_app in Hr1. apply Hr1.
    - injection P as <-. exact Hr1. }
  destruct (span is_digit r2) as [d r3] eqn:Sd.
  destruct (span_spec _ _ _ _ Sd) as (Er2 & _ & _). subst r2.
  apply not_in_app in Hr2 as [_ Hr3].
  destruct d; [reflexivity|].
  destruct (span is_space r3) as [w2 r4] eqn:Sw2.
  destruct (span_spec _ _ _ _ Sw2) as (Er3 & _ & _). subst r3.
  apply not_in_app in Hr3 as [Hw2 _].
  rewrite last_nl_index_free by exact Hw2. reflexivity.
Qed.

Lemma sub_marker_free : forall pw s, ~ In nl s -> sub_marker pw O s = s.
Proof. intros pw s H. rewrite <- (app_nil_r s), sub_marker_free_app by exact H. reflexivity. Qed.

Lemma sub_marker_one_nl : forall pw x y, ~ In nl x -> ~ In nl y ->
  sub_marker pw O (x ++ nl :: y) = x ++ nl :: y.
Proof.
  intros pw x y Hx Hy. rewrite sub_marker_free_app by exact Hx. f_equal.
  cbn [sub_marker]. rewrite marker_len_one_nl by exact Hy. f_equal. apply sub_marker_free, Hy.
Qed.

(** The tail of a match: the digits, then a newline and a line without
    another newline. *)
Lemma number_tail : forall (pw : bool) (pre d y : text), ~ In nl y -> d <> [] ->
  Forall (fun c => is_digit c = true) d ->
  (if pw then strip_prefix_ci (u "page ") (pre ++ d ++ nl :: y) else Some (pre ++ d ++ nl :: y))
  = Some (d ++ nl :: y) ->
  span is_space (pre ++ d ++ nl :: y) = ([], pre ++ d ++ nl :: y) ->
  marker_len pw (nl :: pre ++ d ++ nl :: y)
  = Some (S (length pre + length d + 1)).
Proof.
  intros pw pre d y Hy Hd Hdig Hp Hsp. cbn [marker_len]. rewrite N.eqb_refl. cbn [negb].
  rewrite Hsp. cbn iota beta.
  assert (Hpl : length pre = (if pw then 5 else 0)%nat).
  { destruct pw.
    - destruct (strip_prefix_ci_spec _ _ _ Hp) as (pre' & E & Hl).
      apply app_inv_tail in E. subst pre'. exact Hl.
    - injection Hp as Hp. destruct pre as [|c pre]; [reflexivity|].
      apply (f_equal (@length N)) in Hp. simpl in Hp. rewrite length_app in Hp. lia. }
  rewrite Hpl.
  destruct pw; cbn iota in Hp, Hpl |- *;
  [ rewrite Hp | apply length_zero_iff_nil in Hpl; subst pre; cbn [app] ];
  rewrite (span_app_stop is_digit d nl y Hdig eq_refl);
  (destruct d as [|d0 d']; [contradiction|]);
  cbn [span]; rewrite is_space_nl;
  destruct (span is_space y) as [wy ry] eqn:Sy;
  destruct (span_spec _ _ _ _ Sy) as (Ey & _ & _); subst y;
  apply not_in_app in Hy as [Hwy _];
  cbn [last_nl_index]; rewrite N.eqb_refl, last_nl_index_free by exact Hwy;
  f_equal; simpl; lia.
Qed.

Lemma occursb_nl3_free : forall s, ~ In nl s -> occursb nl3 s = false.
Proof.
  induction s as [|c s IH]; intros Hs; [reflexivity|].
  rewrite occursb_nl3_other.
  - apply IH. intros H. apply Hs. right. exact H.
  - apply N.eqb_neq. intros E. apply Hs. left. symmetry. exact E.
Qed.

Lemma occursb_nl3_app_free : forall x r, ~ In nl x -> occursb nl3 (x ++ r) = occursb nl3 r.
Proof.
  induction x as [|c x IH]; intros r Hx; [reflexivity|]. simpl app.
  rewrite occursb_nl3_other.
  - apply IH. intros H. apply Hx. right. exact H.
  - apply N.eqb_neq. intros E. apply Hx. left. symmetry. exact E.
Qed.

Lemma occursb_nl3_single : forall x y, ~ In nl x -> ~ In nl y ->
  occursb nl3 (x ++ nl :: y) = false.
Proof.
  intros x y Hx Hy. rewrite occursb_nl3_app_free by exact Hx.
  destruct y as [|c y]; [reflexivity|].
  rewrite occursb_nl3_1.
  - apply occursb_nl3_free. intros H. apply Hy. right. exact H.
  - apply N.eqb_neq. intros E. apply Hy. left. symmetry. exact E.
Qed.

Lemma digits_free : forall d, Forall (fun c => is_digit c = true) d -> ~ In nl d.
Proof.
  intros d Hd H. rewrite Forall_forall in Hd. specialize (Hd nl H). discriminate.
Qed.

Lemma skipn_prefix : forall (a b : text), skipn (length a) (a ++ b) = b.
Proof. induction a as [|c a IH]; intros b; [reflexivity|]. apply IH. Qed.

Lemma marker_replace : forall pw pre d y n,
  marker_len pw (nl :: pre ++ d ++ nl :: y) = Some (S n) ->
  n = (length pre + length d + 1)%nat -> ~ In nl y ->
  sub_marker pw O (nl :: pre ++ d ++ nl :: y) = nl :: y.
Proof.
  intros pw pre d y n M -> Hy. cbn [sub_marker]. rewrite M. f_equal.
  rewrite sub_marker_skip.
  replace (pre ++ d ++ nl :: y) with ((pre ++ d ++ [nl]) ++ y)
    by (rewrite <- !app_assoc; reflexivity).
  replace (length pre + length d + 1)%nat with (length (pre ++ d ++ [nl]))
    by (rewrite !length_app; simpl; lia).
  rewrite skipn_prefix. apply sub_marker_free, Hy.
Qed.

(** A line made only of a number, or of "Page" and a number, between two
    lines is removed with its line break. *)
Theorem clean_markdown_drops_page_number_line : forall x d y,
  ~ In nl x -> ~ In nl y -> d <> [] -> Forall (fun c => is_digit c = true) d ->
  clean_markdown (x ++ nl :: d ++ nl :: y) = x ++ nl :: y /\
  clean_markdown (x ++ nl :: u "Page " ++ d ++ nl :: y) = x ++ nl :: y.
Proof.
  intros x d y Hx Hy Hd Hdig.
  pose proof (digits_free d Hdig) as Hdf.
  destruct d as [|d0 d']; [contradiction|].
  assert (H0 : is_digit d0 = true) by (inversion Hdig; assumption).
  split.
  - unfold clean_markdown, collapse_newlines. rewrite (collapse_nl_id _ O).
    2:{ simpl repeat. rewrite app_nil_l, occursb_nl3_app_free by exact Hx.
        cbn [app]. rewrite occursb_nl3_1 by (rewrite N.eqb_sym; apply digit_not_nl, H0).
        apply occursb_nl3_single; [|exact Hy].
        intros H. apply Hdf. right. exact H. }
    simpl repeat. rewrite app_nil_l.
    rewrite sub_marker_free_app by exact Hx. cbn [sub_marker].
    assert (M1 : marker_len true (nl :: (d0 :: d') ++ nl :: y) = None).
    { cbn [marker_len]. rewrite N.eqb_refl. cbn [negb app span].
      rewrite digit_not_space by exact H0. cbn iota beta.
      unfold u. cbn [strip_prefix_ci list_ascii_of_string map]. 
      change (N_of_ascii "p"%char) with 112%N. rewrite digit_not_p by exact H0.
      reflexivity. }
    rewrite M1.
    change (d0 :: d' ++ nl :: y) with ((d0 :: d') ++ nl :: y).
    rewrite (sub_marker_one_nl true (d0 :: d') y Hdf Hy).
    rewrite sub_marker_free_app by exact Hx.
    apply f_equal.
    apply (marker_replace false [] (d0 :: d') y (length (d0 :: d') + 1)); [|reflexivity|exact Hy].
    apply (number_tail false [] (d0 :: d') y Hy ltac:(discriminate) Hdig eq_refl).
    cbn [app span]. rewrite digit_not_space by exact H0. reflexivity.
  - unfold clean_markdown, collapse_newlines. rewrite (collapse_nl_id _ O).
    2:{ simpl repeat. rewrite app_nil_l.
        change (x ++ nl :: u "Page " ++ (d0 :: d') ++ nl :: y)
          with (x ++ nl :: 80%N :: (u "age " ++ (d0 :: d')) ++ nl :: y).
        rewrite occursb_nl3_app_free by exact Hx.
        rewrite occursb_nl3_1 by reflexivity.
        apply occursb_nl3_single; [|exact Hy].
        intros H. apply in_app_or in H as [H|H]; [simpl in H; intuition discriminate|].
        apply Hdf, H. }
    simpl repeat. rewrite app_nil_l.
    rewrite (sub_marker_free_app true x _ Hx).
    rewrite (marker_replace true (u "Page ") (d0 :: d') y (length (u "Page ") + length (d0 :: d') + 1));
      [|apply number_tail; [exact Hy|discriminate|exact Hdig|reflexivity|reflexivity]
       |reflexivity|exact Hy].
    apply sub_marker_one_nl; assumption.
Qed.

Lemma not_in_of_existsb : forall (c : N) s, existsb (N.eqb c) s = false -> ~ In c s.
Proof.
  intros c s H Hin. assert (E : existsb (N.eqb c) s = true).
  { apply existsb_exists. exists c. split; [exact Hin | apply N.eqb_refl]. }
  rewrite H in E. discriminate.
Qed.

Lemma clean_markdown_drops_page_number_line_witness :
  (~ In nl (u "Intro") /\ ~ In nl (u "More") /\ u "12" <> [] /\
   Forall (fun c => is_digit c = true) (u "12")) /\
  clean_markdown (u "Intro" ++ nl :: u "12" ++ nl :: u "More") = u "Intro" ++ nl :: u "More" /\
  clean_markdown (u "Intro" ++ nl :: u "Page " ++ u "12" ++ nl :: u "More")
  = u "Intro" ++ nl :: u "More".
Proof.
  assert (Hx : ~ In nl (u "Intro")) by (apply not_in_of_existsb; reflexivity).
  assert (Hy : ~ In nl (u "More")) by (apply not_in_of_existsb; reflexivity).
  assert (Hd : u "12" <> []) by discriminate.
  assert (Hdig : Forall (fun c => is_digit c = true) (u "12")) by (repeat constructor).
  split; [split; [exact Hx|split; [exact Hy|split; [exact Hd|exact Hdig]]]|].
  exact (clean_markdown_drops_page_number_line (u "Intro") (u "12") (u "More") Hx Hy Hd Hdig).
Defined.

(** ** [add_table_of_contents] *)

Lemma span_cons : forall f c s, span f (c :: s) =
  if f c then let (a, b) := span f s in (c :: a, b) else ([], c :: s).
Proof. reflexivity. Qed.
Lemma find_headers_cons : forall skip b c s, find_headers skip b (c :: s) =
  match skip with
  | S k => find_headers k (N.eqb c nl) s
  | O => match (if b then try_header (c :: s) else None) with
         | Some (h, t, S n) => (h, t) :: find_headers n (N.eqb c nl) s
         | _ => find_headers O (N.eqb c nl) s
         end
  end.
Proof. reflexivity. Qed.
Lemma span_hash1 : forall c r, N.eqb c 35 = false -> span (N.eqb 35) (35%N :: c :: r) = ([35%N], c :: r).
Proof. intros c r Hc. rewrite span_cons, N.eqb_refl, span_cons, N.eqb_sym, Hc. reflexivity. Qed.
Lemma try_header_hash1 : forall c r w x r2, N.eqb c 35 = false ->
  span is_space (c :: r) = (w, x :: r2) -> w <> [] ->
  try_header (35%N :: c :: r) = Some (1%nat, take_line (x :: r2), (1 + length w + length (take_line (x :: r2)))%nat).
Proof.
  intros c r w x r2 Hc Hs Hw. unfold try_header. rewrite (span_hash1 c r Hc).
  cbn [length Nat.eqb Nat.ltb Nat.leb orb]. rewrite Hs. destruct w; [contradiction|reflexivity].
Qed.
Lemma first_hash_line_end_cons : forall b pos c s, first_hash_line_end b pos (c :: s) =
  if b && N.eqb c 35 && match s with d :: _ => negb (N.eqb d nl) | [] => false end
  then Some (pos + 1 + length (take_line s))%nat
  else first_hash_line_end (N.eqb c nl) (S pos) s.
Proof. reflexivity. Qed.

Lemma first_hash_line_end_free : forall s pos, ~ In nl s -> first_hash_line_end false pos s = None.
Proof.
  induction s as [|c s IH]; intros pos Hs; [reflexivity|].
  rewrite first_hash_line_end_cons. cbn [andb].
  replace (N.eqb c nl) with false.
  - apply IH. intros H. apply Hs. right. exact H.
  - symmetry. apply N.eqb_neq. intros ->. apply Hs. left. reflexivity.
Qed.

Lemma take_line_spec : forall s,
  s = take_line s ++ skipn (length (take_line s)) s /\ ~ In nl (take_line s) /\
  (skipn (length (take_line s)) s = [] \/ exists t, skipn (length (take_line s)) s = nl :: t).
Proof.
  intros s. unfold take_line.
  destruct (span (fun c => negb (N.eqb c nl)) s) as [a b] eqn:E. cbn [fst].
  destruct (span_spec _ _ _ _ E) as (Es & Ha & Hb). subst s.
  rewrite skipn_prefix. split; [reflexivity|]. split.
  - intros H. rewrite Forall_forall in Ha. specialize (Ha nl H).
    rewrite N.eqb_refl in Ha. discriminate.
  - destruct b as [|c t]; [left; reflexivity|]. right. exists t.
    specialize (Hb c t eq_refl). apply negb_false_iff, N.eqb_eq in Hb. subst. reflexivity.
Qed.

Lemma first_hash_line_end_spec : forall s b pos e, first_hash_line_end b pos s = Some e ->
  exists k, e = (pos + k)%nat /\
    (skipn k s = [] \/ exists t, skipn k s = nl :: t).
Proof.
  induction s as [|c s IH]; intros b pos e H; [discriminate|].
  cbn [first_hash_line_end] in H.
  destruct (b && N.eqb c 35 && match s with d :: _ => negb (N.eqb d nl) | [] => false end).
  - injection H as <-. exists (S (length (take_line s))). split; [lia|].
    cbn [skipn]. apply take_line_spec.
  - destruct (IH _ _ _ H) as (k & -> & Hk). exists (S k). split; [lia|]. exact Hk.
Qed.

(** [add_table_of_contents] keeps the text it is given: without headings
    it returns it unchanged; otherwise it inserts a blank line, the
    contents and a newline at a line end, and nothing else changes. *)
Theorem add_table_of_contents_keeps_text : forall content doc,
  add_table_of_contents content = Some doc ->
  (headers_of content = [] /\ doc = content) \/
  (headers_of content <> [] /\
   exists pre post, content = pre ++ post /\
     doc = pre ++ two_nl ++ toc_text (headers_of content) ++ [nl] ++ post /\
     (post = [] \/ exists t, post = nl :: t)).
Proof.
  intros content doc H. unfold add_table_of_contents in H.
  destruct (headers_of content) as [|hd hs] eqn:Eh.
  - left. injection H as <-. split; reflexivity.
  - right. split; [discriminate|].
    destruct (first_hash_line_end true O content) as [e|] eqn:Ee; [|discriminate].
    injection H as <-. rewrite <- Eh.
    exists (firstn e content), (skipn e content).
    split; [symmetry; apply firstn_skipn|]. split; [reflexivity|].
    destruct (first_hash_line_end_spec _ _ _ _ Ee) as (k & -> & Hk). exact Hk.
Qed.

Lemma add_table_of_contents_keeps_text_witness :
  add_table_of_contents (u "# T" ++ [nl] ++ u "body") =
    Some (u "# T" ++ two_nl ++ toc_text (headers_of (u "# T" ++ [nl] ++ u "body")) ++ [nl] ++
          [nl] ++ u "body") /\
  ((headers_of (u "# T" ++ [nl] ++ u "body") = [] /\
    u "# T" ++ two_nl ++ toc_text (headers_of (u "# T" ++ [nl] ++ u "body")) ++ [nl] ++
      [nl] ++ u "body" = u "# T" ++ [nl] ++ u "body") \/
   (headers_of (u "# T" ++ [nl] ++ u "body") <> [] /\
    exists pre post, u "# T" ++ [nl] ++ u "body" = pre ++ post /\
      u "# T" ++ two_nl ++ toc_text (headers_of (u "# T" ++ [nl] ++ u "body")) ++ [nl] ++
        [nl] ++ u "body"
      = pre ++ two_nl ++ toc_text (headers_of (u "# T" ++ [nl] ++ u "body")) ++ [nl] ++ post /\
      (post = [] \/ exists t, post = nl :: t))).
Proof.
  assert (H : add_table_of_contents (u "# T" ++ [nl] ++ u "body") =
    Some (u "# T" ++ two_nl ++ toc_text (headers_of (u "# T" ++ [nl] ++ u "body")) ++ [nl] ++
          [nl] ++ u "body")) by (vm_compute; reflexivity).
  split; [exact H|].
  exact (add_table_of_contents_keeps_text _ _ H).
Defined.

(** A heading mark alone on its line, followed by a line of text: the
    [findall] pattern matches across the line break ([\s+] takes the
    newline), but no line matches [^#.+$], and [.end()] on the failed
    search raises [AttributeError]. *)
Theorem add_table_of_contents_lone_hash_raises : forall c t,
  ~ In nl (c :: t) -> is_space c = false -> N.eqb c 35 = false ->
  add_table_of_contents (35%N :: nl :: c :: t) = None.
Proof.
  intros c t Ht Hc Hh. unfold add_table_of_contents.
  assert (Hhd : headers_of (35%N :: nl :: c :: t) <> []).
  { unfold headers_of. rewrite find_headers_cons.
    rewrite (try_header_hash1 nl (c :: t) [nl] c t); [discriminate|reflexivity| |discriminate].
    rewrite span_cons, is_space_nl, span_cons, Hc. reflexivity. }
  destruct (headers_of (35%N :: nl :: c :: t)) as [|hd hs]; [contradiction|].
  replace (first_hash_line_end true 0 (35%N :: nl :: c :: t))
    with (first_hash_line_end true 2 (c :: t)) by reflexivity.
  rewrite first_hash_line_end_cons, Hh. cbn [andb].
  replace (N.eqb c nl) with false.
  - rewrite first_hash_line_end_free; [reflexivity|]. intros H. apply Ht. right. exact H.
  - symmetry. apply N.eqb_neq. intros ->. apply Ht. left. reflexivity.
Qed.

Lemma add_table_of_contents_lone_hash_raises_witness :
  (~ In nl (u "Title") /\ is_space 84 = false /\ N.eqb 84 35 = false) /\
  add_table_of_contents (35%N :: nl :: u "Title") = None.
Proof.
  assert (H : ~ In nl (u "Title")) by (apply not_in_of_existsb; reflexivity).
  split; [split; [exact H|split; reflexivity]|].
  exact (add_table_of_contents_lone_hash_raises 84 (u "itle") H eq_refl eq_refl).
Defined.

(** ** The final document of [process_datasheet] *)

Lemma firstn_prefix : forall (a b : text), firstn (length a) (a ++ b) = a.
Proof. induction a as [|c a IH]; intros b; [reflexivity|]. cbn. f_equal. apply IH. Qed.

Lemma take_line_cons_not_nl : forall c s, N.eqb c nl = false -> take_line (c :: s) = c :: take_line s.
Proof.
  intros c s Hc. unfold take_line. rewrite span_cons, Hc. cbn [negb].
  destruct (span _ s); reflexivity.
Qed.

Lemma take_line_app_nl : forall t r, take_line (t ++ nl :: r) = take_line t.
Proof.
  induction t as [|c t IH]; intros r; [reflexivity|].
  destruct (N.eqb c nl) eqn:Hc.
  - apply N.eqb_eq in Hc. subst c. reflexivity.
  - cbn [app]. rewrite !take_line_cons_not_nl by exact Hc. f_equal. apply IH.
Qed.

Lemma add_toc_hash_space : forall x, In 45%N x ->
  exists rest, add_table_of_contents (35%N :: 32%N :: x) =
    Some (35%N :: 32%N :: take_line x ++ two_nl ++ toc_title ++ rest).
Proof.
  intros x Hx. unfold add_table_of_contents.
  destruct (span is_space (32%N :: x)) as [w r2] eqn:Hs.
  destruct (span_spec _ _ _ _ Hs) as (Ex & Hw & Hr).
  assert (Hw0 : w <> []).
  { intros ->. cbn [app] in Ex. subst r2. specialize (Hr _ _ eq_refl). discriminate. }
  destruct r2 as [|c r2].
  - exfalso. rewrite app_nil_r in Ex. rewrite <- Ex in Hw.
    rewrite Forall_forall in Hw. specialize (Hw 45%N (or_intror Hx)). discriminate.
  - assert (Hh : headers_of (35%N :: 32%N :: x) <> []).
    { unfold headers_of. rewrite find_headers_cons.
      rewrite (try_header_hash1 32 x w c r2 eq_refl Hs Hw0).
      replace (1 + length w + length (take_line (c :: r2)))%nat
        with (S (length w + length (take_line (c :: r2)))) by lia.
      discriminate. }
    destruct (headers_of (35%N :: 32%N :: x)) as [|hd hs] eqn:Eh; [contradiction|].
    rewrite first_hash_line_end_cons.
    replace (true && N.eqb 35 35 && negb (N.eqb 32 nl)) with true by reflexivity.
    rewrite take_line_cons_not_nl by reflexivity.
    exists (concat (map render_item (toc_items (hd :: hs))) ++ [nl] ++
            skipn (0 + 1 + length (32%N :: take_line x)) (35%N :: 32%N :: x)).
    replace (0 + 1 + length (32%N :: take_line x))%nat with (S (S (length (take_line x)))) by (cbn; lia).
    destruct (take_line_spec x) as (Ex' & _).
    cbn [firstn]. rewrite Ex' at 2. rewrite firstn_prefix.
    unfold toc_text. rewrite <- !app_assoc. reflexivity.
Qed.

Lemma merge_header_shape : forall info page_count, exists y,
  merge_header (Some (get_pdf_metadata info page_count)) =
    u "# " ++ info_get info (u "/Title") (u "Unknown") ++ two_nl ++ y /\ In 45%N y.
Proof.
  intros info pc. set (d := get_pdf_metadata info pc).
  exists ((if opt_truthy (dict_get d (u "author"))
           then txt_author_label ++ py_str (dict_get_default d (u "author") (VInt 0)) ++ two_nl
           else []) ++
          (if opt_truthy (dict_get d (u "subject"))
           then txt_subject_label ++ py_str (dict_get_default d (u "subject") (VInt 0)) ++ two_nl
           else []) ++ u "---" ++ two_nl).
  split.
  - reflexivity.
  - apply in_or_app. right. apply in_or_app. right. left. reflexivity.
Qed.

Lemma univ_nl_cons_other : forall c s, N.eqb c 13 = false -> univ_nl (c :: s) = c :: univ_nl s.
Proof. intros c s Hc. cbn [univ_nl]. rewrite Hc. reflexivity. Qed.

Lemma take_line_univ_nl_app : forall t r, take_line (univ_nl (t ++ nl :: r)) = take_line (univ_nl t).
Proof.
  induction t as [|c t IH]; intros r.
  - reflexivity.
  - destruct (N.eqb c 13) eqn:Hc.
    + cbn [app univ_nl]. rewrite Hc. reflexivity.
    + cbn [app]. rewrite !univ_nl_cons_other by exact Hc.
      destruct (N.eqb c nl) eqn:Hn.
      * apply N.eqb_eq in Hn. subst c. reflexivity.
      * rewrite !take_line_cons_not_nl by exact Hn. f_equal. apply IH.
Qed.

Lemma univ_nl_in : forall n s x, (length s <= n)%nat -> In x s -> N.eqb x 13 = false ->
  N.eqb x nl = false -> In x (univ_nl s).
Proof.
  induction n as [|n IH]; intros s x Hl Hin H13 Hnl.
  - destruct s; [destruct Hin|cbn in Hl; lia].
  - destruct s as [|c s]; [destruct Hin|].
    destruct (N.eqb c 13) eqn:Hc.
    + apply N.eqb_eq in Hc. subst c. destruct Hin as [<-|Hin]; [discriminate|].
      cbn [univ_nl]. rewrite N.eqb_refl. right.
      destruct s as [|d s']; [destruct Hin|].
      destruct (N.eqb d nl) eqn:Hd.
      * apply N.eqb_eq in Hd. subst d. destruct Hin as [<-|Hin]; [rewrite N.eqb_refl in Hnl; discriminate|].
        apply IH; [cbn in Hl |- *; lia|auto..].
      * apply IH; [cbn in Hl |- *; lia|auto..].
    + rewrite univ_nl_cons_other by exact Hc. destruct Hin as [<-|Hin]; [left; reflexivity|].
      right. apply IH; [cbn in Hl |- *; lia|auto..].
Qed.

(** [process_datasheet] on a PDF without an information dictionary raises
    (the [AttributeError] of [metadata.get]); on one with a dictionary it
    always yields its final document: the merged text starts with the
    metadata header ["# " ++ title], so the search for the first heading
    line never fails, and the document is the first line of the title as
    read back from [_full.md] followed by a blank line and the contents
    section. *)
Theorem process_datasheet_document : forall post shrink cfg page_count images fs0,
  snd (process_datasheet post shrink cfg None page_count images fs0) = None /\
  forall d, exists rest, snd (process_datasheet post shrink cfg (Some d) page_count images fs0) =
    Some (u "# " ++ take_line (univ_nl (info_get d (u "/Title") (u "Unknown"))) ++ two_nl ++
          toc_title ++ rest).
Proof.
  intros post shrink cfg pc images fs0. split; [reflexivity|]. intros d.
  destruct (process_datasheet_some post shrink cfg d pc images fs0) as (_ & _ & ->).
  unfold merge_markdown_files.
  destruct (merge_header_shape d pc) as (y & Ey & Hy). rewrite Ey.
  set (t := info_get d (u "/Title") (u "Unknown")).
  set (j := py_join two_nl _).
  replace ((u "# " ++ t ++ two_nl ++ y) ++ j) with (35%N :: 32%N :: (t ++ nl :: nl :: y ++ j))
    by (cbn; rewrite <- !app_assoc; reflexivity).
  rewrite !univ_nl_cons_other by reflexivity.
  destruct (add_toc_hash_space (univ_nl (t ++ nl :: nl :: y ++ j))) as (rest & Er).
  - apply (univ_nl_in (length (t ++ nl :: nl :: y ++ j))); [lia| |reflexivity|reflexivity].
    apply in_or_app. right. right. right. apply in_or_app. left. exact Hy.
  - exists rest. rewrite Er, take_line_univ_nl_app. reflexivity.
Qed.

(** ** The headings and the contents entries *)

Lemma last_non_nl_from1_spec : forall w i best j, last_non_nl_from1 w i best = Some j ->
  best = Some j \/
  ((i <= j)%nat /\ exists c rest, skipn (j - i) w = c :: rest /\ N.eqb c nl = false).
Proof.
  induction w as [|c w IH]; intros i best j H; [left; exact H|].
  cbn [last_non_nl_from1] in H. destruct (IH _ _ _ H) as [Hb | (Hij & c' & rest & Hs & Hc')].
  - destruct (Nat.leb 1 i && negb (N.eqb c nl)) eqn:Hc.
    + injection Hb as <-. right. split; [lia|]. exists c, w. rewrite Nat.sub_diag.
      split; [reflexivity|].
      apply andb_true_iff in Hc. destruct Hc as [_ Hc]. apply negb_true_iff. exact Hc.
    + left. exact Hb.
  - right. split; [lia|]. exists c', rest.
    replace (j - i)%nat with (S (j - S i)) by lia. split; [exact Hs | exact Hc'].
Qed.

Lemma take_line_nonempty : forall c s, N.eqb c nl = false -> take_line (c :: s) <> [].
Proof. intros c s Hc. rewrite take_line_cons_not_nl by exact Hc. discriminate. Qed.

Lemma try_header_shape : forall s h t n, try_header s = Some (h, t, n) ->
  (1 <= h <= 6)%nat /\ t <> [] /\ ~ In nl t.
Proof.
  intros s h t n H. unfold try_header in H.
  destruct (span (N.eqb 35) s) as [hs r] eqn:Ehs.
  destruct (Nat.eqb (length hs) 0 || Nat.ltb 6 (length hs)) eqn:Hl; [discriminate|].
  apply orb_false_iff in Hl. destruct Hl as [Hl0 Hl6].
  apply Nat.eqb_neq in Hl0. apply Nat.ltb_ge in Hl6.
  destruct (span is_space r) as [w r2] eqn:Ew.
  destruct (span_spec _ _ _ _ Ew) as (_ & _ & Hr2).
  destruct w as [|x w]; [discriminate|].
  destruct r2 as [|y r2].
  - destruct (last_non_nl_from1 (x :: w) 0 None) as [j|] eqn:Ej; [|discriminate].
    injection H as <- <- _. split; [lia|].
    destruct (last_non_nl_from1_spec _ _ _ _ Ej) as [Hb | (_ & c & rest & Hs & Hc)];
      [discriminate|].
    rewrite Nat.sub_0_r in Hs. rewrite Hs. split; [apply take_line_nonempty; exact Hc|].
    apply take_line_spec.
  - injection H as <- <- _. split; [lia|]. split; [|apply take_line_spec].
    apply take_line_nonempty. specialize (Hr2 _ _ eq_refl).
    apply N.eqb_neq. intros ->. rewrite is_space_nl in Hr2. discriminate.
Qed.

Lemma find_headers_shape : forall s skip b,
  Forall (fun ht => (1 <= fst ht <= 6)%nat /\ snd ht <> [] /\ ~ In nl (snd ht))
    (find_headers skip b s).
Proof.
  induction s as [|c s IH]; intros skip b; [constructor|].
  rewrite find_headers_cons. destruct skip as [|k]; [|apply IH].
  destruct (if b then try_header (c :: s) else None) as [[[h t] [|n]]|] eqn:E; try apply IH.
  constructor; [|apply IH].
  destruct b; [|discriminate]. exact (try_header_shape _ _ _ _ E).
Qed.

(** Every heading [add_table_of_contents] collects has one to six hash
    marks and a non-empty text that stays on one line. *)
Theorem headers_of_shape : forall content,
  Forall (fun ht => (1 <= fst ht <= 6)%nat /\ snd ht <> [] /\ ~ In nl (snd ht))
    (headers_of content).
Proof. intros content. apply find_headers_shape. Qed.

Lemma anchor_no_nl : forall t, ~ In nl (anchor t).
Proof.
  intros t H. unfold anchor in H. apply filter_In in H. destruct H as [_ H]. discriminate.
Qed.

(** Each entry of the generated contents is exactly one line, indented by
    an even number of spaces between 0 and 10, with a non-empty link text. *)
Theorem toc_entries_one_line : forall content,
  Forall (fun it => Nat.Even (fst (fst it)) /\ (fst (fst it) <= 10)%nat /\
            snd (fst it) <> [] /\
            exists line, render_item it = line ++ [nl] /\ ~ In nl line)
    (toc_items (headers_of content)).
Proof.
  intros content. unfold toc_items.
  pose proof (find_headers_shape content O true) as Hs. unfold headers_of.
  apply Forall_map. apply Forall_forall. intros [h t] Hin.
  apply filter_In in Hin. destruct Hin as [Hin _].
  rewrite Forall_forall in Hs. destruct (Hs _ Hin) as (Hh & Ht & Hnl). cbn [fst snd] in *.
  split; [exists (h - 1)%nat; lia|]. split; [lia|]. split; [exact Ht|].
  exists (repeat 32%N ((h - 1) * 2) ++ u "- [" ++ t ++ u "](#" ++ anchor t ++ u ")").
  split; [cbn [render_item]; rewrite <- !app_assoc; reflexivity|].
  intros H. repeat (apply in_app_or in H; destruct H as [H|H]).
  - apply repeat_spec in H. discriminate.
  - exact (not_in_of_existsb nl (u "- [") eq_refl H).
  - exact (Hnl H).
  - exact (not_in_of_existsb nl (u "](#") eq_refl H).
  - exact (anchor_no_nl t H).
  - exact (not_in_of_existsb nl (u ")") eq_refl H).
Qed.

(** ** Page numbers through the image file names *)

Lemma pos_size_nat_bound : forall p, (Npos p < 2 ^ N.of_nat (Pos.size_nat p))%N.
Proof.
  induction p as [p IH|p IH|]; cbn [Pos.size_nat]; [| |reflexivity];
    rewrite Nat2N.inj_succ, N.pow_succ_r';
    set (x := (2 ^ N.of_nat (Pos.size_nat p))%N) in *; clearbody x.
  - change (Npos (xI p)) with (2 * Npos p + 1)%N. lia.
  - change (Npos (xO p)) with (2 * Npos p)%N. lia.
Qed.

Lemma size_nat_bound10 : forall n, (n < 10 ^ N.of_nat (S (N.size_nat n)))%N.
Proof.
  intros [|p]; [reflexivity|]. cbn [N.size_nat].
  pose proof (pos_size_nat_bound p) as H.
  assert (H2 : (2 ^ N.of_nat (Pos.size_nat p) <= 10 ^ N.of_nat (Pos.size_nat p))%N)
    by (apply N.pow_le_mono_l; lia).
  rewrite Nat2N.inj_succ, N.pow_succ_r'.
  assert (H3 : (0 < 10 ^ N.of_nat (Pos.size_nat p))%N) by (apply N.neq_0_lt_0, N.pow_nonzero; lia).
  lia.
Qed.

Lemma digits_rev_value : forall f n, (n < 10 ^ N.of_nat f)%N ->
  fold_right (fun c a => a * 10 + (c - 48))%N 0%N (digits_rev f n) = n.
Proof.
  induction f as [|f IH]; intros n Hn.
  - cbn in Hn. cbn. lia.
  - cbn [digits_rev fold_right].
    pose proof (N.div_mod n 10 ltac:(lia)) as Hdm. pose proof (N.mod_lt n 10 ltac:(lia)) as Hm.
    replace (48 + n mod 10 - 48)%N with (n mod 10)%N by (rewrite N.add_comm, N.add_sub; reflexivity).
    destruct (n <? 10)%N eqn:H10.
    + apply N.ltb_lt in H10. cbn [fold_right]. rewrite N.mod_small by exact H10. lia.
    + apply N.ltb_ge in H10. rewrite IH.
      * set (q := (n / 10)%N) in *. set (m := (n mod 10)%N) in *. clearbody q m. lia.
      * rewrite Nat2N.inj_succ, N.pow_succ_r' in Hn.
        apply N.Div0.div_lt_upper_bound. exact Hn.
Qed.

Lemma ascii_decimal_value : forall c, (48 <= c <= 57)%N -> decimal_value c = Some (c - 48)%N.
Proof.
  intros c Hc. unfold decimal_value. cbn [nd_zeros find].
  replace ((48 <=? c)%N && (c <? 48 + 10)%N) with true
    by (symmetry; apply andb_true_iff; split; [apply N.leb_le|apply N.ltb_lt]; lia).
  reflexivity.
Qed.

Lemma ascii_is_digit : forall c, (48 <= c <= 57)%N -> is_digit c = true.
Proof. intros c Hc. unfold is_digit. rewrite ascii_decimal_value by exact Hc. reflexivity. Qed.

Lemma digits_rev_digits : forall f n,
  Forall (fun c => (48 <= c <= 57)%N) (digits_rev f n).
Proof.
  induction f as [|f IH]; intros n; [constructor|]. cbn [digits_rev].
  constructor.
  - pose proof (N.mod_lt n 10 ltac:(lia)) as Hm.
    set (m := (n mod 10)%N) in *. clearbody m. lia.
  - destruct (n <? 10)%N; [constructor|apply IH].
Qed.

Lemma parse_digits_all : forall s acc b, s <> [] -> Forall (fun c => (48 <= c <= 57)%N) s ->
  parse_digits s acc b = Some (fold_left (fun a c => a * 10 + (c - 48))%N s acc).
Proof.
  induction s as [|c s IH]; intros acc b Hs Hd; [contradiction|].
  inversion Hd as [|? ? Hc Hd']; subst. cbn [parse_digits fold_left].
  rewrite ascii_decimal_value by exact Hc.
  destruct s as [|c' s]; [reflexivity|]. apply IH; [discriminate|exact Hd'].
Qed.

Lemma fold_digits_rev : forall l acc,
  fold_left (fun a c => a * 10 + (c - 48))%N (rev l) acc =
  fold_right (fun c a => a * 10 + (c - 48))%N acc l.
Proof.
  induction l as [|c l IH]; intros acc; [reflexivity|].
  cbn [rev fold_right]. rewrite fold_left_app, IH. reflexivity.
Qed.

Lemma fold_digits_zeros : forall k,
  fold_left (fun a c => a * 10 + (c - 48))%N (repeat 48%N k) 0%N = 0%N.
Proof. induction k as [|k IH]; [reflexivity|]. exact IH. Qed.

Lemma fmt03_digits : forall z, (0 <= z)%Z ->
  fmt03 z <> [] /\ Forall (fun c => (48 <= c <= 57)%N) (fmt03 z) /\
  fold_left (fun a c => a * 10 + (c - 48))%N (fmt03 z) 0%N = Z.to_N z.
Proof.
  intros z Hz. unfold fmt03.
  replace (z <? 0)%Z with false by (symmetry; apply Z.ltb_ge; exact Hz).
  rewrite Z.abs_eq by exact Hz. set (n := Z.to_N z). unfold n_to_text.
  split; [|split].
  - intros H. apply (f_equal (@length N)) in H. rewrite length_app, length_rev in H.
    cbn [digits_rev length] in H. lia.
  - apply Forall_app. split.
    + apply Forall_forall. intros c Hc. apply repeat_spec in Hc. subst. lia.
    + apply Forall_rev. apply digits_rev_digits.
  - rewrite fold_left_app, fold_digits_zeros, fold_digits_rev.
    apply digits_rev_value. apply size_nat_bound10.
Qed.

Lemma drop_spaces_digit : forall c s, is_digit c = true -> drop_spaces (c :: s) = c :: s.
Proof. intros c s Hc. cbn [drop_spaces]. rewrite (digit_not_space c Hc). reflexivity. Qed.

Lemma py_int_digits : forall s n, s <> [] -> Forall (fun c => (48 <= c <= 57)%N) s ->
  parse_digits s 0 false = Some n -> py_int s = Some (Z.of_N n).
Proof.
  intros s n Hs Hd Hp. unfold py_int.
  assert (Hstrip : py_strip s = s).
  { unfold py_strip. destruct s as [|c s]; [contradiction|].
    inversion Hd as [|? ? Hc _]; subst. rewrite drop_spaces_digit by (apply ascii_is_digit, Hc).
    assert (Hr : Forall (fun c => (48 <= c <= 57)%N) (rev (c :: s))) by (apply Forall_rev; exact Hd).
    destruct (rev (c :: s)) as [|c' r] eqn:Er.
    - apply (f_equal (@length N)) in Er. rewrite length_rev in Er. discriminate.
    - inversion Hr as [|? ? Hc' _]; subst. rewrite drop_spaces_digit by (apply ascii_is_digit, Hc').
      rewrite <- Er. apply rev_involutive. }
  rewrite Hstrip. destruct s as [|c s]; [contradiction|].
  inversion Hd as [|? ? Hc _]; subst.
  assert (Hc' : c = 48%N \/ c = 49%N \/ c = 50%N \/ c = 51%N \/ c = 52%N \/
                c = 53%N \/ c = 54%N \/ c = 55%N \/ c = 56%N \/ c = 57%N) by lia.
  repeat destruct Hc' as [Hc'|Hc']; subst c;
    exact (f_equal (option_map Z.of_N) Hp).
Qed.

Lemma py_int_fmt03 : forall z, (0 <= z)%Z -> py_int (fmt03 z) = Some z.
Proof.
  intros z Hz. destruct (fmt03_digits z Hz) as (Hne & Hd & Hv).
  rewrite (py_int_digits (fmt03 z) (Z.to_N z) Hne Hd); [f_equal; lia|].
  rewrite parse_digits_all by assumption. rewrite Hv. reflexivity.
Qed.

Lemma split_on_nonempty : forall sep s, split_on sep s <> [].
Proof.
  intros sep [|c s]; cbn [split_on]; [discriminate|].
  destruct (N.eqb c sep); [discriminate|]. destruct (split_on sep s); discriminate.
Qed.

Lemma split_on_free : forall sep s, ~ In sep s -> split_on sep s = [s].
Proof.
  induction s as [|c s IH]; intros Hs; [reflexivity|]. cbn [split_on].
  replace (N.eqb c sep) with false.
  - rewrite IH; [reflexivity|]. intros H. apply Hs. right. exact H.
  - symmetry. apply N.eqb_neq. intros ->. apply Hs. left. reflexivity.
Qed.

Lemma split_on_app_sep : forall sep a b, ~ In sep a ->
  split_on sep (a ++ sep :: b) = a :: split_on sep b.
Proof.
  induction a as [|c a IH]; intros b Ha.
  - cbn. rewrite N.eqb_refl. reflexivity.
  - cbn [app split_on]. replace (N.eqb c sep) with false.
    + rewrite IH; [reflexivity|]. intros H. apply Ha. right. exact H.
    + symmetry. apply N.eqb_neq. intros ->. apply Ha. left. reflexivity.
Qed.

Lemma split_on_app_sep_any : forall sep a b, exists l, l <> [] /\
  split_on sep (a ++ sep :: b) = l ++ split_on sep b.
Proof.
  induction a as [|c a IH]; intros b.
  - exists [[]]. split; [discriminate|]. cbn. rewrite N.eqb_refl. reflexivity.
  - destruct (IH b) as (l & Hl & E). cbn [app split_on]. rewrite E.
    destruct (N.eqb c sep).
    + exists ([] :: l). split; [discriminate|reflexivity].
    + destruct l as [|w l]; [contradiction|].
      exists ((c :: w) :: l). split; [discriminate|reflexivity].
Qed.

Lemma last_app_nonempty : forall {A} (l m : list A) d, m <> [] -> last (l ++ m) d = last m d.
Proof.
  intros A l m d Hm. induction l as [|x l IH]; [reflexivity|].
  cbn [app]. rewrite <- IH. destruct (l ++ m) eqn:E; [|reflexivity].
  apply app_eq_nil in E. destruct E as [_ E]. contradiction.
Qed.

Lemma basename_after_slash : forall a b, ~ In 47%N b -> basename (a ++ 47%N :: b) = b.
Proof.
  intros a b Hb. unfold basename.
  destruct (split_on_app_sep_any 47 a b) as (l & _ & ->).
  rewrite last_app_nonempty by apply split_on_nonempty.
  rewrite split_on_free by exact Hb. reflexivity.
Qed.

Lemma basename_path_join_p : forall a b, ~ In 47%N b ->
  basename (path_join a (112%N :: b)) = 112%N :: b.
Proof.
  intros a b Hb.
  assert (Hb' : ~ In 47%N (112%N :: b)) by (intros [H|H]; [discriminate|exact (Hb H)]).
  change (path_join a (112%N :: b)) with
    (match a with
     | [] => 112%N :: b
     | _ => if N.eqb (last a 0%N) 47 then a ++ 112%N :: b else a ++ [47%N] ++ 112%N :: b
     end).
  destruct a as [|x a].
  - unfold basename. rewrite split_on_free by exact Hb'. reflexivity.
  - destruct (N.eqb (last (x :: a) 0%N) 47) eqn:E.
    + apply N.eqb_eq in E.
      rewrite (app_removelast_last 0%N (l := x :: a)) at 1 by discriminate.
      rewrite E, <- app_assoc. apply basename_after_slash. exact Hb'.
    + apply basename_after_slash. exact Hb'.
Qed.

Lemma digits_not_in : forall c d, (c < 48 \/ 57 < c)%N -> Forall (fun x => (48 <= x <= 57)%N) d ->
  ~ In c d.
Proof.
  intros c d Hc Hd H. rewrite Forall_forall in Hd. specialize (Hd c H). lia.
Qed.

Lemma page_num_of_image_path : forall i dir z, (0 <= z)%Z ->
  page_num_of i (page_image_path dir z) = z.
Proof.
  intros i dir z Hz. destruct (fmt03_digits z Hz) as (_ & Hd & _).
  unfold page_num_of, page_image_path.
  change (u "page_" ++ fmt03 z ++ u ".png") with (112%N :: (u "age_" ++ fmt03 z ++ u ".png")).
  rewrite basename_path_join_p.
  - change (112%N :: u "age_" ++ fmt03 z ++ u ".png") with
      (u "page" ++ 95%N :: (fmt03 z ++ 46%N :: u "png")).
    rewrite split_on_app_sep by (apply not_in_of_existsb; reflexivity).
    rewrite split_on_free.
    + rewrite split_on_app_sep by (apply digits_not_in; [lia|exact Hd]).
      rewrite py_int_fmt03 by exact Hz. reflexivity.
    + intros H. apply in_app_or in H. destruct H as [H|H].
      * exact (digits_not_in 95 _ ltac:(lia) Hd H).
      * exact (not_in_of_existsb 95 (46%N :: u "png") eq_refl H).
  - intros H. apply in_app_or in H. destruct H as [H|H].
    + exact (not_in_of_existsb 47 (u "age_") eq_refl H).
    + apply in_app_or in H. destruct H as [H|H].
      * exact (digits_not_in 47 _ ltac:(lia) Hd H).
      * exact (not_in_of_existsb 47 (u ".png") eq_refl H).
Qed.

Lemma page_range_start_pos : forall total sp ep, (1 <= fst (page_range total sp ep))%Z.
Proof. intros total [sp|] ep; cbn; lia. Qed.

Lemma page_numbers_of_extracted : forall dir total sp ep n,
  map (fun pg => page_num_of (fst pg) (snd pg))
      (enumerate (extract_images_from_pdf dir total sp ep n)) =
  map (fun i => (fst (page_range total sp ep) + Z.of_nat i)%Z) (seq O n).
Proof.
  intros dir total sp ep n. unfold enumerate, extract_images_from_pdf.
  rewrite length_map, length_seq.
  pose proof (page_range_start_pos total sp ep) as Hs.
  set (s := fst (page_range total sp ep)) in *. clearbody s.
  generalize O as k. induction n as [|n IH]; intros k; [reflexivity|].
  cbn [seq map combine fst snd]. rewrite page_num_of_image_path by lia. f_equal. apply IH.
Qed.

(** [datasheet_parser] reads back from each image file name the page
    number [extract_images_from_pdf] wrote into it: the pages are
    numbered from the clamped start page on, whatever the output
    directory. *)
Theorem extracted_page_numbers : forall dir total sp ep n,
  map (fun pg => page_num_of (fst pg) (snd pg))
      (enumerate (extract_images_from_pdf dir total sp ep n)) =
  map (fun i => (fst (page_range total sp ep) + Z.of_nat i)%Z) (seq O n).
Proof. exact page_numbers_of_extracted. Qed.

(** The clamping of lines 51-59: for a document with pages, the range
    always lies within it, start before end; a range already inside the
    document is kept as given. *)
Theorem page_range_clamp : forall total sp ep, (1 <= total)%Z ->
  (1 <= fst (page_range total sp ep) <= snd (page_range total sp ep) /\
   snd (page_range total sp ep) <= total)%Z /\
  (forall a b, sp = Some a -> ep = Some b -> (1 <= a <= b)%Z -> (b <= total)%Z ->
   page_range total sp ep = (a, b)).
Proof.
  intros total sp ep Ht. split.
  - destruct sp as [a|], ep as [b|]; unfold page_range; cbn [fst snd]; lia.
  - intros a b -> -> Hab Hb. unfold page_range. f_equal; lia.
Qed.

Lemma page_range_clamp_witness :
  (1 <= 10)%Z /\
  ((1 <= fst (page_range 10 (Some 0%Z) (Some 42%Z)) <= snd (page_range 10 (Some 0%Z) (Some 42%Z)) /\
    snd (page_range 10 (Some 0%Z) (Some 42%Z)) <= 10)%Z /\
   (forall a b, Some 0%Z = Some a -> Some 42%Z = Some b -> (1 <= a <= b)%Z -> (b <= 10)%Z ->
    page_range 10 (Some 0%Z) (Some 42%Z) = (a, b))).
Proof.
  split; [lia|]. apply (page_range_clamp 10 (Some 0%Z) (Some 42%Z)). lia.
Defined.

Lemma NoDup_map_on : forall {A B} (f : A -> B) l,
  (forall x y, In x l -> In y l -> f x = f y -> x = y) -> NoDup l -> NoDup (map f l).
Proof.
  intros A B f l Hf Hl. induction Hl as [|x l Hx Hl IH]; cbn [map]; constructor.
  - intros Hin. apply in_map_iff in Hin. destruct Hin as (y & Hy & Hyl).
    assert (x = y) by (apply Hf; [left; reflexivity|right; exact Hyl|symmetry; exact Hy]).
    subst. contradiction.
  - apply IH. intros a b Ha Hb. apply Hf; right; assumption.
Qed.

Lemma path_join_eq : forall a b, path_join a b =
  if match b with c :: _ => N.eqb c 47 | [] => false end then b
  else match a with
       | [] => b
       | _ => if N.eqb (last a 0%N) 47 then a ++ b else a ++ [47%N] ++ b
       end.
Proof.
  intros a [|c b]; [reflexivity|].
  destruct c as [|p]; [reflexivity|].
  repeat (destruct p as [p|p|]; try reflexivity).
Qed.

Lemma path_join_inj : forall a b b', hd_error b = hd_error b' ->
  path_join a b = path_join a b' -> b = b'.
Proof.
  intros a b b' Hh E. rewrite !path_join_eq in E.
  replace (match b' with c :: _ => N.eqb c 47 | [] => false end)
    with (match b with c :: _ => N.eqb c 47 | [] => false end) in E
    by (destruct b, b'; cbn in Hh; try discriminate; [reflexivity|injection Hh as ->; reflexivity]).
  destruct (match b with c :: _ => N.eqb c 47 | [] => false end); [exact E|].
  destruct a as [|x a]; [exact E|].
  destruct (N.eqb (last (x :: a) 0%N) 47).
  - exact (app_inv_head _ _ _ E).
  - rewrite !app_assoc in E. exact (app_inv_head _ _ _ E).
Qed.

Lemma page_md_file_inj : forall cfg name z z', (0 <= z)%Z -> (0 <= z')%Z ->
  page_md_file cfg name z = page_md_file cfg name z' -> z = z'.
Proof.
  intros cfg name z z' Hz Hz' E. unfold page_md_file in E.
  apply path_join_inj in E; [|destruct name; reflexivity].
  apply app_inv_head in E. change (u "_page_" ++ ?x) with (95%N :: u "page_" ++ x) in E.
  injection E as E. apply app_inv_tail in E.
  pose proof (py_int_fmt03 z Hz) as H. rewrite E, py_int_fmt03 in H by exact Hz'.
  injection H as H. symmetry. exact H.
Qed.

Lemma enumerate_map : forall {A B} (g : A -> B) (F : nat -> B -> text) (l : list A) k,
  map (fun pg => F (fst pg) (g (snd pg))) (combine (seq k (length l)) l) =
  map (fun pg => F (fst pg) (snd pg)) (combine (seq k (length (map g l))) (map g l)).
Proof.
  intros A B g F l. induction l as [|x l IH]; intros k; [reflexivity|].
  cbn [length seq combine map fst snd]. f_equal. apply IH.
Qed.

(** When the page images are the files [extract_images_from_pdf] saved,
    every page gets a markdown file of its own: no page's output
    overwrites another's. *)
Theorem page_markdown_paths_distinct : forall cfg name dir total sp ep n images,
  map img_path images = extract_images_from_pdf dir total sp ep n ->
  NoDup (map (page_path cfg name) (enumerate images)).
Proof.
  intros cfg name dir total sp ep n images H.
  assert (E : map (page_path cfg name) (enumerate images) =
    map (page_md_file cfg name)
      (map (fun pg => page_num_of (fst pg) (snd pg)) (enumerate (map img_path images)))).
  { rewrite map_map. unfold enumerate, page_path.
    exact (enumerate_map img_path (fun i p => page_md_file cfg name (page_num_of i p)) images O). }
  rewrite E, H, page_numbers_of_extracted, map_map.
  pose proof (page_range_start_pos total sp ep) as Hs.
  set (s := fst (page_range total sp ep)) in *. clearbody s.
  apply NoDup_map_on; [|apply seq_NoDup].
  intros x y _ _ Hxy. apply page_md_file_inj in Hxy; lia.
Qed.

Lemma page_markdown_paths_distinct_witness :
  map img_path example_pages = extract_images_from_pdf (u "tmp") 3 None None 3 /\
  NoDup (map (page_path (example_cfg O false None) (u "doc")) (enumerate example_pages)).
Proof.
  assert (H : map img_path example_pages = extract_images_from_pdf (u "tmp") 3 None None 3)
    by (vm_compute; reflexivity).
  split; [exact H|].
  exact (page_markdown_paths_distinct _ _ _ _ _ _ _ _ H).
Defined.

(** ** The loop of [process_datasheet] and the merged document *)







(** ** [main] *)

(** [main] hands [process_datasheet] only validated configurations: the
    PDF exists, the context is disabled, translation comes with a target
    language, the start page is at least 1 and not after the end page.
    It exits with 0 exactly when the run produced its document. *)
Theorem main_runs_validated_config : forall path_exists run args c r,
  main path_exists run args = (c, Some r) ->
  exists cfg, r = run cfg /\ main_cfg_ok path_exists cfg /\
    cfg_pdf_path cfg = a_pdf_path args /\ cfg_output_dir cfg = a_output args /\
    (c = 0%Z <-> snd r <> None).
Proof.
  intros pe run args c r H. unfold main in H.
  destruct (pe (a_pdf_path args)) eqn:Hp; cbn [negb] in H; [|discriminate].
  destruct (a_translate args && negb (truthy (a_target_language args))) eqn:Ht; [discriminate|].
  destruct (match a_start_page args with Some sp => (sp <? 1)%Z | None => false end) eqn:Hs;
    [discriminate|].
  destruct (match a_end_page args, a_start_page args with
            | Some ep, Some sp => (ep <? sp)%Z | _, _ => false end) eqn:He; [discriminate|].
  match type of H with
  | context [run ?cfg0] => exists cfg0; set (cfg := cfg0) in *
  end.
  destruct (snd (run cfg)) as [d|] eqn:Er; injection H as <- <-.
  - split; [reflexivity|]. split.
    + unfold main_cfg_ok. cbn. repeat split.
      * exact Hp.
      * intros Htr. rewrite Htr in Ht. cbn in Ht. apply negb_false_iff. exact Ht.
      * intros sp Hsp. rewrite Hsp in Hs. apply Z.ltb_ge in Hs. exact Hs.
      * intros sp ep Hsp Hep. rewrite Hsp, Hep in He. apply Z.ltb_ge in He. exact He.
    + split; [reflexivity|]. split; [reflexivity|]. rewrite Er. split; [discriminate|reflexivity].
  - split; [reflexivity|]. split.
    + unfold main_cfg_ok. cbn. repeat split.
      * exact Hp.
      * intros Htr. rewrite Htr in Ht. cbn in Ht. apply negb_false_iff. exact Ht.
      * intros sp Hsp. rewrite Hsp in Hs. apply Z.ltb_ge in Hs. exact Hs.
      * intros sp ep Hsp Hep. rewrite Hsp, Hep in He. apply Z.ltb_ge in He. exact He.
    + split; [reflexivity|]. split; [reflexivity|]. rewrite Er.
      split; [discriminate|intros Hn; contradiction Hn; reflexivity].
Qed.

Lemma main_runs_validated_config_witness :
  main (fun _ => true)
       (fun cfg => process_datasheet post_letters shrink_none cfg (Some []) 3 example_pages empty_fs)
       (example_args (Some (u "fr"))) =
  (0%Z, Some (process_datasheet post_letters shrink_none
     {| cfg_pdf_path := u "docs/ds.pdf"; cfg_output_dir := u "out"; cfg_model := default_model;
        cfg_context_window := 0; cfg_translate := true; cfg_target_language := Some (u "fr");
        cfg_start_page := None; cfg_end_page := None; cfg_use_context := false |}
     (Some []) 3 example_pages empty_fs)) /\
  exists cfg, process_datasheet post_letters shrink_none
     {| cfg_pdf_path := u "docs/ds.pdf"; cfg_output_dir := u "out"; cfg_model := default_model;
        cfg_context_window := 0; cfg_translate := true; cfg_target_language := Some (u "fr");
        cfg_start_page := None; cfg_end_page := None; cfg_use_context := false |}
     (Some []) 3 example_pages empty_fs
     = process_datasheet post_letters shrink_none cfg (Some []) 3 example_pages empty_fs /\
    main_cfg_ok (fun _ => true) cfg /\
    cfg_pdf_path cfg = u "docs/ds.pdf" /\ cfg_output_dir cfg = u "out" /\
    (0%Z = 0%Z <-> snd (process_datasheet post_letters shrink_none
     {| cfg_pdf_path := u "docs/ds.pdf"; cfg_output_dir := u "out"; cfg_model := default_model;
        cfg_context_window := 0; cfg_translate := true; cfg_target_language := Some (u "fr");
        cfg_start_page := None; cfg_end_page := None; cfg_use_context := false |}
     (Some []) 3 example_pages empty_fs) <> None).
Proof.
  assert (H : main (fun _ => true)
       (fun cfg => process_datasheet post_letters shrink_none cfg (Some []) 3 example_pages empty_fs)
       (example_args (Some (u "fr"))) =
  (0%Z, Some (process_datasheet post_letters shrink_none
     {| cfg_pdf_path := u "docs/ds.pdf"; cfg_output_dir := u "out"; cfg_model := default_model;
        cfg_context_window := 0; cfg_translate := true; cfg_target_language := Some (u "fr");
        cfg_start_page := None; cfg_end_page := None; cfg_use_context := false |}
     (Some []) 3 example_pages empty_fs))) by reflexivity.
  split; [exact H|].
  exact (main_runs_validated_config (fun _ => true)
           (fun cfg => process_datasheet post_letters shrink_none cfg (Some []) 3 example_pages empty_fs)
           (example_args (Some (u "fr"))) _ _ H).
Defined.

(** The merged document goes to a file of its own: writing it never
    overwrites the markdown file of any page. *)
Theorem full_md_file_not_page_file : forall cfg name page_num,
  full_md_file cfg name <> page_md_file cfg name page_num.
Proof.
  intros cfg name pn E. unfold full_md_file, page_md_file in E.
  apply path_join_inj in E; [|destruct name; reflexivity].
  apply app_inv_head in E. discriminate E.
Qed.
